(** * fast-webgl: a shallow embedding of the WebGL wrapper

    The three classes of the library ([Shader], [Texture], [FastWebGL]) are
    embedded as modules of state-passing functions.  The rendering context,
    the canvas, the console and the window are the [World]; a method that
    may [throw] is a function from worlds to an [Outcome] and a new world, so
    that the calls issued before an exception stay observable. *)

From stdpp Require Import gmap strings list fin_maps.
From Stdlib Require Import ZArith QArith.

Local Open Scope string_scope.
Local Open Scope Z_scope.
Local Open Scope list_scope.

(** ** Opaque objects handed out by the graphics layer *)

Inductive WebGLShader := ShaderHandle (id : nat).
Inductive WebGLProgram := ProgramHandle (id : nat).
Inductive WebGLTexture := TextureHandle (id : nat).
Inductive WebGLBuffer := BufferHandle (id : nat).
Inductive WebGLUniformLocation := LocationHandle (id : nat).

Inductive Handle :=
| HShader (s : WebGLShader)
| HProgram (p : WebGLProgram)
| HTexture (t : WebGLTexture)
| HBuffer (b : WebGLBuffer).

#[global] Instance WebGLShader_eq_dec : EqDecision WebGLShader.
Proof. solve_decision. Defined.
#[global] Instance WebGLProgram_eq_dec : EqDecision WebGLProgram.
Proof. solve_decision. Defined.
#[global] Instance WebGLTexture_eq_dec : EqDecision WebGLTexture.
Proof. solve_decision. Defined.
#[global] Instance WebGLBuffer_eq_dec : EqDecision WebGLBuffer.
Proof. solve_decision. Defined.
#[global] Instance Handle_eq_dec : EqDecision Handle.
Proof. solve_decision. Defined.

(** ** Objects used as maps from names

    The registries of the library are plain objects ([{}]) indexed by
    uniform names.  Reading [o[name]] finds the property stored under the
    name or else the member of that name that every plain object inherits
    from [Object.prototype]; these members are functions (and the
    prototype object itself for [__proto__]), all of them truthy. *)

Definition Object_prototype : list string :=
  ["constructor"; "hasOwnProperty"; "isPrototypeOf"; "propertyIsEnumerable";
   "toLocaleString"; "toString"; "valueOf"; "__proto__";
   "__defineGetter__"; "__defineSetter__"; "__lookupGetter__";
   "__lookupSetter__"].

(** What [this.uniforms[name]] is when it is truthy: a location stored
    under the name, or the inherited member of that name. *)
Inductive LocationValue :=
| Stored (location : WebGLUniformLocation)
| Inherited (member : string).

Coercion Stored : WebGLUniformLocation >-> LocationValue.

(** ** Enumerated constants of [WebGLRenderingContext] used by the code *)

Inductive ShaderType := VERTEX_SHADER | FRAGMENT_SHADER.

(** src/types.ts: [FilterMode] and [WrapMode]. *)
Inductive FilterMode :=
| NEAREST | LINEAR
| NEAREST_MIPMAP_NEAREST | LINEAR_MIPMAP_NEAREST
| NEAREST_MIPMAP_LINEAR | LINEAR_MIPMAP_LINEAR.

Inductive WrapMode := CLAMP_TO_EDGE | REPEAT | MIRRORED_REPEAT.

Inductive TexParameter :=
| TEXTURE_MIN_FILTER | TEXTURE_MAG_FILTER | TEXTURE_WRAP_S | TEXTURE_WRAP_T.

Inductive TexParameterValue :=
| FilterValue (f : FilterMode)
| WrapValue (m : WrapMode).

Inductive DrawMode := TRIANGLES.
Inductive ClearMask := COLOR_BUFFER_BIT.
Inductive BufferTarget := ARRAY_BUFFER.
Inductive BufferUsage := STATIC_DRAW.
Inductive DataType := FLOAT.
Inductive TextureTarget := TEXTURE_2D.
Inductive PixelFormat := RGBA.
Inductive PixelType := UNSIGNED_BYTE.

(** src/types.ts: [TextureOptions]; every field is optional. *)
Record TextureOptions := {
  minFilter : option FilterMode;
  magFilter : option FilterMode;
  wrapS : option WrapMode;
  wrapT : option WrapMode;
}.

(** A JavaScript [Error] object: only its message is observed. *)
Record Error := { message : string }.

Inductive Outcome (A : Type) :=
| Return (a : A)
| Throw (e : Error).
Arguments Return {A} a.
Arguments Throw {A} e.

(** ** The dimensions of the canvas

    The sizes the library is given are JavaScript numbers; the finite ones
    are the rationals.  [HTMLCanvasElement.width] and [.height] are
    [unsigned long] attributes that reflect a content attribute with a
    default (300 and 150).  Assigning a number first converts it to
    [unsigned long] (truncation towards zero, then reduction modulo 2^32);
    a result above 2147483647 is replaced by the default. *)

Definition unsigned_long (v : Q) : Z :=
  (Qnum v ÷ Zpos (Qden v)) mod 4294967296.

Definition canvas_dimension (default : Z) (v : Q) : Z :=
  let n := unsigned_long v in
  if n <=? 2147483647 then n else default.

(** The sizes a canvas keeps as they are: the whole numbers from 0 to
    2147483647. *)
Definition kept_by_canvas (v : Q) : bool :=
  (Qden v =? 1)%positive && (0 <=? Qnum v) && (Qnum v <=? 2147483647).

Section Graphics.
(** The JavaScript [number]s carried by uniform values are never inspected
    by the library; they are an arbitrary type. *)
Context {num : Type}.

(** src/types.ts: the [value] of a [Uniform] is [number | number[]]. *)
Inductive UniformValue :=
| VNum (x : num)
| VArr (xs : list num).

(** The state-changing commands sent to the rendering context, with what
    the allocating ones returned ([None] is JavaScript's [null]).
    [activeTexture unit] is the call with [gl.TEXTURE0 + unit], and the data
    of [bufferData] are the numbers of the [Float32Array]. *)
Inductive GLCall :=
| createShader (type : ShaderType) (result : option WebGLShader)
| shaderSource (shader : WebGLShader) (source : string)
| compileShader (shader : WebGLShader)
| deleteShader (shader : WebGLShader)
| createProgram (result : option WebGLProgram)
| attachShader (program : WebGLProgram) (shader : WebGLShader)
| linkProgram (program : WebGLProgram)
| validateProgram (program : WebGLProgram)
| deleteProgram (program : WebGLProgram)
| useProgram (program : WebGLProgram)
| createTexture (result : option WebGLTexture)
| deleteTexture (texture : WebGLTexture)
| activeTexture (unit : nat)
| bindTexture (target : TextureTarget) (texture : WebGLTexture)
| texImage2D (target : TextureTarget) (level : Z)
    (internalformat format : PixelFormat) (type : PixelType) (image : string)
| texParameteri (target : TextureTarget) (pname : TexParameter)
    (param : TexParameterValue)
| uniform1i (location : option WebGLUniformLocation) (v : nat)
| createBuffer (result : option WebGLBuffer)
| bindBuffer (target : BufferTarget) (buffer : WebGLBuffer)
| bufferData (target : BufferTarget) (data : list Z) (usage : BufferUsage)
| enableVertexAttribArray (index : Z)
| vertexAttribPointer (index : Z) (size : Z) (type : DataType)
    (normalized : bool) (stride offset : Z)
| uniform1f (location : LocationValue) (x : num)
| uniform2f (location : LocationValue) (x y : num)
| uniform3f (location : LocationValue) (x y z : num)
| uniform4f (location : LocationValue) (x y z w : num)
| viewport (x y : Z) (width height : Q)
| clearColor (r g b a : Z)
| clear (mask : ClearMask)
| drawArrays (mode : DrawMode) (first count : Z).

(** What the host answers: the browser, the driver and the clock.  The
    library only reads these.  [uniform_type_error] is what [uniform1f] to
    [uniform4f] do with a first argument that is not a
    [WebGLUniformLocation]: the binding of a browser throws a [TypeError]
    with this message before any command is issued; a stand-in that only
    records its calls ([None]) takes the argument as it is. *)
Record Driver := {
  context_available : bool;
  alloc_ok : nat -> bool;
  compile_status : WebGLShader -> bool;
  shader_info_log : WebGLShader -> string;
  link_status : WebGLProgram -> bool;
  validate_status : WebGLProgram -> bool;
  program_info_log : WebGLProgram -> string;
  attrib_location : WebGLProgram -> string -> Z;
  uniform_location : WebGLProgram -> string -> option WebGLUniformLocation;
  uniform_type_error : option string;
  innerWidth : Z;
  innerHeight : Z;
  performance_now : num;
}.

(** Everything outside the three classes.  [this.canvas] and [gl.canvas]
    are the same element, so there is one pair of canvas dimensions. *)
Record World := {
  env : Driver;
  fresh : nat;
  gl_log : list GLCall;
  console : list string;
  canvas_width : Z;
  canvas_height : Z;
  image_requests : list string;
}.

Definition M (A : Type) : Type := World -> Outcome A * World.

Definition ret {A} (a : A) : M A := fun w => (Return a, w).

Definition throw {A} (msg : string) : M A :=
  fun w => (Throw {| message := msg |}, w).

Definition bind {A B} (m : M A) (k : A -> M B) : M B :=
  fun w =>
    match m w with
    | (Return a, w') => k a w'
    | (Throw e, w') => (Throw e, w')
    end.

Definition ask {A} (f : Driver -> A) : M A := fun w => (Return (f (env w)), w).

Definition emit (c : GLCall) : M unit :=
  fun w =>
    (Return tt,
     {| env := env w; fresh := fresh w; gl_log := gl_log w ++ [c];
        console := console w; canvas_width := canvas_width w;
        canvas_height := canvas_height w;
        image_requests := image_requests w |}).

(** An allocation request: the host decides whether the [fresh w]-th
    request of the run succeeds. *)
Definition allocate : M (option nat) :=
  fun w =>
    (Return (if alloc_ok (env w) (fresh w) then Some (fresh w) else None),
     {| env := env w; fresh := S (fresh w); gl_log := gl_log w;
        console := console w; canvas_width := canvas_width w;
        canvas_height := canvas_height w;
        image_requests := image_requests w |}).

Definition console_warn (msg : string) : M unit :=
  fun w =>
    (Return tt,
     {| env := env w; fresh := fresh w; gl_log := gl_log w;
        console := console w ++ [msg]; canvas_width := canvas_width w;
        canvas_height := canvas_height w;
        image_requests := image_requests w |}).

(** [canvas.width = width; canvas.height = height]. *)
Definition set_canvas_size (width height : Q) : M unit :=
  fun w =>
    (Return tt,
     {| env := env w; fresh := fresh w; gl_log := gl_log w;
        console := console w;
        canvas_width := canvas_dimension 300 width;
        canvas_height := canvas_dimension 150 height;
        image_requests := image_requests w |}).

Definition get_canvas_size : M (Z * Z) :=
  fun w => (Return (canvas_width w, canvas_height w), w).

Definition request_image (src : string) : M unit :=
  fun w =>
    (Return tt,
     {| env := env w; fresh := fresh w; gl_log := gl_log w;
        console := console w; canvas_width := canvas_width w;
        canvas_height := canvas_height w;
        image_requests := image_requests w ++ [src] |}).

(** [Array.prototype.forEach] with a callback that mutates the receiver
    [s]. *)
Fixpoint forEach {A S} (f : S -> A -> M S) (l : list A) (s : S) : M S :=
  match l with
  | [] => ret s
  | a :: l' => bind (f s a) (forEach f l')
  end.

(** [Array.prototype.map] with the [(element, index)] callback; an
    exception of the callback leaves the loop. *)
Fixpoint map_indexed {A B} (f : A -> nat -> M B) (i : nat) (l : list A)
  : M (list B) :=
  match l with
  | [] => ret []
  | a :: l' =>
      bind (f a i) (fun b =>
      bind (map_indexed f (S i) l') (fun bs => ret (b :: bs)))
  end.
End Graphics.

Arguments UniformValue num : clear implicits.
Arguments GLCall num : clear implicits.
Arguments Driver num : clear implicits.
Arguments World num : clear implicits.
Arguments M num A : clear implicits.

Notation "'let*' x ':=' m 'in' k" := (bind m (fun x => k))
  (at level 10, x name, m at level 100, k at level 200).
Notation "m ';;' k" := (bind m (fun _ => k))
  (at level 100, k at level 200, right associativity).

(** ** The methods of [WebGLRenderingContext] the library calls *)

Module GL.
Section GL.
Context {num : Type}.
Local Abbreviation M := (M num).

Definition createShader (type : ShaderType) : M (option WebGLShader) :=
  let* n := allocate in
  let result := ShaderHandle <$> n in
  emit (createShader type result) ;;
  ret result.

Definition shaderSource (shader : WebGLShader) (source : string) : M unit :=
  emit (shaderSource shader source).

Definition compileShader (shader : WebGLShader) : M unit :=
  emit (compileShader shader).

Definition getShaderParameter_COMPILE_STATUS (shader : WebGLShader) : M bool :=
  ask (fun d => compile_status d shader).

Definition getShaderInfoLog (shader : WebGLShader) : M string :=
  ask (fun d => shader_info_log d shader).

Definition deleteShader (shader : WebGLShader) : M unit :=
  emit (deleteShader shader).

Definition createProgram : M (option WebGLProgram) :=
  let* n := allocate in
  let result := ProgramHandle <$> n in
  emit (createProgram result) ;;
  ret result.

Definition attachShader (program : WebGLProgram) (shader : WebGLShader)
  : M unit :=
  emit (attachShader program shader).

Definition linkProgram (program : WebGLProgram) : M unit :=
  emit (linkProgram program).

Definition validateProgram (program : WebGLProgram) : M unit :=
  emit (validateProgram program).

Definition getProgramParameter_LINK_STATUS (program : WebGLProgram) : M bool :=
  ask (fun d => link_status d program).

Definition getProgramParameter_VALIDATE_STATUS (program : WebGLProgram)
  : M bool :=
  ask (fun d => validate_status d program).

Definition getProgramInfoLog (program : WebGLProgram) : M string :=
  ask (fun d => program_info_log d program).

Definition deleteProgram (program : WebGLProgram) : M unit :=
  emit (deleteProgram program).

Definition useProgram (program : WebGLProgram) : M unit :=
  emit (useProgram program).

Definition createTexture : M (option WebGLTexture) :=
  let* n := allocate in
  let result := TextureHandle <$> n in
  emit (createTexture result) ;;
  ret result.

Definition deleteTexture (texture : WebGLTexture) : M unit :=
  emit (deleteTexture texture).

Definition activeTexture (unit : nat) : M Datatypes.unit :=
  emit (activeTexture unit).

Definition bindTexture (target : TextureTarget) (texture : WebGLTexture)
  : M unit :=
  emit (bindTexture target texture).

Definition texImage2D (target : TextureTarget) (level : Z)
    (internalformat format : PixelFormat) (type : PixelType) (image : string)
  : M unit :=
  emit (texImage2D target level internalformat format type image).

Definition texParameteri (target : TextureTarget) (pname : TexParameter)
    (param : TexParameterValue) : M unit :=
  emit (texParameteri target pname param).

Definition uniform1i (location : option WebGLUniformLocation) (v : nat)
  : M unit :=
  emit (uniform1i location v).

Definition createBuffer : M (option WebGLBuffer) :=
  let* n := allocate in
  let result := BufferHandle <$> n in
  emit (createBuffer result) ;;
  ret result.

Definition bindBuffer (target : BufferTarget) (buffer : WebGLBuffer)
  : M unit :=
  emit (bindBuffer target buffer).

Definition bufferData (target : BufferTarget) (data : list Z)
    (usage : BufferUsage) : M unit :=
  emit (bufferData target data usage).

Definition enableVertexAttribArray (index : Z) : M unit :=
  emit (enableVertexAttribArray index).

Definition vertexAttribPointer (index size : Z) (type : DataType)
    (normalized : bool) (stride offset : Z) : M unit :=
  emit (vertexAttribPointer index size type normalized stride offset).

Definition getAttribLocation (program : WebGLProgram) (name : string) : M Z :=
  ask (fun d => attrib_location d program name).

Definition getUniformLocation (program : WebGLProgram) (name : string)
  : M (option WebGLUniformLocation) :=
  ask (fun d => uniform_location d program name).

(** The conversion of the first argument of [uniform1f] to [uniform4f]
    to a [WebGLUniformLocation]. *)
Definition location_argument (location : LocationValue) : M unit :=
  match location with
  | Stored _ => ret tt
  | Inherited _ =>
      let* error := ask uniform_type_error in
      match error with
      | Some msg => throw msg
      | None => ret tt
      end
  end.

Definition uniform1f (location : LocationValue) (x : num) : M unit :=
  location_argument location ;;
  emit (uniform1f location x).

Definition uniform2f (location : LocationValue) (x y : num) : M unit :=
  location_argument location ;;
  emit (uniform2f location x y).

Definition uniform3f (location : LocationValue) (x y z : num) : M unit :=
  location_argument location ;;
  emit (uniform3f location x y z).

Definition uniform4f (location : LocationValue) (x y z w : num) : M unit :=
  location_argument location ;;
  emit (uniform4f location x y z w).

Definition viewport (x y : Z) (width height : Q) : M unit :=
  emit (viewport x y width height).

Definition clearColor (r g b a : Z) : M unit :=
  emit (clearColor r g b a).

Definition clear (mask : ClearMask) : M unit :=
  emit (clear mask).

Definition drawArrays (mode : DrawMode) (first count : Z) : M unit :=
  emit (drawArrays mode first count).
End GL.
End GL.

(** ** src/shader.ts *)

Module Shader.
Section Shader.
Context {num : Type}.
Local Abbreviation M := (M num).

(** The [gl] field is the rendering context of the world. *)
Record t := { shader : WebGLShader }.

Definition createShader (type : ShaderType) (source : string)
  : M WebGLShader :=
  let* shader := GL.createShader type in
  match shader with
  | None => throw "Error creating shader."
  | Some shader =>
      GL.shaderSource shader source ;;
      GL.compileShader shader ;;
      let* status := GL.getShaderParameter_COMPILE_STATUS shader in
      if negb status then
        let* info := GL.getShaderInfoLog shader in
        GL.deleteShader shader ;;
        throw ("Error compiling shader:" +:+ info)
      else ret shader
  end.

Definition new (type : ShaderType) (source : string) : M t :=
  let* shader := createShader type source in
  ret {| shader := shader |}.

Definition getShader (self : t) : WebGLShader := shader self.

Definition dispose (self : t) : M unit := GL.deleteShader (shader self).
End Shader.
End Shader.

(** ** src/texture.ts *)

Module Texture.
Module TextureParams.
Record t := {
  program : WebGLProgram;
  unit : nat;
  name : string;
  source : string;
  options : option TextureOptions;
}.
End TextureParams.

(** The [gl] field is the rendering context of the world. *)
Record t := {
  program : WebGLProgram;
  texture : WebGLTexture;
  unit : nat;
  name : string;
  source : string;
  options : TextureOptions;
}.

Section Texture.
Context {num : Type}.
Local Abbreviation M := (M num).

Definition createTexture : M WebGLTexture :=
  let* texture := GL.createTexture in
  match texture with
  | None => throw "Failed to create WebGL texture."
  | Some texture => ret texture
  end.

(** The [onload] handler that [loadTexture] installs on the image; the
    host runs it once the image has arrived. *)
Definition onload (self : t) : M Datatypes.unit :=
  GL.activeTexture (unit self) ;;
  GL.bindTexture TEXTURE_2D (texture self) ;;
  GL.texImage2D TEXTURE_2D 0 RGBA RGBA UNSIGNED_BYTE (source self) ;;
  GL.texParameteri TEXTURE_2D TEXTURE_MIN_FILTER
    (FilterValue (default LINEAR (minFilter (options self)))) ;;
  GL.texParameteri TEXTURE_2D TEXTURE_MAG_FILTER
    (FilterValue (default LINEAR (magFilter (options self)))) ;;
  GL.texParameteri TEXTURE_2D TEXTURE_WRAP_S
    (WrapValue (default CLAMP_TO_EDGE (wrapS (options self)))) ;;
  GL.texParameteri TEXTURE_2D TEXTURE_WRAP_T
    (WrapValue (default CLAMP_TO_EDGE (wrapT (options self)))) ;;
  let* location := GL.getUniformLocation (program self) (name self) in
  GL.uniform1i location (unit self).

(** The [onerror] handler. *)
Definition onerror (self : t) : M Datatypes.unit :=
  throw ("Failed to load image: " +:+ source self).

(** Creates the image and sets its [src]: the load is started and the
    constructor goes on without waiting for it. *)
Definition loadTexture (self : t) : M Datatypes.unit :=
  request_image (source self).

Definition new (params : TextureParams.t) : M t :=
  let* texture := createTexture in
  let self :=
    {| program := TextureParams.program params;
       texture := texture;
       unit := TextureParams.unit params;
       name := TextureParams.name params;
       source := TextureParams.source params;
       options :=
         default {| minFilter := None; magFilter := None;
                    wrapS := None; wrapT := None |}
                 (TextureParams.options params) |} in
  loadTexture self ;;
  ret self.

Definition getTexture (self : t) : WebGLTexture := texture self.

Definition dispose (self : t) : M Datatypes.unit :=
  GL.deleteTexture (texture self).
End Texture.
End Texture.

(** ** src/texture.ts, second part: the [FastWebGL] class *)

Module Uniform.
(** src/types.ts: [Uniform]. *)
Record t {num : Type} := { name : string; value : UniformValue num }.
Arguments t num : clear implicits.
End Uniform.

Module FastWebGL.
Module TextureDescriptor.
Record t := {
  name : string;
  source : string;
  options : option TextureOptions;
}.
End TextureDescriptor.

Module Options.
Record t := { width : option Q; height : option Q }.
End Options.

(** [Params]; [canvas] is the canvas of the world, and an absent
    [textures], [uniforms] or [options] is its default ([[]], [[]], [{}]). *)
Module Params.
Record t {num : Type} := {
  vertexSource : string;
  fragmentSource : string;
  textures : list TextureDescriptor.t;
  uniforms : list (Uniform.t num);
  options : Options.t;
}.
Arguments t num : clear implicits.
End Params.

(** The fields of an instance; [canvas] and [gl] are in the world.  The
    two registries are objects used as maps from uniform names; a finite
    map holds the names stored in them, and what a read finds besides is
    in [Object_prototype].  [width] and [height] hold the numbers as they
    were given. *)
Record t {num : Type} := {
  width : Q;
  height : Q;
  vertexShader : Shader.t;
  fragmentShader : Shader.t;
  program : WebGLProgram;
  textures : list Texture.t;
  uniforms : gmap string WebGLUniformLocation;
  uniformValues : gmap string (UniformValue num);
  attribLocations : gmap string Z;
  startTime : num;
}.
Arguments t num : clear implicits.

Section FastWebGL.
Context {num : Type} `{!Inhabited num}.
Local Abbreviation M := (M num).
Local Abbreviation t := (t num).

(** Assignments to fields of [this]. *)
Definition set_size (self : t) (w h : Q) : t :=
  {| width := w; height := h;
     vertexShader := vertexShader self;
     fragmentShader := fragmentShader self;
     program := program self; textures := textures self;
     uniforms := uniforms self; uniformValues := uniformValues self;
     attribLocations := attribLocations self;
     startTime := startTime self |}.

Definition set_uniforms (self : t)
    (m : gmap string WebGLUniformLocation) : t :=
  {| width := width self; height := height self;
     vertexShader := vertexShader self;
     fragmentShader := fragmentShader self;
     program := program self; textures := textures self;
     uniforms := m; uniformValues := uniformValues self;
     attribLocations := attribLocations self;
     startTime := startTime self |}.

Definition set_uniformValues (self : t)
    (m : gmap string (UniformValue num)) : t :=
  {| width := width self; height := height self;
     vertexShader := vertexShader self;
     fragmentShader := fragmentShader self;
     program := program self; textures := textures self;
     uniforms := uniforms self; uniformValues := m;
     attribLocations := attribLocations self;
     startTime := startTime self |}.

Definition set_attribLocations (self : t) (m : gmap string Z) : t :=
  {| width := width self; height := height self;
     vertexShader := vertexShader self;
     fragmentShader := fragmentShader self;
     program := program self; textures := textures self;
     uniforms := uniforms self; uniformValues := uniformValues self;
     attribLocations := m;
     startTime := startTime self |}.

Definition createContext : M unit :=
  let* context := ask context_available in
  if negb context then throw "WebGL not supported." else ret tt.

Definition createProgram (vertexShader fragmentShader : Shader.t)
  : M WebGLProgram :=
  let* program := GL.createProgram in
  match program with
  | None => throw "Unable to create shader program."
  | Some program =>
      GL.attachShader program (Shader.getShader vertexShader) ;;
      GL.attachShader program (Shader.getShader fragmentShader) ;;
      GL.linkProgram program ;;
      GL.validateProgram program ;;
      let* linked := GL.getProgramParameter_LINK_STATUS program in
      if negb linked then
        let* info := GL.getProgramInfoLog program in
        GL.deleteProgram program ;;
        throw ("Error linking program: " +:+ info)
      else
        let* valid := GL.getProgramParameter_VALIDATE_STATUS program in
        (if negb valid then
           let* info := GL.getProgramInfoLog program in
           console_warn ("Error validating program: " +:+ info)
         else ret tt) ;;
        ret program
  end.

Definition getProgram (self : t) : WebGLProgram := program self.

(** [value !!! i] is [value[i]]; under [case n] the index is below the
    length [n], so the default of [!!!] is never taken.  The parameter is
    declared a [WebGLUniformLocation]; [updateUniform] passes what it read
    from the registry. *)
Definition setUniformValue (location : LocationValue)
    (value : UniformValue num) : M unit :=
  match value with
  | VNum value => GL.uniform1f location value
  | VArr value =>
      match length value with
      | 1%nat => GL.uniform1f location (value !!! 0%nat)
      | 2%nat => GL.uniform2f location (value !!! 0%nat) (value !!! 1%nat)
      | 3%nat =>
          GL.uniform3f location (value !!! 0%nat) (value !!! 1%nat)
            (value !!! 2%nat)
      | 4%nat =>
          GL.uniform4f location (value !!! 0%nat) (value !!! 1%nat)
            (value !!! 2%nat) (value !!! 3%nat)
      | _ => ret tt
      end
  end.

Definition setUniforms (self : t) (uniforms : list (Uniform.t num)) : M t :=
  forEach
    (fun (self : t) (uniform : Uniform.t num) =>
       let name := Uniform.name uniform in
       let value := Uniform.value uniform in
       let* location := GL.getUniformLocation (program self) name in
       match location with
       | None => ret self
       | Some location =>
           let self :=
             set_uniforms self
               (<[name := location]> (FastWebGL.uniforms self)) in
           let self :=
             set_uniformValues self
               (<[name := value]> (uniformValues self)) in
           setUniformValue location value ;;
           ret self
       end)
    uniforms self.

Definition draw (self : t) : M unit :=
  let* canvas := get_canvas_size in
  GL.viewport 0 0 (inject_Z (fst canvas)) (inject_Z (snd canvas)) ;;
  GL.clearColor 0 0 0 0 ;;
  GL.clear COLOR_BUFFER_BIT ;;
  GL.useProgram (program self) ;;
  GL.drawArrays TRIANGLES 0 6.

(** [this.uniformValues[name] = value] for a name that is not stored in
    the object: it becomes an own property, except [__proto__], whose
    setter on [Object.prototype] defines none (it ignores a number and
    makes an array the prototype of the registry, which nothing reads). *)
Definition assign_new (name : string) (value : UniformValue num)
    (o : gmap string (UniformValue num)) : gmap string (UniformValue num) :=
  if decide (name = "__proto__") then o else <[name := value]> o.

(** [this.uniforms[name]] is the location registered under [name], or the
    member of [Object.prototype] called [name], or [undefined]; the first
    two pass [if (location)].  The two registries are filled together, so a
    registered name is stored in both. *)
Definition updateUniform (self : t) (name : string)
    (value : UniformValue num) : M t :=
  match uniforms self !! name with
  | Some location =>
      let self :=
        set_uniformValues self (<[name := value]> (uniformValues self)) in
      setUniformValue (Stored location) value ;;
      draw self ;;
      ret self
  | None =>
      if decide (name ∈ Object_prototype) then
        let self :=
          set_uniformValues self
            (assign_new name value (uniformValues self)) in
        setUniformValue (Inherited name) value ;;
        draw self ;;
        ret self
      else ret self
  end.

(** The fields of [this] when [updateUniform] is left, by its return or by
    an exception of the upload: the assignment to [uniformValues] is made
    before the upload is called. *)
Definition updateUniform_fields (self : t) (name : string)
    (value : UniformValue num) : t :=
  match uniforms self !! name with
  | Some _ =>
      set_uniformValues self (<[name := value]> (uniformValues self))
  | None =>
      if decide (name ∈ Object_prototype) then
        set_uniformValues self (assign_new name value (uniformValues self))
      else self
  end.

Definition setupAttributes (self : t) : M t :=
  let* positionAttributeLocation :=
    GL.getAttribLocation (program self) "a_position" in
  let self :=
    set_attribLocations self
      (<["a_position" := positionAttributeLocation]> (attribLocations self)) in
  let* positionBuffer := GL.createBuffer in
  match positionBuffer with
  | None => throw "Unable to create buffer."
  | Some positionBuffer =>
      GL.bindBuffer ARRAY_BUFFER positionBuffer ;;
      let positions := [-1; -1; 1; -1; -1; 1; -1; 1; 1; -1; 1; 1] in
      GL.bufferData ARRAY_BUFFER positions STATIC_DRAW ;;
      GL.enableVertexAttribArray positionAttributeLocation ;;
      GL.vertexAttribPointer positionAttributeLocation 2 FLOAT false 0 0 ;;
      ret self
  end.

Definition resize (self : t) (width height : Q) : M t :=
  let self := set_size self width height in
  set_canvas_size width height ;;
  GL.viewport 0 0 width height ;;
  ret self.

Definition dispose (self : t) : M unit :=
  GL.deleteProgram (program self) ;;
  Shader.dispose (vertexShader self) ;;
  Shader.dispose (fragmentShader self) ;;
  forEach (fun (_ : unit) texture => Texture.dispose texture)
    (textures self) tt.

Definition new (params : Params.t num) : M t :=
  createContext ;;
  let* innerWidth := ask innerWidth in
  let* innerHeight := ask innerHeight in
  let width :=
    default (inject_Z innerWidth) (Options.width (Params.options params)) in
  let height :=
    default (inject_Z innerHeight)
      (Options.height (Params.options params)) in
  let* vertexShader :=
    Shader.new VERTEX_SHADER (Params.vertexSource params) in
  let* fragmentShader :=
    Shader.new FRAGMENT_SHADER (Params.fragmentSource params) in
  let* program := createProgram vertexShader fragmentShader in
  let* textures :=
    map_indexed
      (fun d i =>
         Texture.new
           {| Texture.TextureParams.program := program;
              Texture.TextureParams.unit := i;
              Texture.TextureParams.name := TextureDescriptor.name d;
              Texture.TextureParams.source := TextureDescriptor.source d;
              Texture.TextureParams.options := TextureDescriptor.options d |})
      0%nat (Params.textures params) in
  let* startTime := ask performance_now in
  let self :=
    {| width := width; height := height;
       vertexShader := vertexShader; fragmentShader := fragmentShader;
       program := program; textures := textures;
       uniforms := ∅; uniformValues := ∅; attribLocations := ∅;
       startTime := startTime |} in
  GL.useProgram program ;;
  let* self := setupAttributes self in
  let* self := setUniforms self (Params.uniforms params) in
  let* self := resize self width height in
  draw self ;;
  ret self.
End FastWebGL.
End FastWebGL.

(** ** Observations on worlds and logs *)

Section Observations.
Context {num : Type} `{!Inhabited num}.

(** The world after [calls] more commands reached the context. *)
Definition with_calls (w : World num) (calls : list (GLCall num))
  : World num :=
  {| env := env w; fresh := fresh w; gl_log := gl_log w ++ calls;
     console := console w; canvas_width := canvas_width w;
     canvas_height := canvas_height w;
     image_requests := image_requests w |}.

(** The handles a run of commands obtained, in order. *)
Definition created_by (c : GLCall num) : list Handle :=
  match c with
  | createShader _ (Some s) => [HShader s]
  | createProgram (Some p) => [HProgram p]
  | createTexture (Some t) => [HTexture t]
  | createBuffer (Some b) => [HBuffer b]
  | _ => []
  end.

Definition created (calls : list (GLCall num)) : list Handle :=
  flat_map created_by calls.

(** The handles a run of commands released, in order. *)
Definition released_by (c : GLCall num) : list Handle :=
  match c with
  | deleteShader s => [HShader s]
  | deleteProgram p => [HProgram p]
  | deleteTexture t => [HTexture t]
  | _ => []
  end.

Definition released (calls : list (GLCall num)) : list Handle :=
  flat_map released_by calls.

Definition is_drawArrays (c : GLCall num) : bool :=
  match c with drawArrays _ _ _ => true | _ => false end.

(** Number of redraws in a run of commands. *)
Definition count_draws (calls : list (GLCall num)) : nat :=
  length (filter is_drawArrays calls).

Definition is_uniform_upload (c : GLCall num) : bool :=
  match c with
  | uniform1f _ _ | uniform2f _ _ _ | uniform3f _ _ _ _
  | uniform4f _ _ _ _ _ => true
  | _ => false
  end.

(** The uploads of uniform values in a run of commands. *)
Definition uploads (calls : list (GLCall num)) : list (GLCall num) :=
  filter is_uniform_upload calls.

(** The values the encoding rule uploads: a scalar, or an array of one
    to four numbers. *)
Definition encodable (value : UniformValue num) : bool :=
  match value with
  | VNum _ => true
  | VArr xs => (1 <=? length xs)%nat && (length xs <=? 4)%nat
  end.

(** The five commands of one [draw()] of [program] on a canvas of the
    given size. *)
Definition draw_calls (program : WebGLProgram) (cw ch : Z)
  : list (GLCall num) :=
  [viewport 0 0 (inject_Z cw) (inject_Z ch); clearColor 0 0 0 0;
   clear COLOR_BUFFER_BIT; useProgram program; drawArrays TRIANGLES 0 6].

(** The handles an instance holds in its fields. *)
Definition owned_handles (self : FastWebGL.t num) : list Handle :=
  HProgram (FastWebGL.program self)
  :: HShader (Shader.shader (FastWebGL.vertexShader self))
  :: HShader (Shader.shader (FastWebGL.fragmentShader self))
  :: map (fun t => HTexture (Texture.texture t)) (FastWebGL.textures self).

(** A caller issuing [updateUniform] calls one after the other. *)
Definition updateUniforms (self : FastWebGL.t num)
    (updates : list (string * UniformValue num))
  : M num (FastWebGL.t num) :=
  forEach (fun self u => FastWebGL.updateUniform self (fst u) (snd u))
    updates self.

(** The names of the descriptors whose uniform the linked program
    declares. *)
Definition found_names (d : Driver num) (program : WebGLProgram)
    (us : list (Uniform.t num)) : gset string :=
  list_to_set
    (map Uniform.name
       (filter
          (fun u => is_Some (uniform_location d program (Uniform.name u)))
          us)).

(** [w'] is [w] after [calls] more commands, with the same host. *)
Definition extends (w w' : World num) (calls : list (GLCall num)) : Prop :=
  env w' = env w ∧ gl_log w' = gl_log w ++ calls.

(** The ways a construction that starts with allocation counter [n] and
    [m] texture descriptors ends in an exception, each with the answer of
    the host that caused it, the message thrown, and what the commands
    sent so far released. *)
Inductive Aborted (d : Driver num) (n m : nat)
  : Error → list (GLCall num) → Prop :=
| context_unavailable :
    context_available d = false →
    Aborted d n m {| message := "WebGL not supported." |} []
| shader_not_created (j : nat) (type : ShaderType) calls :
    (j < 2)%nat →
    alloc_ok d (n + j) = false →
    released calls = [] →
    last calls = Some (createShader type None) →
    Aborted d n m {| message := "Error creating shader." |} calls
| shader_not_compiled (j : nat) calls :
    (j < 2)%nat →
    compile_status d (ShaderHandle (n + j)) = false →
    released calls = [HShader (ShaderHandle (n + j))] →
    last (created calls) = Some (HShader (ShaderHandle (n + j))) →
    last calls = Some (deleteShader (ShaderHandle (n + j))) →
    Aborted d n m
      {| message :=
           "Error compiling shader:"
           +:+ shader_info_log d (ShaderHandle (n + j)) |}
      calls
| program_not_created calls :
    alloc_ok d (n + 2) = false →
    released calls = [] →
    last calls = Some (createProgram None) →
    Aborted d n m {| message := "Unable to create shader program." |} calls
| program_not_linked calls :
    link_status d (ProgramHandle (n + 2)) = false →
    released calls = [HProgram (ProgramHandle (n + 2))] →
    last (created calls) = Some (HProgram (ProgramHandle (n + 2))) →
    last calls = Some (deleteProgram (ProgramHandle (n + 2))) →
    Aborted d n m
      {| message :=
           "Error linking program: "
           +:+ program_info_log d (ProgramHandle (n + 2)) |}
      calls
| texture_not_created (j : nat) calls :
    (j < m)%nat →
    alloc_ok d (n + 3 + j) = false →
    released calls = [] →
    last calls = Some (createTexture None) →
    Aborted d n m {| message := "Failed to create WebGL texture." |} calls
| buffer_not_created calls :
    alloc_ok d (n + 3 + m) = false →
    released calls = [] →
    last calls = Some (createBuffer None) →
    Aborted d n m {| message := "Unable to create buffer." |} calls.

(** Every answer of the host that the constructor depends on is
    favourable: the context exists, the [4 + m] allocations (two shaders,
    the program, [m] textures, the position buffer) succeed, both shaders
    compile and the program links. *)
Definition setup_ok (d : Driver num) (n m : nat) : Prop :=
  context_available d = true ∧
  (∀ k, (k < 4 + m)%nat → alloc_ok d (n + k) = true) ∧
  compile_status d (ShaderHandle n) = true ∧
  compile_status d (ShaderHandle (n + 1)) = true ∧
  link_status d (ProgramHandle (n + 2)) = true.

(** What a successful construction from allocation counter [n]
    establishes. *)
Definition Constructed (d : Driver num) (n : nat)
    (params : FastWebGL.Params.t num) (self : FastWebGL.t num) : Prop :=
  let m := length (FastWebGL.Params.textures params) in
  let p := ProgramHandle (n + 2) in
  setup_ok d n m ∧
  FastWebGL.vertexShader self = {| Shader.shader := ShaderHandle n |} ∧
  FastWebGL.fragmentShader self
    = {| Shader.shader := ShaderHandle (n + 1) |} ∧
  FastWebGL.program self = p ∧
  map Texture.unit (FastWebGL.textures self) = seq 0 m ∧
  map Texture.name (FastWebGL.textures self)
    = map FastWebGL.TextureDescriptor.name
        (FastWebGL.Params.textures params) ∧
  map Texture.source (FastWebGL.textures self)
    = map FastWebGL.TextureDescriptor.source
        (FastWebGL.Params.textures params) ∧
  map Texture.texture (FastWebGL.textures self)
    = map TextureHandle (seq (n + 3) m) ∧
  dom (FastWebGL.uniforms self)
    = found_names d p (FastWebGL.Params.uniforms params) ∧
  dom (FastWebGL.uniformValues self)
    = found_names d p (FastWebGL.Params.uniforms params).
End Observations.

(** ** Concrete hosts and parameters *)

Module Example.
(** Rational numbers stand for the JavaScript numbers of the examples. *)
#[global] Instance Q_inhabited : Inhabited Q := populate 0%Q.

(** A browser on which every step succeeds; the program declares [u_time]
    and [u_resolution], and validation of the program reports a warning. *)
Definition driver : Driver Q :=
  {| context_available := true;
     alloc_ok := fun _ => true;
     compile_status := fun _ => true;
     shader_info_log := fun _ => "";
     link_status := fun _ => true;
     validate_status := fun _ => false;
     program_info_log := fun _ => "no vertex array bound";
     attrib_location := fun _ _ => 0;
     uniform_location := fun _ name =>
       if String.eqb name "u_time" then Some (LocationHandle 0)
       else if String.eqb name "u_resolution" then Some (LocationHandle 1)
       else None;
     uniform_type_error :=
       Some "parameter 1 is not of type 'WebGLUniformLocation'.";
     innerWidth := 1024;
     innerHeight := 768;
     performance_now := 0%Q |}.

Definition world_of (d : Driver Q) : World Q :=
  {| env := d; fresh := 0; gl_log := []; console := [];
     canvas_width := 300; canvas_height := 150; image_requests := [] |}.

Definition world : World Q := world_of driver.

Definition params : FastWebGL.Params.t Q :=
  {| FastWebGL.Params.vertexSource := "attribute vec2 a_position;";
     FastWebGL.Params.fragmentSource := "uniform float u_time;";
     FastWebGL.Params.textures :=
       [ {| FastWebGL.TextureDescriptor.name := "u_tex0";
            FastWebGL.TextureDescriptor.source := "a.png";
            FastWebGL.TextureDescriptor.options := None |};
         {| FastWebGL.TextureDescriptor.name := "u_tex1";
            FastWebGL.TextureDescriptor.source := "b.png";
            FastWebGL.TextureDescriptor.options := None |} ];
     FastWebGL.Params.uniforms :=
       [ {| Uniform.name := "u_time"; Uniform.value := VNum 0%Q |};
         {| Uniform.name := "u_resolution";
            Uniform.value := VArr [800%Q; 600%Q] |};
         {| Uniform.name := "u_unused"; Uniform.value := VNum 1%Q |} ];
     FastWebGL.Params.options :=
       {| FastWebGL.Options.width := Some 800%Q;
          FastWebGL.Options.height := Some 600%Q |} |}.

(** The same answers from a stand-in for the context that records its
    calls and checks no argument. *)
Definition recording : Driver Q :=
  {| context_available := true;
     alloc_ok := fun _ => true;
     compile_status := fun _ => true;
     shader_info_log := fun _ => "";
     link_status := fun _ => true;
     validate_status := fun _ => false;
     program_info_log := fun _ => "no vertex array bound";
     attrib_location := fun _ _ => 0;
     uniform_location := fun _ name =>
       if String.eqb name "u_time" then Some (LocationHandle 0)
       else if String.eqb name "u_resolution" then Some (LocationHandle 1)
       else None;
     uniform_type_error := None;
     innerWidth := 1024;
     innerHeight := 768;
     performance_now := 0%Q |}.

(** The same host, except that the fragment shader (the second
    allocation) does not compile. *)
Definition fragment_rejected : Driver Q :=
  {| context_available := true;
     alloc_ok := fun _ => true;
     compile_status := fun s =>
       match s with ShaderHandle id => negb (Nat.eqb id 1) end;
     shader_info_log := fun _ => "ERROR: 0:1: syntax error";
     link_status := fun _ => true;
     validate_status := fun _ => true;
     program_info_log := fun _ => "";
     attrib_location := fun _ _ => 0;
     uniform_location := fun _ _ => None;
     uniform_type_error :=
       Some "parameter 1 is not of type 'WebGLUniformLocation'.";
     innerWidth := 1024;
     innerHeight := 768;
     performance_now := 0%Q |}.

(** The same host, except that the program does not link. *)
Definition link_rejected : Driver Q :=
  {| context_available := true;
     alloc_ok := fun _ => true;
     compile_status := fun _ => true;
     shader_info_log := fun _ => "";
     link_status := fun _ => false;
     validate_status := fun _ => false;
     program_info_log := fun _ => "varying v_uv not written";
     attrib_location := fun _ _ => 0;
     uniform_location := fun _ _ => None;
     uniform_type_error :=
       Some "parameter 1 is not of type 'WebGLUniformLocation'.";
     innerWidth := 1024;
     innerHeight := 768;
     performance_now := 0%Q |}.

(** An instance with one registered uniform, [u_time]. *)
Definition instance : FastWebGL.t Q :=
  {| FastWebGL.width := 800%Q; FastWebGL.height := 600%Q;
     FastWebGL.vertexShader := {| Shader.shader := ShaderHandle 0 |};
     FastWebGL.fragmentShader := {| Shader.shader := ShaderHandle 1 |};
     FastWebGL.program := ProgramHandle 2;
     FastWebGL.textures := [];
     FastWebGL.uniforms := {[ "u_time" := LocationHandle 0 ]};
     FastWebGL.uniformValues := {[ "u_time" := VNum 0%Q ]};
     FastWebGL.attribLocations := {[ "a_position" := 0 ]};
     FastWebGL.startTime := 0%Q |}.

(** The construction from [params] on the favourable host, and the
    instance it returns. *)
Definition construction : Outcome (FastWebGL.t Q) * World Q :=
  FastWebGL.new params world.

(** The stand-in after the same construction. *)
Definition recorded : World Q :=
  snd (FastWebGL.new params (world_of recording)).

Definition constructed : FastWebGL.t Q :=
  match fst construction with
  | Return self => self
  | Throw _ => instance
  end.
End Example.

(** ** Observations for the rest of the code *)

Section Behaviour.
Context {num : Type} `{!Inhabited num}.

(** The world after [k] more allocation requests, [calls] more commands,
    [warnings] more lines on the console and [images] more image loads. *)
Definition evolve (w : World num) (k : nat) (calls : list (GLCall num))
    (warnings images : list string) : World num :=
  {| env := env w; fresh := k + fresh w; gl_log := gl_log w ++ calls;
     console := console w ++ warnings; canvas_width := canvas_width w;
     canvas_height := canvas_height w;
     image_requests := image_requests w ++ images |}.

(** The command that uploads a uniform value, if there is one. *)
Definition upload_calls (location : LocationValue)
    (value : UniformValue num) : list (GLCall num) :=
  match value with
  | VNum x => [uniform1f location x]
  | VArr [a] => [uniform1f location a]
  | VArr [a; b] => [uniform2f location a b]
  | VArr [a; b; c] => [uniform3f location a b c]
  | VArr [a; b; c; d] => [uniform4f location a b c d]
  | VArr _ => []
  end.

(** The uploads of a list of descriptors, in order; a descriptor whose
    location is not found contributes nothing. *)
Definition registration_calls (d : Driver num) (p : WebGLProgram)
    (us : list (Uniform.t num)) : list (GLCall num) :=
  flat_map
    (fun u =>
       match uniform_location d p (Uniform.name u) with
       | Some location => upload_calls location (Uniform.value u)
       | None => []
       end)
    us.

(** The last descriptor called [name] whose location is found. *)
Definition last_found (d : Driver num) (p : WebGLProgram)
    (us : list (Uniform.t num)) (name : string) : option (Uniform.t num) :=
  last
    (filter
       (fun u => Uniform.name u = name ∧
                 is_Some (uniform_location d p (Uniform.name u)))
       us).

(** The value of the last update of [name] in a sequence of updates. *)
Definition last_update (updates : list (string * UniformValue num))
    (name : string) : option (UniformValue num) :=
  snd <$> last (filter (fun u => fst u = name) updates).

(** The texture units made from descriptors when the first has unit index
    [i] and receives the handle numbered [n]. *)
Fixpoint texture_units (p : WebGLProgram) (i n : nat)
    (descs : list FastWebGL.TextureDescriptor.t) : list Texture.t :=
  match descs with
  | [] => []
  | d :: descs' =>
      {| Texture.program := p;
         Texture.texture := TextureHandle n;
         Texture.unit := i;
         Texture.name := FastWebGL.TextureDescriptor.name d;
         Texture.source := FastWebGL.TextureDescriptor.source d;
         Texture.options :=
           default {| minFilter := None; magFilter := None;
                      wrapS := None; wrapT := None |}
                   (FastWebGL.TextureDescriptor.options d) |}
      :: texture_units p (S i) (S n) descs'
  end.

(** The width and height a construction resolves. *)
Definition resolved_width (d : Driver num) (params : FastWebGL.Params.t num)
  : Q :=
  default (inject_Z (innerWidth d))
    (FastWebGL.Options.width (FastWebGL.Params.options params)).

Definition resolved_height (d : Driver num) (params : FastWebGL.Params.t num)
  : Q :=
  default (inject_Z (innerHeight d))
    (FastWebGL.Options.height (FastWebGL.Params.options params)).

(** The commands of a construction on which every step succeeds, from
    allocation counter [n].  The [viewport] of [resize] carries the
    resolved size; the first [draw()] reads the size the canvas kept. *)
Definition construction_calls (d : Driver num) (n : nat)
    (params : FastWebGL.Params.t num) : list (GLCall num) :=
  let vs := ShaderHandle n in
  let fs := ShaderHandle (n + 1) in
  let p := ProgramHandle (n + 2) in
  let m := length (FastWebGL.Params.textures params) in
  let a := attrib_location d p "a_position" in
  [createShader VERTEX_SHADER (Some vs);
   shaderSource vs (FastWebGL.Params.vertexSource params);
   compileShader vs;
   createShader FRAGMENT_SHADER (Some fs);
   shaderSource fs (FastWebGL.Params.fragmentSource params);
   compileShader fs;
   createProgram (Some p);
   attachShader p vs; attachShader p fs;
   linkProgram p; validateProgram p]
  ++ map (fun k => createTexture (Some (TextureHandle k))) (seq (n + 3) m)
  ++ [useProgram p;
      createBuffer (Some (BufferHandle (n + 3 + m)));
      bindBuffer ARRAY_BUFFER (BufferHandle (n + 3 + m));
      bufferData ARRAY_BUFFER [-1; -1; 1; -1; -1; 1; -1; 1; 1; -1; 1; 1]
        STATIC_DRAW;
      enableVertexAttribArray a;
      vertexAttribPointer a 2 FLOAT false 0 0]
  ++ registration_calls d p (FastWebGL.Params.uniforms params)
  ++ [viewport 0 0 (resolved_width d params) (resolved_height d params)]
  ++ draw_calls p (canvas_dimension 300 (resolved_width d params))
       (canvas_dimension 150 (resolved_height d params)).

(** The world after [resize(width, height)]. *)
Definition resized (w : World num) (width height : Q) : World num :=
  {| env := env w; fresh := fresh w;
     gl_log := gl_log w ++ [viewport 0 0 width height];
     console := console w;
     canvas_width := canvas_dimension 300 width;
     canvas_height := canvas_dimension 150 height;
     image_requests := image_requests w |}.

(** The public operations a caller issues on an instance, [dispose]
    apart. *)
Inductive Call :=
| call_updateUniform (name : string) (value : UniformValue num)
| call_resize (width height : Q)
| call_draw.

Definition run_call (self : FastWebGL.t num) (c : Call)
  : M num (FastWebGL.t num) :=
  match c with
  | call_updateUniform name value => FastWebGL.updateUniform self name value
  | call_resize width height => FastWebGL.resize self width height
  | call_draw => FastWebGL.draw self ;; ret self
  end.

Definition run_calls (self : FastWebGL.t num) (cs : list Call)
  : M num (FastWebGL.t num) :=
  forEach run_call cs self.

(** The names [updateUniform] treats as the library means it to: a name
    is registered, or [this.uniforms[name]] is [undefined]. *)
Definition settled (locations : gmap string WebGLUniformLocation)
    (name : string) : bool :=
  bool_decide (is_Some (locations !! name) ∨ name ∉ Object_prototype).

(** The calls whose update, if any, is of such a name. *)
Definition regular (locations : gmap string WebGLUniformLocation)
    (c : Call) : bool :=
  match c with
  | call_updateUniform name _ => settled locations name
  | call_resize _ _ => true
  | call_draw => true
  end.

(** The calls whose sizes, if any, the canvas keeps as they are. *)
Definition fits (c : Call) : bool :=
  match c with
  | call_updateUniform _ _ => true
  | call_resize width height => kept_by_canvas width && kept_by_canvas height
  | call_draw => true
  end.

(** Whether a call redraws on an instance with the given registry of
    locations. *)
Definition redraws (locations : gmap string WebGLUniformLocation)
    (c : Call) : bool :=
  match c with
  | call_updateUniform name _ => bool_decide (is_Some (locations !! name))
  | call_resize _ _ => false
  | call_draw => true
  end.

(** The size a sequence of calls leaves in the fields [width] and
    [height], from the size [size] before. *)
Definition last_size (size : Q * Q) (cs : list Call) : Q * Q :=
  fold_left
    (fun size c =>
       match c with
       | call_resize width height => (width, height)
       | _ => size
       end)
    cs size.

(** The size a sequence of calls leaves the canvas with. *)
Definition last_canvas (size : Z * Z) (cs : list Call) : Z * Z :=
  fold_left
    (fun size c =>
       match c with
       | call_resize width height =>
           (canvas_dimension 300 width, canvas_dimension 150 height)
       | _ => size
       end)
    cs size.
End Behaviour.

Arguments Call num : clear implicits.

(** * Properties *)

Create HintDb webgl discriminated.

#[global] Hint Unfold
  GL.createShader GL.shaderSource GL.compileShader
  GL.getShaderParameter_COMPILE_STATUS GL.getShaderInfoLog GL.deleteShader
  GL.createProgram GL.attachShader GL.linkProgram GL.validateProgram
  GL.getProgramParameter_LINK_STATUS GL.getProgramParameter_VALIDATE_STATUS
  GL.getProgramInfoLog GL.deleteProgram GL.useProgram GL.createTexture
  GL.deleteTexture GL.activeTexture GL.bindTexture GL.texImage2D
  GL.texParameteri GL.uniform1i GL.createBuffer GL.bindBuffer GL.bufferData
  GL.enableVertexAttribArray GL.vertexAttribPointer GL.getAttribLocation
  GL.getUniformLocation GL.location_argument
  GL.uniform1f GL.uniform2f GL.uniform3f GL.uniform4f
  GL.viewport GL.clearColor GL.clear GL.drawArrays
  bind ret throw ask emit allocate console_warn set_canvas_size
  get_canvas_size request_image : webgl.

(** Runs the straight-line part of a method on a symbolic world. *)
Ltac run := autounfold with webgl; simpl; rewrite <- ?app_assoc; simpl.

Lemma canvas_dimension_kept (default : Z) (v : Q) :
  kept_by_canvas v = true → inject_Z (canvas_dimension default v) = v.
Proof.
  destruct v as [n d]. unfold kept_by_canvas. intros Hkept.
  apply andb_prop in Hkept as [Hkept Hmax].
  apply andb_prop in Hkept as [Hden Hmin].
  apply Pos.eqb_eq in Hden. apply Z.leb_le in Hmin, Hmax.
  simpl in Hden, Hmin, Hmax. subst d.
  unfold canvas_dimension, unsigned_long; simpl.
  rewrite Z.quot_1_r, Z.mod_small by lia.
  by rewrite (proj2 (Z.leb_le _ _)) by lia.
Qed.

(** The setter on numbers that the canvas does not keep: a negative
    width gives the default, a number beyond 32 bits wraps around, a
    fraction is truncated, and a height beyond 2147483647 gives the
    default. *)
Lemma canvas_dimension_converts :
  canvas_dimension 300 (-5) = 300 ∧
  canvas_dimension 300 4294967301 = 5 ∧
  canvas_dimension 300 (201 # 2) = 100 ∧
  canvas_dimension 150 2147483648 = 150.
Proof. by repeat apply conj. Qed.

Section Properties.
Context {num : Type} `{!Inhabited num}.
Implicit Types (w : World num) (self : FastWebGL.t num).
Implicit Types (value : UniformValue num) (calls : list (GLCall num)).

Lemma with_calls_nil w : with_calls w [] = w.
Proof. destruct w; unfold with_calls; simpl. by rewrite app_nil_r. Qed.

Lemma with_calls_app w calls1 calls2 :
  with_calls (with_calls w calls1) calls2 = with_calls w (calls1 ++ calls2).
Proof. unfold with_calls; simpl. by rewrite app_assoc. Qed.

Lemma emit_with_calls (c : GLCall num) w :
  emit c w = (Return tt, with_calls w [c]).
Proof. reflexivity. Qed.

Lemma draw_spec self w :
  FastWebGL.draw self w =
    (Return tt,
     with_calls w
       (draw_calls (FastWebGL.program self) (canvas_width w)
          (canvas_height w))).
Proof.
  unfold FastWebGL.draw, draw_calls, with_calls. by run.
Qed.

Lemma count_draws_draw_calls (p : WebGLProgram) (cw ch : Z) :
  count_draws (draw_calls (num := num) p cw ch) = 1%nat.
Proof. reflexivity. Qed.

(** The dispatch of [setUniformValue], by the shape of the value. *)
Lemma setUniformValue_spec (location : WebGLUniformLocation) value w :
  FastWebGL.setUniformValue location value w =
    (Return tt,
     with_calls w
       match value with
       | VNum x => [uniform1f location x]
       | VArr [a] => [uniform1f location a]
       | VArr [a; b] => [uniform2f location a b]
       | VArr [a; b; c] => [uniform3f location a b c]
       | VArr [a; b; c; d] => [uniform4f location a b c d]
       | VArr _ => []
       end).
Proof.
  destruct value as [x | xs]; [reflexivity |].
  destruct xs as [| a [| b [| c [| d [| e xs]]]]];
    try reflexivity; simpl; unfold ret; by rewrite with_calls_nil.
Qed.

Lemma setUniformValue_skipped (location : WebGLUniformLocation)
    (xs : list num) w :
  (length xs = 0 ∨ 5 ≤ length xs)%nat →
  FastWebGL.setUniformValue location (VArr xs) w = (Return tt, w).
Proof.
  intros Hlen. rewrite setUniformValue_spec.
  destruct xs as [| a [| b [| c [| d [| e xs]]]]]; simpl in Hlen;
    try lia; by rewrite with_calls_nil.
Qed.
Lemma registered_update_runs self (name : string)
    (location : WebGLUniformLocation) value w :
  FastWebGL.uniforms self !! name = Some location →
  ∃ calls,
    FastWebGL.updateUniform self name value w =
      (Return
         (FastWebGL.set_uniformValues self
            (<[name := value]> (FastWebGL.uniformValues self))),
       with_calls w calls).
Proof.
  intros Hreg. unfold FastWebGL.updateUniform. rewrite Hreg.
  unfold bind at 1. rewrite setUniformValue_spec.
  unfold bind at 1. rewrite draw_spec. unfold ret.
  rewrite with_calls_app. by eexists.
Qed.

(** C1.  The uniform value encoding rule.  A scalar number is uploaded as a
    1-component float uniform; an array of length 1, 2, 3 or 4 as a float
    vector of that many components; an array of any other length (0, or 5
    and above) causes no upload and no error.  Both routes obey it:
    registering a descriptor whose location is found, and [updateUniform]
    on a registered name, upload through [setUniformValue]. *)
Theorem uniform_value_encoding (location : WebGLUniformLocation) w :
  (∀ x : num,
     FastWebGL.setUniformValue location (VNum x) w =
       (Return tt, with_calls w [uniform1f location x])) ∧
  (∀ a : num,
     FastWebGL.setUniformValue location (VArr [a]) w =
       (Return tt, with_calls w [uniform1f location a])) ∧
  (∀ a b : num,
     FastWebGL.setUniformValue location (VArr [a; b]) w =
       (Return tt, with_calls w [uniform2f location a b])) ∧
  (∀ a b c : num,
     FastWebGL.setUniformValue location (VArr [a; b; c]) w =
       (Return tt, with_calls w [uniform3f location a b c])) ∧
  (∀ a b c d : num,
     FastWebGL.setUniformValue location (VArr [a; b; c; d]) w =
       (Return tt, with_calls w [uniform4f location a b c d])) ∧
  (∀ xs : list num,
     (length xs = 0 ∨ 5 ≤ length xs)%nat →
     FastWebGL.setUniformValue location (VArr xs) w = (Return tt, w)) ∧
  (∀ self (u : Uniform.t num) (us : list (Uniform.t num)),
     uniform_location (env w) (FastWebGL.program self) (Uniform.name u)
       = Some location →
     FastWebGL.setUniforms self (u :: us) w =
       FastWebGL.setUniforms
         (FastWebGL.set_uniformValues
            (FastWebGL.set_uniforms self
               (<[Uniform.name u := location]> (FastWebGL.uniforms self)))
            (<[Uniform.name u := Uniform.value u]>
               (FastWebGL.uniformValues self)))
         us
         (snd (FastWebGL.setUniformValue location (Uniform.value u) w))) ∧
  (∀ self (name : string) value,
     FastWebGL.uniforms self !! name = Some location →
     snd (FastWebGL.updateUniform self name value w) =
       snd (FastWebGL.draw self
              (snd (FastWebGL.setUniformValue location value w)))).
Proof.
  repeat apply conj; intros.
  - apply setUniformValue_spec.
  - apply (setUniformValue_spec location (VArr [a])).
  - apply (setUniformValue_spec location (VArr [a; b])).
  - apply (setUniformValue_spec location (VArr [a; b; c])).
  - apply (setUniformValue_spec location (VArr [a; b; c; d])).
  - by apply setUniformValue_skipped.
  - unfold FastWebGL.setUniforms; simpl.
    unfold bind at 1. unfold bind at 1.
    unfold GL.getUniformLocation, ask at 1.
    match goal with Hloc : _ = Some location |- _ => rewrite Hloc end.
    unfold bind at 1. rewrite setUniformValue_spec. reflexivity.
  - unfold FastWebGL.updateUniform.
    match goal with Hreg : _ = Some location |- _ => rewrite Hreg end.
    unfold bind at 1. rewrite !setUniformValue_spec.
    unfold bind at 1. rewrite !draw_spec. reflexivity.
Qed.


(** A name that is neither registered nor a member of
    [Object.prototype]: [this.uniforms[name]] is [undefined] and
    [updateUniform] does nothing. *)
Lemma updateUniform_unknown self (name : string) value w :
  FastWebGL.uniforms self !! name = None →
  name ∉ Object_prototype →
  FastWebGL.updateUniform self name value w = (Return self, w).
Proof.
  intros Hnone Hplain. unfold FastWebGL.updateUniform. rewrite Hnone.
  by rewrite decide_False.
Qed.

(** C9.  For a registered name and an array of length 0 or of length 5
    or more, [updateUniform] still overwrites the stored value and still
    redraws once, although no upload reaches the context. *)
Theorem updateUniform_unsupported_length self (name : string)
    (location : WebGLUniformLocation) (xs : list num) w :
  FastWebGL.uniforms self !! name = Some location →
  (length xs = 0 ∨ 5 ≤ length xs)%nat →
  let self' :=
    FastWebGL.set_uniformValues self
      (<[name := VArr xs]> (FastWebGL.uniformValues self)) in
  let redraw :=
    draw_calls (FastWebGL.program self) (canvas_width w) (canvas_height w) in
  FastWebGL.updateUniform self name (VArr xs) w
    = (Return self', with_calls w redraw) ∧
  FastWebGL.uniformValues self' !! name = Some (VArr xs) ∧
  uploads redraw = [] ∧
  count_draws redraw = 1%nat.
Proof.
  intros Hreg Hlen self' redraw. split; [| split; [| split]].
  - unfold FastWebGL.updateUniform. rewrite Hreg.
    unfold bind at 1. rewrite (setUniformValue_skipped _ _ _ Hlen).
    unfold bind at 1. by rewrite draw_spec.
  - apply lookup_insert_eq.
  - reflexivity.
  - reflexivity.
Qed.

(** C7.  [resize] stores the new dimensions in the instance, assigns them
    to the canvas and sends one [viewport] command with them, and sends no
    draw command.  The canvas takes what its setter makes of the number: a
    whole number from 0 to 2147483647 as it is.  A [draw()] that follows
    [resize(800, 600)] begins by setting the viewport to
    (0, 0, 800, 600). *)
Theorem resize_then_draw self w :
  (∀ width height : Q,
     ∃ w' : World num,
       FastWebGL.resize self width height w
         = (Return (FastWebGL.set_size self width height), w') ∧
       FastWebGL.width (FastWebGL.set_size self width height) = width ∧
       FastWebGL.height (FastWebGL.set_size self width height) = height ∧
       canvas_width w' = canvas_dimension 300 width ∧
       canvas_height w' = canvas_dimension 150 height ∧
       (kept_by_canvas width = true → inject_Z (canvas_width w') = width) ∧
       (kept_by_canvas height = true →
        inject_Z (canvas_height w') = height) ∧
       gl_log w' = gl_log w ++ [viewport 0 0 width height] ∧
       count_draws (num := num) [viewport 0 0 width height] = 0%nat) ∧
  (∃ (self1 : FastWebGL.t num) (w1 w2 : World num),
     FastWebGL.resize self 800 600 w = (Return self1, w1) ∧
     canvas_width w1 = 800 ∧ canvas_height w1 = 600 ∧
     FastWebGL.draw self1 w1 = (Return tt, w2) ∧
     gl_log w2 =
       gl_log w1 ++
       [viewport 0 0 800 600; clearColor 0 0 0 0; clear COLOR_BUFFER_BIT;
        useProgram (FastWebGL.program self); drawArrays TRIANGLES 0 6]).
Proof.
  split.
  - intros width height. eexists. unfold FastWebGL.resize.
    split; [by run |]. simpl.
    repeat apply conj; try reflexivity; apply canvas_dimension_kept.
  - eexists _, _, _. unfold FastWebGL.resize.
    split; [by run |]. rewrite draw_spec. by repeat apply conj.
Qed.

(** *** The loops of the constructor *)

Lemma released_app calls1 calls2 :
  released (calls1 ++ calls2) = released calls1 ++ released calls2.
Proof. unfold released. by rewrite flat_map_app. Qed.

Lemma created_app calls1 calls2 :
  created (calls1 ++ calls2) = created calls1 ++ created calls2.
Proof. unfold created. by rewrite flat_map_app. Qed.

Lemma eta_registries self :
  FastWebGL.set_uniformValues
    (FastWebGL.set_uniforms self (FastWebGL.uniforms self))
    (FastWebGL.uniformValues self) = self.
Proof. by destruct self. Qed.

Lemma found_names_cons (d : Driver num) (p : WebGLProgram)
    (u : Uniform.t num) (us : list (Uniform.t num)) :
  found_names d p (u :: us) =
    match uniform_location d p (Uniform.name u) with
    | Some _ => {[Uniform.name u]} ∪ found_names d p us
    | None => found_names d p us
    end.
Proof.
  unfold found_names. rewrite filter_cons.
  destruct (uniform_location d p (Uniform.name u)) as [l |] eqn:Hl.
  - rewrite decide_True by eauto. reflexivity.
  - rewrite decide_False; [reflexivity |]. by intros [? ?].
Qed.

Lemma setUniforms_nil self w :
  FastWebGL.setUniforms self [] w = (Return self, w).
Proof. reflexivity. Qed.

Lemma setUniforms_cons self (u : Uniform.t num)
    (us : list (Uniform.t num)) w :
  FastWebGL.setUniforms self (u :: us) w =
    match uniform_location (env w) (FastWebGL.program self) (Uniform.name u)
    with
    | Some location =>
        FastWebGL.setUniforms
          (FastWebGL.set_uniformValues
             (FastWebGL.set_uniforms self
                (<[Uniform.name u := location]> (FastWebGL.uniforms self)))
             (<[Uniform.name u := Uniform.value u]>
                (FastWebGL.uniformValues self)))
          us
          (snd (FastWebGL.setUniformValue location (Uniform.value u) w))
    | None => FastWebGL.setUniforms self us w
    end.
Proof.
  unfold FastWebGL.setUniforms; simpl.
  unfold bind at 1. unfold bind at 1.
  unfold GL.getUniformLocation, ask at 1.
  destruct (uniform_location (env w) (FastWebGL.program self)
              (Uniform.name u)) as [location |]; [| reflexivity].
  unfold bind at 1. rewrite setUniformValue_spec. reflexivity.
Qed.

Lemma upload_effects (location : WebGLUniformLocation) value :
  let calls : list (GLCall num) :=
    match value with
    | VNum x => [uniform1f location x]
    | VArr [a] => [uniform1f location a]
    | VArr [a; b] => [uniform2f location a b]
    | VArr [a; b; c] => [uniform3f location a b c]
    | VArr [a; b; c; d] => [uniform4f location a b c d]
    | VArr _ => []
    end in
  released calls = [] ∧ created calls = [] ∧ count_draws calls = 0%nat.
Proof.
  by destruct value as [x | [| a [| b [| c [| d [| e xs]]]]]].
Qed.

(** [setUniforms] cannot fail; it only extends the two registries, both
    by the names that were found, and only sends uploads. *)
Lemma setUniforms_spec (us : list (Uniform.t num)) :
  ∀ self w,
  ∃ (m1 : gmap string WebGLUniformLocation)
    (m2 : gmap string (UniformValue num)) calls,
    FastWebGL.setUniforms self us w =
      (Return (FastWebGL.set_uniformValues (FastWebGL.set_uniforms self m1) m2),
       with_calls w calls) ∧
    dom m1 =
      dom (FastWebGL.uniforms self)
      ∪ found_names (env w) (FastWebGL.program self) us ∧
    dom m2 =
      dom (FastWebGL.uniformValues self)
      ∪ found_names (env w) (FastWebGL.program self) us ∧
    released calls = [] ∧ created calls = [] ∧ count_draws calls = 0%nat.
Proof.
  induction us as [| u us IH]; intros self w.
  - exists (FastWebGL.uniforms self), (FastWebGL.uniformValues self), [].
    rewrite setUniforms_nil, eta_registries, with_calls_nil.
    unfold found_names; simpl.
    repeat apply conj; try reflexivity.
    + by rewrite union_empty_r_L.
    + by rewrite union_empty_r_L.
  - rewrite setUniforms_cons, found_names_cons.
    destruct (uniform_location (env w) (FastWebGL.program self)
                (Uniform.name u)) as [location |] eqn:Hloc; [| apply IH].
    rewrite setUniformValue_spec; simpl.
    match goal with
    | |- context [FastWebGL.setUniforms ?s us ?w1] =>
        destruct (IH s w1)
          as (m1 & m2 & calls & Hrun & Hd1 & Hd2 & Hr & Hc & Hn)
    end.
    rewrite Hrun, with_calls_app.
    simpl in Hd1, Hd2.
    rewrite dom_insert_L in Hd1. rewrite dom_insert_L in Hd2.
    destruct (upload_effects location (Uniform.value u))
      as (Hr0 & Hc0 & Hn0).
    eexists m1, m2, _. split; [reflexivity |].
    repeat apply conj.
    + rewrite Hd1. by rewrite (assoc_L (∪)), (comm_L (∪) {[_]}).
    + rewrite Hd2. by rewrite (assoc_L (∪)), (comm_L (∪) {[_]}).
    + by rewrite released_app, Hr0, Hr.
    + by rewrite created_app, Hc0, Hc.
    + unfold count_draws in *. by rewrite filter_app, length_app, Hn0, Hn.
Qed.
(** The callback of [textures.map] in the constructor. *)
Local Abbreviation texture_of program :=
  (fun (d : FastWebGL.TextureDescriptor.t) (i : nat) =>
     Texture.new (num := num)
       {| Texture.TextureParams.program := program;
          Texture.TextureParams.unit := i;
          Texture.TextureParams.name := FastWebGL.TextureDescriptor.name d;
          Texture.TextureParams.source :=
            FastWebGL.TextureDescriptor.source d;
          Texture.TextureParams.options :=
            FastWebGL.TextureDescriptor.options d |}).

Lemma Texture_new_spec (params : Texture.TextureParams.t) w :
  if alloc_ok (env w) (fresh w) then
    ∃ (texture : Texture.t) (w1 : World num),
      Texture.new params w = (Return texture, w1) ∧
      Texture.unit texture = Texture.TextureParams.unit params ∧
      Texture.name texture = Texture.TextureParams.name params ∧
      Texture.source texture = Texture.TextureParams.source params ∧
      Texture.texture texture = TextureHandle (fresh w) ∧
      gl_log w1 =
        gl_log w ++ [createTexture (Some (TextureHandle (fresh w)))] ∧
      env w1 = env w ∧ fresh w1 = S (fresh w) ∧ console w1 = console w ∧
      canvas_width w1 = canvas_width w ∧
      canvas_height w1 = canvas_height w
  else
    ∃ w1 : World num,
      Texture.new params w =
        (Throw {| message := "Failed to create WebGL texture." |}, w1) ∧
      gl_log w1 = gl_log w ++ [createTexture None] ∧
      env w1 = env w ∧ fresh w1 = S (fresh w) ∧ console w1 = console w ∧
      canvas_width w1 = canvas_width w ∧
      canvas_height w1 = canvas_height w.
Proof.
  unfold Texture.new, Texture.createTexture, Texture.loadTexture.
  run. destruct (alloc_ok (env w) (fresh w)); simpl.
  - eexists _, _. split; [reflexivity |]. by repeat apply conj.
  - eexists. split; [reflexivity |]. by repeat apply conj.
Qed.

Lemma textures_loop (program : WebGLProgram)
    (descs : list FastWebGL.TextureDescriptor.t) :
  ∀ (i : nat) w r w',
    map_indexed (texture_of program) i descs w = (r, w') →
    env w' = env w ∧ console w' = console w ∧
    canvas_width w' = canvas_width w ∧
    canvas_height w' = canvas_height w ∧
    ∃ calls,
      gl_log w' = gl_log w ++ calls ∧
      released calls = [] ∧ count_draws calls = 0%nat ∧
      match r with
      | Return texs =>
          map Texture.unit texs = seq i (length descs) ∧
          map Texture.name texs
            = map FastWebGL.TextureDescriptor.name descs ∧
          map Texture.source texs
            = map FastWebGL.TextureDescriptor.source descs ∧
          map Texture.texture texs
            = map TextureHandle (seq (fresh w) (length descs)) ∧
          fresh w' = (fresh w + length descs)%nat ∧
          (∀ j, (j < length descs)%nat →
                alloc_ok (env w) (fresh w + j) = true)
      | Throw e =>
          e = {| message := "Failed to create WebGL texture." |} ∧
          last calls = Some (createTexture None) ∧
          ∃ j, (j < length descs)%nat ∧
               alloc_ok (env w) (fresh w + j) = false
      end.
Proof.
  induction descs as [| d descs IH]; intros i w r w' Hrun.
  - inversion Hrun; subst. repeat apply conj; try reflexivity.
    exists []. rewrite app_nil_r, Nat.add_0_r.
    repeat apply conj; try done. simpl; lia.
  - simpl in Hrun. unfold bind at 1 in Hrun.
    pose proof (Texture_new_spec
                {| Texture.TextureParams.program := program;
                   Texture.TextureParams.unit := i;
                   Texture.TextureParams.name :=
                     FastWebGL.TextureDescriptor.name d;
                   Texture.TextureParams.source :=
                     FastWebGL.TextureDescriptor.source d;
                   Texture.TextureParams.options :=
                     FastWebGL.TextureDescriptor.options d |} w)
      as Hnew.
    destruct (alloc_ok (env w) (fresh w)) eqn:Halloc.
    + destruct Hnew
        as (t & w1 & Hnew & Hu & Hn & Hs & Ht & Hlog & He & Hf & Hc & Hcw & Hch).
      rewrite Hnew in Hrun. unfold bind at 1 in Hrun.
      destruct (map_indexed (texture_of program) (S i) descs w1)
        as [[texs | e] w2] eqn:Hrest;
        destruct (IH _ _ _ _ Hrest)
          as (He2 & Hc2 & Hcw2 & Hch2 & calls & Hlog2 & Hrel & Hnd & Hres);
        inversion Hrun; subst r w'; clear Hrun.
      * destruct Hres as (Hus & Hns & Hss & Hts & Hfr & Hok).
        repeat apply conj; try congruence.
        eexists (_ :: calls). rewrite Hlog2, Hlog, <- app_assoc.
        split; [reflexivity |].
        repeat apply conj; try done; simpl.
        -- by rewrite Hu, Hus.
        -- by rewrite Hn, Hns.
        -- by rewrite Hs, Hss.
        -- by rewrite Ht, Hts, Hf.
        -- rewrite Hfr, Hf. lia.
        -- intros [| j] Hj.
           ++ by rewrite Nat.add_0_r.
           ++ rewrite <- He, <- Nat.add_succ_comm, <- Hf.
              apply Hok. lia.
      * destruct Hres as (-> & Hlast & j & Hj & Hbad).
        repeat apply conj; try congruence.
        eexists (_ :: calls). rewrite Hlog2, Hlog, <- app_assoc.
        split; [reflexivity |].
        repeat apply conj; try done.
        -- destruct calls; [discriminate | exact Hlast].
        -- exists (S j). split; [simpl; lia |].
           by rewrite <- He, <- Nat.add_succ_comm, <- Hf.
    + destruct Hnew as (w1 & Hnew & Hlog & He & Hf & Hc & Hcw & Hch).
      rewrite Hnew in Hrun.
      inversion Hrun; subst r w'; clear Hrun.
      repeat apply conj; try congruence.
      exists [createTexture None]. repeat apply conj; try done.
      exists 0%nat. split; [simpl; lia |]. by rewrite Nat.add_0_r.
Qed.

(** *** The straight-line steps of the constructor *)

Lemma bind_Return {A B} (m : M num A) (k : A → M num B) w (a : A) w1 :
  m w = (Return a, w1) → bind m k w = k a w1.
Proof. intros Hm. unfold bind. by rewrite Hm. Qed.

Lemma bind_Throw {A B} (m : M num A) (k : A → M num B) w (e : Error) w1 :
  m w = (Throw e, w1) → bind m k w = (Throw e, w1).
Proof. intros Hm. unfold bind. by rewrite Hm. Qed.

Lemma extends_trans w w1 w2 calls1 calls2 :
  extends w w1 calls1 → extends w1 w2 calls2 →
  extends w w2 (calls1 ++ calls2).
Proof.
  intros [He1 Hl1] [He2 Hl2]. split; [congruence |].
  by rewrite Hl2, Hl1, app_assoc.
Qed.

Lemma Shader_new_cases (type : ShaderType) (source : string) w :
  let s := ShaderHandle (fresh w) in
  ∃ (r : Outcome Shader.t) (w1 : World num) calls,
    Shader.new type source w = (r, w1) ∧
    extends w w1 calls ∧ fresh w1 = S (fresh w) ∧
    console w1 = console w ∧ count_draws calls = 0%nat ∧
    if alloc_ok (env w) (fresh w) then
      if compile_status (env w) s then
        r = Return {| Shader.shader := s |} ∧ released calls = []
      else
        r = Throw {| message :=
                       "Error compiling shader:"
                       +:+ shader_info_log (env w) s |} ∧
        released calls = [HShader s] ∧
        last (created calls) = Some (HShader s) ∧
        last calls = Some (deleteShader s)
    else
      r = Throw {| message := "Error creating shader." |} ∧
      released calls = [] ∧
      last calls = Some (createShader type None).
Proof.
  unfold Shader.new, Shader.createShader. run.
  destruct (alloc_ok (env w) (fresh w)); simpl;
    [destruct (compile_status (env w) (ShaderHandle (fresh w))); simpl |];
    eexists _, _, _; (split; [reflexivity |]);
    (split; [split; [reflexivity | simpl; rewrite <- ?app_assoc; reflexivity] |]);
    by repeat apply conj.
Qed.

Lemma createProgram_cases (vertexShader fragmentShader : Shader.t) w :
  let p := ProgramHandle (fresh w) in
  ∃ (r : Outcome WebGLProgram) (w1 : World num) calls,
    FastWebGL.createProgram vertexShader fragmentShader w = (r, w1) ∧
    extends w w1 calls ∧ fresh w1 = S (fresh w) ∧
    count_draws calls = 0%nat ∧
    if alloc_ok (env w) (fresh w) then
      if link_status (env w) p then
        r = Return p ∧ released calls = [] ∧
        console w1 =
          console w ++
          (if validate_status (env w) p then []
           else ["Error validating program: "
                 +:+ program_info_log (env w) p])
      else
        r = Throw {| message :=
                       "Error linking program: "
                       +:+ program_info_log (env w) p |} ∧
        released calls = [HProgram p] ∧
        last (created calls) = Some (HProgram p) ∧
        last calls = Some (deleteProgram p) ∧
        calls =
          [createProgram (Some p);
           attachShader p (Shader.shader vertexShader);
           attachShader p (Shader.shader fragmentShader);
           linkProgram p; validateProgram p; deleteProgram p] ∧
        console w1 = console w
    else
      r = Throw {| message := "Unable to create shader program." |} ∧
      released calls = [] ∧
      last calls = Some (createProgram None).
Proof.
  unfold FastWebGL.createProgram, Shader.getShader. run.
  destruct (alloc_ok (env w) (fresh w)); simpl;
    [destruct (link_status (env w) (ProgramHandle (fresh w))); simpl;
     [destruct (validate_status (env w) (ProgramHandle (fresh w))); simpl |]
    |];
    eexists _, _, _; (split; [reflexivity |]);
    (split; [split; [reflexivity | simpl; rewrite <- ?app_assoc; reflexivity] |]);
    repeat apply conj; try done; simpl; by rewrite ?app_nil_r.
Qed.

Lemma setupAttributes_cases self w :
  ∃ (r : Outcome (FastWebGL.t num)) (w1 : World num) calls,
    FastWebGL.setupAttributes self w = (r, w1) ∧
    extends w w1 calls ∧ fresh w1 = S (fresh w) ∧
    console w1 = console w ∧ count_draws calls = 0%nat ∧
    released calls = [] ∧
    if alloc_ok (env w) (fresh w) then
      r = Return
            (FastWebGL.set_attribLocations self
               (<["a_position" :=
                    attrib_location (env w) (FastWebGL.program self)
                      "a_position"]> (FastWebGL.attribLocations self)))
    else
      r = Throw {| message := "Unable to create buffer." |} ∧
      last calls = Some (createBuffer None).
Proof.
  unfold FastWebGL.setupAttributes. run.
  destruct (alloc_ok (env w) (fresh w)); simpl;
    eexists _, _, _; (split; [reflexivity |]);
    (split; [split; [reflexivity | simpl; rewrite <- ?app_assoc; reflexivity] |]);
    by repeat apply conj.
Qed.
Lemma createContext_cases w :
  FastWebGL.createContext w =
    if context_available (env w) then (Return tt, w)
    else (Throw {| message := "WebGL not supported." |}, w).
Proof.
  unfold FastWebGL.createContext. run.
  by destruct (context_available (env w)).
Qed.

Lemma resize_cases self (width height : Q) w :
  ∃ w1 : World num,
    FastWebGL.resize self width height w
      = (Return (FastWebGL.set_size self width height), w1) ∧
    extends w w1 [viewport 0 0 width height] ∧
    console w1 = console w ∧
    canvas_width w1 = canvas_dimension 300 width ∧
    canvas_height w1 = canvas_dimension 150 height.
Proof.
  unfold FastWebGL.resize. run. eexists. split; [reflexivity |].
  by repeat apply conj.
Qed.

Lemma extends_refl w : extends w w [].
Proof. split; [reflexivity | by rewrite app_nil_r]. Qed.

Lemma extends_with_calls w calls : extends w (with_calls w calls) calls.
Proof. by split. Qed.

Lemma bind_ask {A B} (f : Driver num → A) (k : A → M num B) w :
  bind (ask f) k w = k (f (env w)) w.
Proof. reflexivity. Qed.

Lemma bind_emit {B} (c : GLCall num) (k : unit → M num B) w :
  bind (emit c) k w = k tt (with_calls w [c]).
Proof. reflexivity. Qed.

Lemma count_draws_app calls1 calls2 :
  count_draws (calls1 ++ calls2)
    = (count_draws calls1 + count_draws calls2)%nat.
Proof. unfold count_draws. by rewrite filter_app, length_app. Qed.

#[local] Arguments Shader.new : simpl never.
#[local] Arguments FastWebGL.createProgram : simpl never.
#[local] Arguments FastWebGL.setupAttributes : simpl never.
#[local] Arguments FastWebGL.setUniforms : simpl never.
#[local] Arguments FastWebGL.createContext : simpl never.
#[local] Arguments FastWebGL.resize : simpl never.
#[local] Arguments FastWebGL.draw : simpl never.
#[local] Arguments map_indexed : simpl never.

(** Every outcome of the constructor. *)
Lemma new_cases (params : FastWebGL.Params.t num) w :
  let d := env w in
  let n := fresh w in
  let m := length (FastWebGL.Params.textures params) in
  ∃ (r : Outcome (FastWebGL.t num)) (w' : World num) calls,
    FastWebGL.new params w = (r, w') ∧ extends w w' calls ∧
    match r with
    | Throw e => Aborted d n m e calls ∧ count_draws calls = 0%nat
    | Return self =>
        Constructed d n params self ∧
        console w' =
          console w ++
          (if validate_status d (ProgramHandle (n + 2)) then []
           else ["Error validating program: "
                 +:+ program_info_log d (ProgramHandle (n + 2))]) ∧
        released calls = [] ∧ count_draws calls = 1%nat
    end.
Proof.
  intros d n m. unfold FastWebGL.new.
  (* context *)
  pose proof (createContext_cases w) as Hcc.
  destruct (context_available (env w)) eqn:Hctx.
  2:{ rewrite (bind_Throw _ _ _ _ _ Hcc).
      eexists _, _, []. split; [reflexivity |].
      split; [apply extends_refl |]. split; [| reflexivity].
      by apply context_unavailable. }
  rewrite (bind_Return _ _ _ _ _ Hcc). rewrite !bind_ask.
  (* vertex shader *)
  destruct (Shader_new_cases VERTEX_SHADER
              (FastWebGL.Params.vertexSource params) w)
    as (r1 & w1 & c1 & Heq1 & Hext1 & Hf1 & Hcon1 & Hnd1 & Hcase1).
  destruct (alloc_ok (env w) (fresh w)) eqn:Ha0;
    [destruct (compile_status (env w) (ShaderHandle (fresh w))) eqn:Hc0 |].
  2:{ destruct Hcase1 as (-> & Hrel & Hlc & Hl).
      rewrite (bind_Throw _ _ _ _ _ Heq1).
      eexists _, _, c1. split; [reflexivity |].
      split; [exact Hext1 |]. split; [| exact Hnd1].
      pose proof (shader_not_compiled d n m 0 c1) as Hab.
      rewrite Nat.add_0_r in Hab. apply Hab; try done. lia. }
  2:{ destruct Hcase1 as (-> & Hrel & Hl).
      rewrite (bind_Throw _ _ _ _ _ Heq1).
      eexists _, _, c1. split; [reflexivity |].
      split; [exact Hext1 |]. split; [| exact Hnd1].
      apply (shader_not_created d n m 0 VERTEX_SHADER c1); try done.
      - lia.
      - by rewrite Nat.add_0_r. }
  destruct Hcase1 as (-> & Hrel1).
  rewrite (bind_Return _ _ _ _ _ Heq1).
  (* fragment shader *)
  destruct (Shader_new_cases FRAGMENT_SHADER
              (FastWebGL.Params.fragmentSource params) w1)
    as (r2 & w2 & c2 & Heq2 & Hext2 & Hf2 & Hcon2 & Hnd2 & Hcase2).
  pose proof (proj1 Hext1) as He1.
  rewrite He1, Hf1 in Hcase2.
  replace (S (fresh w)) with (n + 1)%nat in Hcase2 by (unfold n; lia).
  pose proof (extends_trans _ _ _ _ _ Hext1 Hext2) as Hx2.
  destruct (alloc_ok (env w) (n + 1)) eqn:Ha1;
    [destruct (compile_status (env w) (ShaderHandle (n + 1))) eqn:Hc1 |].
  2:{ destruct Hcase2 as (-> & Hrel & Hlc & Hl).
      rewrite (bind_Throw _ _ _ _ _ Heq2).
      eexists _, _, _. split; [reflexivity |].
      split; [exact Hx2 |].
      split; [| by rewrite count_draws_app, Hnd1, Hnd2].
      apply (shader_not_compiled d n m 1); try done.
      - lia.
      - by rewrite released_app, Hrel1, Hrel.
      - by rewrite created_app, last_app, Hlc.
      - by rewrite last_app, Hl. }
  2:{ destruct Hcase2 as (-> & Hrel & Hl).
      rewrite (bind_Throw _ _ _ _ _ Heq2).
      eexists _, _, _. split; [reflexivity |].
      split; [exact Hx2 |].
      split; [| by rewrite count_draws_app, Hnd1, Hnd2].
      apply (shader_not_created d n m 1 FRAGMENT_SHADER); try done.
      - lia.
      - by rewrite released_app, Hrel1, Hrel.
      - by rewrite last_app, Hl. }
  destruct Hcase2 as (-> & Hrel2).
  rewrite (bind_Return _ _ _ _ _ Heq2).
  (* program *)
  destruct (createProgram_cases
              {| Shader.shader := ShaderHandle (fresh w) |}
              {| Shader.shader := ShaderHandle (n + 1) |} w2)
    as (r3 & w3 & c3 & Heq3 & Hext3 & Hf3 & Hnd3 & Hcase3).
  pose proof (proj1 Hx2) as He2.
  rewrite He2, Hf2, Hf1 in Hcase3.
  replace (S (S (fresh w))) with (n + 2)%nat in Hcase3 by (unfold n; lia).
  pose proof (extends_trans _ _ _ _ _ Hx2 Hext3) as Hx3.
  assert (released (c1 ++ c2) = []) as Hrel12
    by (by rewrite released_app, Hrel1, Hrel2).
  assert (count_draws (c1 ++ c2) = 0%nat) as Hnd12
    by (by rewrite count_draws_app, Hnd1, Hnd2).
  destruct (alloc_ok (env w) (n + 2)) eqn:Ha2;
    [destruct (link_status (env w) (ProgramHandle (n + 2))) eqn:Hlink |].
  2:{ destruct Hcase3 as (-> & Hrel & Hlc & Hl & _).
      rewrite (bind_Throw _ _ _ _ _ Heq3).
      eexists _, _, _. split; [reflexivity |].
      split; [exact Hx3 |].
      split; [| by rewrite count_draws_app, Hnd12, Hnd3].
      apply program_not_linked; try done.
      - by rewrite released_app, Hrel12, Hrel.
      - by rewrite created_app, last_app, Hlc.
      - by rewrite last_app, Hl. }
  2:{ destruct Hcase3 as (-> & Hrel & Hl).
      rewrite (bind_Throw _ _ _ _ _ Heq3).
      eexists _, _, _. split; [reflexivity |].
      split; [exact Hx3 |].
      split; [| by rewrite count_draws_app, Hnd12, Hnd3].
      apply program_not_created; try done.
      - by rewrite released_app, Hrel12, Hrel.
      - by rewrite last_app, Hl. }
  destruct Hcase3 as (-> & Hrel3 & Hcon3).
  rewrite (bind_Return _ _ _ _ _ Heq3).
  assert (released ((c1 ++ c2) ++ c3) = []) as Hrel123
    by (by rewrite released_app, Hrel12, Hrel3).
  assert (count_draws ((c1 ++ c2) ++ c3) = 0%nat) as Hnd123
    by (by rewrite count_draws_app, Hnd12, Hnd3).
  (* textures *)
  destruct (map_indexed (texture_of (ProgramHandle (n + 2))) 0
              (FastWebGL.Params.textures params) w3)
    as [[texs | e] w4] eqn:Heq4;
    destruct (textures_loop _ _ _ _ _ _ Heq4)
      as (He4 & Hcon4 & _ & _ & c4 & Hlog4 & Hrel4 & Hnd4 & Hcase4).
  2:{ destruct Hcase4 as (-> & Hl & j & Hj & Hbad).
      rewrite (bind_Throw _ _ _ _ _ Heq4).
      eexists _, _, _. split; [reflexivity |].
      split; [exact (extends_trans _ _ _ _ _ Hx3 (conj He4 Hlog4)) |].
      split; [| by rewrite count_draws_app, Hnd123, Hnd4].
      apply (texture_not_created d n m j); try done.
      - rewrite (proj1 Hx3), Hf3, Hf2, Hf1 in Hbad.
        by replace (n + 3 + j)%nat with (S (S (S (fresh w))) + j)%nat
          by (unfold n; lia).
      - by rewrite released_app, Hrel123, Hrel4.
      - by rewrite last_app, Hl. }
  destruct Hcase4 as (Hunits & Hnames & Hsources & Hhandles & Hf4 & Hok4).
  rewrite (bind_Return _ _ _ _ _ Heq4), bind_ask.
  pose proof (extends_trans _ _ _ _ _ Hx3 (conj He4 Hlog4)) as Hx4.
  unfold GL.useProgram. rewrite bind_emit.
  pose proof (extends_trans _ _ _ _ _ Hx4
                (extends_with_calls w4 [useProgram (ProgramHandle (n + 2))]))
    as Hx5.
  (* attributes *)
  match goal with
  | |- context [bind (FastWebGL.setupAttributes ?s0) _ ?w0] =>
      destruct (setupAttributes_cases s0 w0)
        as (r6 & w6 & c6 & Heq6 & Hext6 & Hf6 & Hcon6 & Hnd6 & Hrel6 & Hcase6)
  end.
  simpl in Hcase6, Hf6, Hcon6.
  rewrite He4, (proj1 Hx3), Hf4, Hf3, Hf2, Hf1 in Hcase6.
  replace (S (S (S (fresh w))) + 0 + length (FastWebGL.Params.textures params))%nat
    with (n + 3 + m)%nat in Hcase6 by (unfold n, m; lia).
  replace (S (S (S (fresh w))) + length (FastWebGL.Params.textures params))%nat
    with (n + 3 + m)%nat in Hcase6 by (unfold n, m; lia).
  pose proof (extends_trans _ _ _ _ _ Hx5 Hext6) as Hx6.
  assert (released ((((c1 ++ c2) ++ c3) ++ c4)
                      ++ [useProgram (ProgramHandle (n + 2))]) = [])
    as Hrel5 by (by rewrite !released_app, Hrel1, Hrel2, Hrel3, Hrel4).
  assert (count_draws ((((c1 ++ c2) ++ c3) ++ c4)
                      ++ [useProgram (ProgramHandle (n + 2))]) = 0%nat)
    as Hnd5 by (by rewrite !count_draws_app, Hnd1, Hnd2, Hnd3, Hnd4).
  destruct (alloc_ok (env w) (n + 3 + m)) eqn:Ha6.
  2:{ destruct Hcase6 as (-> & Hl).
      rewrite (bind_Throw _ _ _ _ _ Heq6).
      eexists _, _, _. split; [reflexivity |].
      split; [exact Hx6 |].
      split; [| by rewrite count_draws_app, Hnd5, Hnd6].
      apply buffer_not_created; try done.
      - by rewrite released_app, Hrel5, Hrel6.
      - by rewrite last_app, Hl. }
  subst r6. rewrite (bind_Return _ _ _ _ _ Heq6).
  (* uniforms, size and first draw *)
  match goal with
  | |- context [bind (FastWebGL.setUniforms ?s0 ?us) _ ?w0] =>
      destruct (setUniforms_spec us s0 w0)
        as (m1 & m2 & c7 & Heq7 & Hd1 & Hd2 & Hrel7 & _ & Hnd7)
  end.
  rewrite (bind_Return _ _ _ _ _ Heq7).
  match goal with
  | |- context [bind (FastWebGL.resize ?s0 ?wd ?ht) _ ?w0] =>
      destruct (resize_cases s0 wd ht w0)
        as (w8 & Heq8 & Hext8 & Hcon8 & _ & _)
  end.
  rewrite (bind_Return _ _ _ _ _ Heq8).
  unfold bind at 1. rewrite draw_spec. unfold ret.
  eexists _, _, _. split; [reflexivity |].
  split.
  { eapply extends_trans; [| apply extends_with_calls].
    eapply extends_trans; [| exact Hext8].
    eapply extends_trans; [exact Hx6 | apply extends_with_calls]. }
  split; [| split; [| split]].
  - unfold Constructed, setup_ok; simpl. fold m.
    repeat apply conj; try done.
    + intros k Hk.
      destruct (decide (k = 0%nat)) as [-> |];
        [by rewrite Nat.add_0_r |].
      destruct (decide (k = 1%nat)) as [-> |]; [done |].
      destruct (decide (k = 2%nat)) as [-> |]; [done |].
      destruct (decide (k = 3 + m)%nat) as [-> |];
        [by replace (n + (3 + m))%nat with (n + 3 + m)%nat by lia |].
      specialize (Hok4 (k - 3)%nat).
      rewrite (proj1 Hx3), Hf3, Hf2, Hf1 in Hok4.
      replace (S (S (S (fresh w))) + (k - 3))%nat with (n + k)%nat
        in Hok4 by (unfold n; lia).
      apply Hok4. unfold m in *. lia.
    + rewrite Hhandles, Hf3, Hf2, Hf1.
      by replace (S (S (S (fresh w)))) with (n + 3)%nat by (unfold n; lia).
    + simpl in Hd1. rewrite Hd1, dom_empty_L, union_empty_l_L.
      rewrite (proj1 Hext6); simpl. by rewrite He4, (proj1 Hx3).
    + simpl in Hd2. rewrite Hd2, dom_empty_L, union_empty_l_L.
      rewrite (proj1 Hext6); simpl. by rewrite He4, (proj1 Hx3).
  - simpl. rewrite Hcon8. simpl.
    by rewrite Hcon6, Hcon4, Hcon3, Hcon2, Hcon1.
  - rewrite !released_app, Hrel1, Hrel2, Hrel3, Hrel4, Hrel6, Hrel7.
    reflexivity.
  - rewrite !count_draws_app, Hnd1, Hnd2, Hnd3, Hnd4, Hnd6, Hnd7.
    reflexivity.
Qed.
Lemma Aborted_not_setup_ok (d : Driver num) (n m : nat) (e : Error) calls :
  Aborted d n m e calls → ¬ setup_ok d n m.
Proof.
  intros Hab (Hctx & Halloc & Hc0 & Hc1 & Hlink).
  destruct Hab as [Hbad | j ty calls Hj Hbad _ _ | j calls Hj Hbad _ _ _
                  | calls Hbad _ _ | calls Hbad _ _ _
                  | j calls Hj Hbad _ _ | calls Hbad _ _].
  - congruence.
  - rewrite Halloc in Hbad by lia. discriminate.
  - assert (j = 0 ∨ j = 1)%nat as [-> | ->] by lia.
    + rewrite Nat.add_0_r in Hbad. congruence.
    + congruence.
  - rewrite Halloc in Hbad by lia. discriminate.
  - congruence.
  - rewrite <- Nat.add_assoc in Hbad.
    rewrite Halloc in Hbad by lia. discriminate.
  - rewrite <- Nat.add_assoc in Hbad.
    rewrite Halloc in Hbad by lia. discriminate.
Qed.

Lemma new_Return_inv (params : FastWebGL.Params.t num) w self w' :
  FastWebGL.new params w = (Return self, w') →
  Constructed (env w) (fresh w) params self ∧
  console w' =
    console w ++
    (if validate_status (env w) (ProgramHandle (fresh w + 2)) then []
     else ["Error validating program: "
           +:+ program_info_log (env w) (ProgramHandle (fresh w + 2))]) ∧
  ∃ calls,
    gl_log w' = gl_log w ++ calls ∧
    released calls = [] ∧ count_draws calls = 1%nat.
Proof.
  intros Hnew.
  destruct (new_cases params w) as (r & w1 & calls & Heq & Hext & Hr).
  rewrite Hnew in Heq. inversion Heq; subst r w1.
  destruct Hr as (Hc & Hcon & Hrel & Hnd).
  split; [exact Hc |]. split; [exact Hcon |].
  exists calls. split; [exact (proj2 Hext) |]. by split.
Qed.

Lemma new_Throw_inv (params : FastWebGL.Params.t num) w (e : Error) w' :
  FastWebGL.new params w = (Throw e, w') →
  ∃ calls,
    gl_log w' = gl_log w ++ calls ∧
    Aborted (env w) (fresh w)
      (length (FastWebGL.Params.textures params)) e calls.
Proof.
  intros Hnew.
  destruct (new_cases params w) as (r & w1 & calls & Heq & Hext & Hr).
  rewrite Hnew in Heq. inversion Heq; subst r w1.
  exists calls. split; [exact (proj2 Hext) | exact (proj1 Hr)].
Qed.

(** C2, as the code has it.  A construction throws to the caller, and
    returns no instance, exactly when some synchronous setup step fails
    (context acquisition, allocation or compilation of a shader,
    allocation or link of the program, allocation of a texture or of the
    position buffer).  Of the handles obtained so far, only the one whose
    own step failed is released, as the last command before the error
    propagates: the shader that did not compile, or the program that did
    not link.  Handles created by earlier successful steps are not
    released. *)
Theorem construction_failure (params : FastWebGL.Params.t num) w
    (r : Outcome (FastWebGL.t num)) w' :
  FastWebGL.new params w = (r, w') →
  let m := length (FastWebGL.Params.textures params) in
  ((∃ e, r = Throw e) ↔ ¬ setup_ok (env w) (fresh w) m) ∧
  (∀ e, r = Throw e →
     ∃ calls,
       gl_log w' = gl_log w ++ calls ∧
       Aborted (env w) (fresh w) m e calls).
Proof.
  intros Hnew m. split; [split |].
  - intros [e ->].
    destruct (new_Throw_inv _ _ _ _ Hnew) as (calls & _ & Hab).
    by eapply Aborted_not_setup_ok.
  - intros Hbad. destruct r as [self | e]; [| by exists e].
    destruct (new_Return_inv _ _ _ _ Hnew) as ((Hok & _) & _).
    by destruct Hbad.
  - intros e ->. by apply new_Throw_inv.
Qed.

(** C5.  During construction, when the steps before the link succeed and
    the link status of the program is false, the construction throws an
    error whose message carries the info log of the program, and the
    program is released by the last command sent; when every step
    succeeds and only the validate status is false, the construction
    returns the instance, nothing is released, and one warning carrying
    the info log is written to the console. *)
Theorem link_and_validate_status (params : FastWebGL.Params.t num) w :
  let d := env w in
  let n := fresh w in
  let p := ProgramHandle (n + 2) in
  (context_available d = true →
   alloc_ok d n = true → compile_status d (ShaderHandle n) = true →
   alloc_ok d (n + 1) = true →
   compile_status d (ShaderHandle (n + 1)) = true →
   alloc_ok d (n + 2) = true →
   link_status d p = false →
   ∃ (w' : World num) calls,
     FastWebGL.new params w =
       (Throw {| message :=
                   "Error linking program: " +:+ program_info_log d p |},
        w') ∧
     gl_log w' = gl_log w ++ calls ∧
     released calls = [HProgram p] ∧
     last calls = Some (deleteProgram p) ∧
     console w' = console w) ∧
  (setup_ok d n (length (FastWebGL.Params.textures params)) →
   validate_status d p = false →
   ∃ self (w' : World num) calls,
     FastWebGL.new params w = (Return self, w') ∧
     FastWebGL.program self = p ∧
     gl_log w' = gl_log w ++ calls ∧
     released calls = [] ∧
     console w' =
       console w
       ++ ["Error validating program: " +:+ program_info_log d p]).
Proof.
  intros d n p. split.
  - intros Hctx Ha0 Hc0 Ha1 Hc1 Ha2 Hlink. unfold FastWebGL.new.
    pose proof (createContext_cases w) as Hcc.
    fold d in Hcc. rewrite Hctx in Hcc.
    rewrite (bind_Return _ _ _ _ _ Hcc). rewrite !bind_ask.
    destruct (Shader_new_cases VERTEX_SHADER
                (FastWebGL.Params.vertexSource params) w)
      as (r1 & w1 & c1 & Heq1 & Hext1 & Hf1 & Hcon1 & Hnd1 & Hcase1).
    fold d n in Hcase1. rewrite Ha0, Hc0 in Hcase1.
    destruct Hcase1 as (-> & Hrel1).
    rewrite (bind_Return _ _ _ _ _ Heq1).
    destruct (Shader_new_cases FRAGMENT_SHADER
                (FastWebGL.Params.fragmentSource params) w1)
      as (r2 & w2 & c2 & Heq2 & Hext2 & Hf2 & Hcon2 & Hnd2 & Hcase2).
    rewrite (proj1 Hext1), Hf1 in Hcase2. fold d in Hcase2.
    replace (S (fresh w)) with (n + 1)%nat in Hcase2 by (unfold n; lia).
    rewrite Ha1, Hc1 in Hcase2.
    destruct Hcase2 as (-> & Hrel2).
    rewrite (bind_Return _ _ _ _ _ Heq2).
    pose proof (extends_trans _ _ _ _ _ Hext1 Hext2) as Hx2.
    destruct (createProgram_cases
                {| Shader.shader := ShaderHandle n |}
                {| Shader.shader := ShaderHandle (n + 1) |} w2)
      as (r3 & w3 & c3 & Heq3 & Hext3 & Hf3 & Hnd3 & Hcase3).
    rewrite (proj1 Hx2), Hf2, Hf1 in Hcase3. fold d in Hcase3.
    replace (S (S (fresh w))) with (n + 2)%nat in Hcase3 by (unfold n; lia).
    fold p in Hcase3. rewrite Ha2, Hlink in Hcase3.
    destruct Hcase3 as (-> & Hrel3 & _ & Hl & _ & Hcon3).
    rewrite (bind_Throw _ _ _ _ _ Heq3).
    eexists _, _. split; [reflexivity |].
    split; [exact (proj2 (extends_trans _ _ _ _ _ Hx2 Hext3)) |].
    repeat apply conj.
    + by rewrite !released_app, Hrel1, Hrel2, Hrel3.
    + by rewrite last_app, Hl.
    + by rewrite Hcon3, Hcon2, Hcon1.
  - intros Hok Hval.
    destruct (new_cases params w) as (r & w' & calls & Heq & Hext & Hr).
    destruct r as [self | e].
    + destruct Hr as (Hc & Hcon & Hrel & _).
      exists self, w', calls. split; [exact Heq |].
      split; [apply Hc |]. split; [exact (proj2 Hext) |].
      split; [exact Hrel |].
      fold d n p in Hcon. by rewrite Hval in Hcon.
    + destruct Hr as (Hab & _).
      by destruct (Aborted_not_setup_ok _ _ _ _ _ Hab).
Qed.
(** *** Disposal *)

Lemma dispose_textures (texs : list Texture.t) :
  ∀ w,
    forEach (fun (_ : unit) texture => Texture.dispose texture) texs tt w =
      (Return tt,
       with_calls w
         (map (fun t => deleteTexture (Texture.texture t)) texs)).
Proof.
  induction texs as [| t texs IH]; intros w; simpl.
  - unfold ret. by rewrite with_calls_nil.
  - unfold bind at 1. unfold Texture.dispose at 1, GL.deleteTexture.
    rewrite emit_with_calls, IH. by rewrite with_calls_app.
Qed.

Lemma dispose_spec self w :
  FastWebGL.dispose self w =
    (Return tt,
     with_calls w
       (deleteProgram (FastWebGL.program self)
        :: deleteShader (Shader.shader (FastWebGL.vertexShader self))
        :: deleteShader (Shader.shader (FastWebGL.fragmentShader self))
        :: map (fun t => deleteTexture (Texture.texture t))
             (FastWebGL.textures self))).
Proof.
  unfold FastWebGL.dispose, Shader.dispose, GL.deleteProgram,
    GL.deleteShader.
  rewrite !bind_emit, dispose_textures, !with_calls_app. reflexivity.
Qed.

Lemma released_deleteTexture (texs : list Texture.t) :
  released (num := num)
    (map (fun t => deleteTexture (Texture.texture t)) texs)
    = map (fun t => HTexture (Texture.texture t)) texs.
Proof. induction texs as [| t texs IH]; simpl; [done | by f_equal]. Qed.


(** C8.  A successful construction holds exactly one texture unit per
    texture descriptor, the unit at position [i] made from the descriptor
    at position [i] and carrying the unit index [i]: the indices are
    0, 1, 2, ..., without repetition or gap. *)
Theorem texture_units_follow_descriptors
    (params : FastWebGL.Params.t num) w self w' :
  FastWebGL.new params w = (Return self, w') →
  let descs := FastWebGL.Params.textures params in
  length (FastWebGL.textures self) = length descs ∧
  map Texture.unit (FastWebGL.textures self) = seq 0 (length descs) ∧
  NoDup (map Texture.unit (FastWebGL.textures self)) ∧
  (∀ (i : nat) (t : Texture.t),
     FastWebGL.textures self !! i = Some t →
     Texture.unit t = i ∧
     ∃ desc, descs !! i = Some desc ∧
             Texture.name t = FastWebGL.TextureDescriptor.name desc ∧
             Texture.source t = FastWebGL.TextureDescriptor.source desc).
Proof.
  intros Hnew descs.
  destruct (new_Return_inv _ _ _ _ Hnew)
    as ((_ & _ & _ & _ & Hunits & Hnames & Hsources & _) & _).
  fold descs in Hunits, Hnames, Hsources.
  assert (length (FastWebGL.textures self) = length descs) as Hlen.
  { rewrite <- (length_map Texture.unit), Hunits. apply length_seq. }
  split; [exact Hlen |]. split; [exact Hunits |].
  split; [rewrite Hunits; apply NoDup_seq |].
  intros i t Hi. split.
  - assert (map Texture.unit (FastWebGL.textures self) !! i
            = Some (Texture.unit t)) as Hu
      by (by rewrite list_lookup_fmap, Hi).
    rewrite Hunits in Hu. apply lookup_seq in Hu. simpl in Hu. lia.
  - destruct (descs !! i) as [desc |] eqn:Hd.
    + exists desc. split; [reflexivity |]. split.
      * assert (map Texture.name (FastWebGL.textures self) !! i
                = Some (Texture.name t)) as Hn
          by (by rewrite list_lookup_fmap, Hi).
        rewrite Hnames, list_lookup_fmap, Hd in Hn. by inversion Hn.
      * assert (map Texture.source (FastWebGL.textures self) !! i
                = Some (Texture.source t)) as Hs
          by (by rewrite list_lookup_fmap, Hi).
        rewrite Hsources, list_lookup_fmap, Hd in Hs. by inversion Hs.
    + apply lookup_ge_None in Hd. apply lookup_lt_Some in Hi. lia.
Qed.

End Properties.

(** * The properties on the concrete hosts *)

(** C1 on the example host: an empty array and an array of five numbers
    are skipped, the first descriptor of the example is registered through
    [setUniformValue], and so is an update of [u_time]. *)
Lemma uniform_value_encoding_example :
  FastWebGL.setUniformValue (LocationHandle 0) (VArr []) Example.world
    = (Return tt, Example.world) ∧
  FastWebGL.setUniformValue (LocationHandle 0)
      (VArr [1%Q; 2%Q; 3%Q; 4%Q; 5%Q]) Example.world
    = (Return tt, Example.world) ∧
  FastWebGL.setUniforms Example.instance
      [ {| Uniform.name := "u_time"; Uniform.value := VNum 2%Q |} ]
      Example.world
    = (Return
         (FastWebGL.set_uniformValues
            (FastWebGL.set_uniforms Example.instance
               (<["u_time" := LocationHandle 0]>
                  (FastWebGL.uniforms Example.instance)))
            (<["u_time" := VNum 2%Q]>
               (FastWebGL.uniformValues Example.instance))),
       with_calls Example.world [uniform1f (LocationHandle 0) 2%Q]) ∧
  snd (FastWebGL.updateUniform Example.instance "u_time"
         (VArr [1%Q; 2%Q]) Example.world)
    = with_calls Example.world
        (uniform2f (LocationHandle 0) 1%Q 2%Q
         :: draw_calls (ProgramHandle 2) 300 150).
Proof.
  destruct (uniform_value_encoding (LocationHandle 0) Example.world)
    as (_ & _ & _ & _ & _ & Hskip & Hreg & Hupd).
  split; [apply Hskip; left; reflexivity |].
  split; [apply Hskip; right; simpl; lia |].
  split.
  - rewrite (Hreg Example.instance
               {| Uniform.name := "u_time"; Uniform.value := VNum 2%Q |} []);
      reflexivity.
  - rewrite (Hupd Example.instance "u_time" (VArr [1%Q; 2%Q]));
      reflexivity.
Defined.


(** C4 fails at the names that a plain object inherits.  No uniform
    called [toString] was registered on the constructed example, but
    [this.uniforms["toString"]] is the function that every object
    inherits, so [updateUniform("toString", 1)] goes on past
    [if (location)] and stores the value.  In the browser the upload then
    throws a [TypeError]; on the stand-in that records its calls
    [uniform1f] is sent with the function as location, and the scene is
    redrawn. *)
Theorem updateUniform_toString_is_no_noop :
  let self := Example.constructed in
  let stored :=
    FastWebGL.set_uniformValues self
      (<["toString" := VNum 1%Q]> (FastWebGL.uniformValues self)) in
  FastWebGL.uniforms self !! "toString" = None ∧
  FastWebGL.uniformValues self !! "toString" = None ∧
  FastWebGL.new Example.params (Example.world_of Example.recording)
    = (Return self, Example.recorded) ∧
  FastWebGL.updateUniform self "toString" (VNum 1%Q)
      (snd Example.construction)
    = (Throw
         {| message := "parameter 1 is not of type 'WebGLUniformLocation'." |},
       snd Example.construction) ∧
  FastWebGL.updateUniform_fields self "toString" (VNum 1%Q) = stored ∧
  FastWebGL.updateUniform self "toString" (VNum 1%Q) Example.recorded
    = (Return stored,
       with_calls Example.recorded
         (uniform1f (Inherited "toString") 1%Q
          :: draw_calls (ProgramHandle 2) 800 600)) ∧
  FastWebGL.uniformValues stored !! "toString" = Some (VNum 1%Q).
Proof.
  repeat apply conj; vm_compute; reflexivity.
Qed.

(** C9 on the example instance: an array of five numbers for [u_time]. *)
Lemma updateUniform_unsupported_length_example :
  let xs := [1%Q; 2%Q; 3%Q; 4%Q; 5%Q] in
  let self' :=
    FastWebGL.set_uniformValues Example.instance
      (<["u_time" := VArr xs]> (FastWebGL.uniformValues Example.instance)) in
  FastWebGL.updateUniform Example.instance "u_time" (VArr xs) Example.world
    = (Return self',
       with_calls Example.world (draw_calls (ProgramHandle 2) 300 150)) ∧
  FastWebGL.uniformValues self' !! "u_time" = Some (VArr xs) ∧
  uploads (num := Q) (draw_calls (ProgramHandle 2) 300 150) = [] ∧
  count_draws (num := Q) (draw_calls (ProgramHandle 2) 300 150) = 1%nat.
Proof.
  apply (updateUniform_unsupported_length Example.instance "u_time"
           (LocationHandle 0) [1%Q; 2%Q; 3%Q; 4%Q; 5%Q] Example.world).
  - reflexivity.
  - right. simpl. lia.
Defined.

(** C2 fails as stated.  On a host where the vertex shader compiles and the
    fragment shader does not, the construction throws after releasing the
    fragment shader only: the vertex shader, created before the failure
    point, is never released. *)
Lemma construction_leaks_vertex_shader :
  let run :=
    FastWebGL.new Example.params
      (Example.world_of Example.fragment_rejected) in
  fst run
    = Throw {| message := "Error compiling shader:ERROR: 0:1: syntax error" |} ∧
  gl_log (snd run)
    = [createShader VERTEX_SHADER (Some (ShaderHandle 0));
       shaderSource (ShaderHandle 0) "attribute vec2 a_position;";
       compileShader (ShaderHandle 0);
       createShader FRAGMENT_SHADER (Some (ShaderHandle 1));
       shaderSource (ShaderHandle 1) "uniform float u_time;";
       compileShader (ShaderHandle 1);
       deleteShader (ShaderHandle 1)] ∧
  In (HShader (ShaderHandle 0)) (created (gl_log (snd run))) ∧
  ¬ In (HShader (ShaderHandle 0)) (released (gl_log (snd run))).
Proof.
  repeat apply conj.
  - vm_compute. reflexivity.
  - vm_compute. reflexivity.
  - vm_compute. left. reflexivity.
  - vm_compute. intros [Heq | []]. discriminate Heq.
Qed.

(** C2, as the code has it, on the host that rejects the fragment
    shader. *)
Lemma construction_failure_example :
  let w := Example.world_of Example.fragment_rejected in
  let run := FastWebGL.new Example.params w in
  ((∃ e, fst run = Throw e) ↔ ¬ setup_ok (env w) (fresh w) 2) ∧
  (∀ e, fst run = Throw e →
     ∃ calls,
       gl_log (snd run) = gl_log w ++ calls ∧
       Aborted (env w) (fresh w) 2 e calls).
Proof.
  intros w run.
  apply (construction_failure Example.params w (fst run) (snd run)).
  vm_compute. reflexivity.
Defined.

(** C5 on the host that does not link the program, and on the favourable
    host, whose validation fails. *)
Lemma link_and_validate_status_example :
  (let w := Example.world_of Example.link_rejected in
   ∃ (w' : World Q) calls,
     FastWebGL.new Example.params w =
       (Throw {| message :=
                   "Error linking program: varying v_uv not written" |},
        w') ∧
     gl_log w' = gl_log w ++ calls ∧
     released calls = [HProgram (ProgramHandle 2)] ∧
     last calls = Some (deleteProgram (ProgramHandle 2)) ∧
     console w' = console w) ∧
  (let w := Example.world in
   ∃ self (w' : World Q) calls,
     FastWebGL.new Example.params w = (Return self, w') ∧
     FastWebGL.program self = ProgramHandle 2 ∧
     gl_log w' = gl_log w ++ calls ∧
     released calls = [] ∧
     console w' =
       console w ++ ["Error validating program: no vertex array bound"]).
Proof.
  split.
  - apply (proj1 (link_and_validate_status Example.params
                    (Example.world_of Example.link_rejected)));
      reflexivity.
  - apply (proj2 (link_and_validate_status Example.params Example.world)).
    + unfold setup_ok. repeat apply conj; intros; reflexivity.
    + reflexivity.
Defined.

(** C8 on the instance constructed from the two descriptors of the
    example. *)
Lemma texture_units_follow_descriptors_example :
  let self := Example.constructed in
  let descs := FastWebGL.Params.textures Example.params in
  length (FastWebGL.textures self) = 2%nat ∧
  map Texture.unit (FastWebGL.textures self) = [0; 1]%nat ∧
  NoDup (map Texture.unit (FastWebGL.textures self)) ∧
  (∀ (i : nat) (t : Texture.t),
     FastWebGL.textures self !! i = Some t →
     Texture.unit t = i ∧
     ∃ desc, descs !! i = Some desc ∧
             Texture.name t = FastWebGL.TextureDescriptor.name desc ∧
             Texture.source t = FastWebGL.TextureDescriptor.source desc).
Proof.
  apply (texture_units_follow_descriptors Example.params Example.world
           Example.constructed (snd Example.construction)).
  vm_compute. reflexivity.
Defined.

(** C10 fails at the names that a plain object inherits.  After the
    construction of the example both registries hold the names
    [u_time] and [u_resolution].  [updateUniform("constructor", [1, 2])]
    reads the inherited [Object] function from the registry of locations
    and stores the array under a new name of the registry of values: on
    the stand-in the call returns with the two sets of names different; in
    the browser the upload that follows the assignment throws a
    [TypeError], and the registry of values has the new name all the
    same. *)
Theorem updateUniform_constructor_adds_a_name :
  let self := Example.constructed in
  let updates := [("constructor", VArr [1%Q; 2%Q])] in
  dom (FastWebGL.uniforms self) = {["u_time"; "u_resolution"]} ∧
  dom (FastWebGL.uniformValues self) = {["u_time"; "u_resolution"]} ∧
  (∃ (self2 : FastWebGL.t Q) (w2 : World Q),
     updateUniforms self updates Example.recorded = (Return self2, w2) ∧
     dom (FastWebGL.uniforms self2) = {["u_time"; "u_resolution"]} ∧
     dom (FastWebGL.uniformValues self2)
       = {["constructor"; "u_time"; "u_resolution"]} ∧
     ("constructor" ∉ dom (FastWebGL.uniforms self2)) ∧
     ("constructor" ∈ dom (FastWebGL.uniformValues self2))) ∧
  updateUniforms self updates (snd Example.construction)
    = (Throw
         {| message := "parameter 1 is not of type 'WebGLUniformLocation'." |},
       snd Example.construction) ∧
  dom (FastWebGL.uniformValues
         (FastWebGL.updateUniform_fields self "constructor"
            (VArr [1%Q; 2%Q])))
    = {["constructor"; "u_time"; "u_resolution"]}.
Proof.
  repeat apply conj; try (vm_compute; reflexivity).
  eexists _, _. split; [vm_compute; reflexivity |].
  repeat apply conj; try (vm_compute; reflexivity).
  apply not_elem_of_dom. vm_compute. reflexivity.
Qed.

(** * Properties of the rest of the code *)

Section Components.
Context {num : Type} `{!Inhabited num}.
Implicit Types (w : World num) (self : FastWebGL.t num).
Implicit Types (value : UniformValue num) (calls : list (GLCall num)).

Lemma evolve_evolve w (k1 k2 : nat) calls1 calls2
    (a1 a2 i1 i2 : list string) :
  evolve (evolve w k1 calls1 a1 i1) k2 calls2 a2 i2
    = evolve w (k2 + k1) (calls1 ++ calls2) (a1 ++ a2) (i1 ++ i2).
Proof.
  unfold evolve; simpl. by rewrite !app_assoc, Nat.add_assoc.
Qed.

Lemma evolve_with_calls w (k : nat) calls1 calls2 (a i : list string) :
  with_calls (evolve w k calls1 a i) calls2
    = evolve w k (calls1 ++ calls2) a i.
Proof. unfold evolve, with_calls; simpl. by rewrite app_assoc. Qed.

Lemma with_calls_evolve w calls : with_calls w calls = evolve w 0 calls [] [].
Proof. unfold evolve, with_calls; simpl. by rewrite !app_nil_r. Qed.

Lemma evolve_id w : evolve w 0 [] [] [] = w.
Proof. destruct w. unfold evolve; simpl. by rewrite !app_nil_r. Qed.

(** The three ways [new Shader] ends. *)
Lemma Shader_new_run (type : ShaderType) (source : string) w :
  let s := ShaderHandle (fresh w) in
  Shader.new type source w =
    if alloc_ok (env w) (fresh w) then
      if compile_status (env w) s then
        (Return {| Shader.shader := s |},
         evolve w 1
           [createShader type (Some s); shaderSource s source;
            compileShader s] [] [])
      else
        (Throw {| message :=
                    "Error compiling shader:" +:+ shader_info_log (env w) s |},
         evolve w 1
           [createShader type (Some s); shaderSource s source;
            compileShader s; deleteShader s] [] [])
    else
      (Throw {| message := "Error creating shader." |},
       evolve w 1 [createShader type None] [] []).
Proof.
  unfold Shader.new, Shader.createShader, evolve. run.
  rewrite !app_nil_r.
  destruct (alloc_ok (env w) (fresh w)); simpl;
    [destruct (compile_status (env w) (ShaderHandle (fresh w))); simpl |];
    by rewrite <- ?app_assoc.
Qed.

(** X1.  [new Shader] leaks nothing.  When it throws, every handle it
    obtained has been released (the shader that did not compile is deleted;
    a failed allocation obtained none) and the message tells which of the
    two failures occurred, carrying the info log of the shader for a failed
    compilation.  When it returns, it obtained exactly the handle it holds,
    that shader compiled, nothing was released, and [dispose] releases
    exactly that handle. *)
Theorem Shader_new_leaks_nothing (type : ShaderType) (source : string) w :
  ∃ (r : Outcome Shader.t) (w1 : World num) calls,
    Shader.new type source w = (r, w1) ∧
    gl_log w1 = gl_log w ++ calls ∧
    match r with
    | Return sh =>
        created calls = [HShader (Shader.getShader sh)] ∧
        released calls = [] ∧
        compile_status (env w) (Shader.getShader sh) = true ∧
        ∀ w2 : World num,
          Shader.dispose sh w2
            = (Return tt, with_calls w2 [deleteShader (Shader.getShader sh)])
    | Throw e =>
        created calls = released calls ∧
        (e = {| message := "Error creating shader." |} ∧ created calls = []
         ∨ ∃ s, e = {| message :=
                         "Error compiling shader:"
                         +:+ shader_info_log (env w) s |} ∧
                compile_status (env w) s = false ∧
                created calls = [HShader s])
    end.
Proof.
  rewrite Shader_new_run.
  destruct (alloc_ok (env w) (fresh w));
    [destruct (compile_status (env w) (ShaderHandle (fresh w))) eqn:Hc |];
    eexists _, _, _; (split; [reflexivity |]); (split; [reflexivity |]).
  - by repeat apply conj.
  - split; [reflexivity |]. right. by eexists.
  - split; [reflexivity |]. by left.
Qed.

(** The four ways [createProgram] ends. *)
Lemma createProgram_run (vertexShader fragmentShader : Shader.t) w :
  let p := ProgramHandle (fresh w) in
  let vs := Shader.shader vertexShader in
  let fs := Shader.shader fragmentShader in
  FastWebGL.createProgram vertexShader fragmentShader w =
    if alloc_ok (env w) (fresh w) then
      if link_status (env w) p then
        (Return p,
         evolve w 1
           [createProgram (Some p); attachShader p vs; attachShader p fs;
            linkProgram p; validateProgram p]
           (if validate_status (env w) p then []
            else ["Error validating program: "
                  +:+ program_info_log (env w) p])
           [])
      else
        (Throw {| message :=
                    "Error linking program: "
                    +:+ program_info_log (env w) p |},
         evolve w 1
           [createProgram (Some p); attachShader p vs; attachShader p fs;
            linkProgram p; validateProgram p; deleteProgram p] [] [])
    else
      (Throw {| message := "Unable to create shader program." |},
       evolve w 1 [createProgram None] [] []).
Proof.
  unfold FastWebGL.createProgram, Shader.getShader, evolve. run.
  destruct (alloc_ok (env w) (fresh w)); simpl;
    [destruct (link_status (env w) (ProgramHandle (fresh w))); simpl;
     [destruct (validate_status (env w) (ProgramHandle (fresh w))); simpl |]
    |];
    by rewrite <- ?app_assoc, ?app_nil_r.
Qed.

(** The two ways [new Texture] ends. *)
Lemma Texture_new_run (params : Texture.TextureParams.t) w :
  Texture.new params w =
    if alloc_ok (env w) (fresh w) then
      (Return
         {| Texture.program := Texture.TextureParams.program params;
            Texture.texture := TextureHandle (fresh w);
            Texture.unit := Texture.TextureParams.unit params;
            Texture.name := Texture.TextureParams.name params;
            Texture.source := Texture.TextureParams.source params;
            Texture.options :=
              default {| minFilter := None; magFilter := None;
                         wrapS := None; wrapT := None |}
                      (Texture.TextureParams.options params) |},
       evolve w 1 [createTexture (Some (TextureHandle (fresh w)))] []
         [Texture.TextureParams.source params])
    else
      (Throw {| message := "Failed to create WebGL texture." |},
       evolve w 1 [createTexture None] [] []).
Proof.
  unfold Texture.new, Texture.createTexture, Texture.loadTexture, evolve.
  run. destruct (alloc_ok (env w) (fresh w)); simpl; by rewrite ?app_nil_r.
Qed.

(** X3.  [new Texture] sends one command, the allocation of the texture.
    When the allocation fails it throws and starts no image load.  When it
    succeeds it starts the load of [source], leaves every binding and upload
    to the [onload] handler, takes the empty options for absent options, and
    [dispose] releases exactly the texture it obtained. *)
Theorem Texture_new_allocates_then_loads (params : Texture.TextureParams.t) w :
  ∃ (r : Outcome Texture.t) (w1 : World num),
    Texture.new params w = (r, w1) ∧
    match r with
    | Return t =>
        gl_log w1
          = gl_log w ++ [createTexture (Some (Texture.getTexture t))] ∧
        image_requests w1
          = image_requests w ++ [Texture.TextureParams.source params] ∧
        Texture.unit t = Texture.TextureParams.unit params ∧
        Texture.name t = Texture.TextureParams.name params ∧
        Texture.source t = Texture.TextureParams.source params ∧
        Texture.program t = Texture.TextureParams.program params ∧
        Texture.options t =
          default {| minFilter := None; magFilter := None;
                     wrapS := None; wrapT := None |}
                  (Texture.TextureParams.options params) ∧
        ∀ w2 : World num,
          Texture.dispose t w2
            = (Return tt, with_calls w2 [deleteTexture (Texture.getTexture t)])
    | Throw e =>
        e = {| message := "Failed to create WebGL texture." |} ∧
        gl_log w1 = gl_log w ++ [createTexture None] ∧
        image_requests w1 = image_requests w
    end.
Proof.
  rewrite Texture_new_run.
  destruct (alloc_ok (env w) (fresh w)); eexists _, _;
    (split; [reflexivity |]).
  - by repeat apply conj.
  - repeat apply conj; try reflexivity. simpl. by rewrite app_nil_r.
Qed.

(** What the [onload] handler sends. *)
Lemma onload_run (t : Texture.t) w :
  Texture.onload t w =
    (Return tt,
     with_calls w
       [activeTexture (Texture.unit t);
        bindTexture TEXTURE_2D (Texture.texture t);
        texImage2D TEXTURE_2D 0 RGBA RGBA UNSIGNED_BYTE (Texture.source t);
        texParameteri TEXTURE_2D TEXTURE_MIN_FILTER
          (FilterValue (default LINEAR (minFilter (Texture.options t))));
        texParameteri TEXTURE_2D TEXTURE_MAG_FILTER
          (FilterValue (default LINEAR (magFilter (Texture.options t))));
        texParameteri TEXTURE_2D TEXTURE_WRAP_S
          (WrapValue (default CLAMP_TO_EDGE (wrapS (Texture.options t))));
        texParameteri TEXTURE_2D TEXTURE_WRAP_T
          (WrapValue (default CLAMP_TO_EDGE (wrapT (Texture.options t))));
        uniform1i
          (uniform_location (env w) (Texture.program t) (Texture.name t))
          (Texture.unit t)]).
Proof. unfold Texture.onload, with_calls. by run. Qed.

(** X4.  A second [dispose] is not guarded: it sends every release again.
    One [dispose] never throws and sends one release per handle held in
    the fields (program, two shaders, one per texture unit) and no other
    command. *)
Theorem dispose_twice_releases_twice self w :
  ∃ calls,
    FastWebGL.dispose self w = (Return tt, with_calls w calls) ∧
    FastWebGL.dispose self (with_calls w calls)
      = (Return tt, with_calls w (calls ++ calls)) ∧
    released calls = owned_handles self ∧
    length calls = (3 + length (FastWebGL.textures self))%nat ∧
    released (calls ++ calls) = owned_handles self ++ owned_handles self ∧
    ∀ h : Handle,
      In h (owned_handles self) →
      (2 ≤ count_occ Handle_eq_dec (released (calls ++ calls)) h)%nat.
Proof.
  eexists. rewrite !dispose_spec, with_calls_app.
  split; [reflexivity |]. split; [reflexivity |].
  assert (released
            (deleteProgram (FastWebGL.program self)
             :: deleteShader (Shader.shader (FastWebGL.vertexShader self))
             :: deleteShader (Shader.shader (FastWebGL.fragmentShader self))
             :: map (fun t => deleteTexture (num := num) (Texture.texture t))
                  (FastWebGL.textures self))
          = owned_handles self) as Hrel.
  { unfold owned_handles; simpl. do 3 f_equal.
    apply released_deleteTexture. }
  split; [exact Hrel |].
  split; [simpl; by rewrite length_map |].
  split; [by rewrite released_app, Hrel |].
  intros h Hin. rewrite released_app, Hrel, count_occ_app.
  apply (count_occ_In Handle_eq_dec) in Hin. lia.
Qed.
End Components.

(** ** Sequences of public calls *)

Section Calls.
Context {num : Type} `{!Inhabited num}.
Implicit Types (w : World num) (self : FastWebGL.t num).
Implicit Types (value : UniformValue num) (calls : list (GLCall num)).
Implicit Types (cs : list (Call num)).

(** [setUniformValue] with whatever [updateUniform] read from the
    registry. *)
Lemma setUniformValue_run (location : LocationValue) value w :
  FastWebGL.setUniformValue location value w =
    match location, upload_calls location value, uniform_type_error (env w)
    with
    | Inherited _, _ :: _, Some msg => (Throw {| message := msg |}, w)
    | _, upload, _ => (Return tt, with_calls w upload)
    end.
Proof.
  destruct location as [location | member].
  - destruct value as [x | [| a [| b [| c [| d [| e xs]]]]]];
      try reflexivity; simpl; unfold ret; by rewrite with_calls_nil.
  - destruct value as [x | [| a [| b [| c [| d [| e xs]]]]]]; simpl;
      try (unfold ret; by rewrite with_calls_nil);
      run; by destruct (uniform_type_error (env w)).
Qed.

Lemma updateUniform_run self (name : string) value w :
  FastWebGL.updateUniform self name value w =
    match FastWebGL.uniforms self !! name with
    | Some location =>
        (Return
           (FastWebGL.set_uniformValues self
              (<[name := value]> (FastWebGL.uniformValues self))),
         with_calls w
           (upload_calls (Stored location) value
            ++ draw_calls (FastWebGL.program self) (canvas_width w)
                 (canvas_height w)))
    | None =>
        if decide (name ∈ Object_prototype) then
          match upload_calls (Inherited name) value,
                uniform_type_error (env w) with
          | _ :: _, Some msg => (Throw {| message := msg |}, w)
          | upload, _ =>
              (Return
                 (FastWebGL.set_uniformValues self
                    (FastWebGL.assign_new name value
                       (FastWebGL.uniformValues self))),
               with_calls w
                 (upload
                  ++ draw_calls (FastWebGL.program self) (canvas_width w)
                       (canvas_height w)))
          end
        else (Return self, w)
    end.
Proof.
  unfold FastWebGL.updateUniform.
  destruct (FastWebGL.uniforms self !! name) as [location |].
  - unfold bind at 1. rewrite setUniformValue_spec.
    unfold bind at 1. rewrite draw_spec. unfold ret.
    rewrite with_calls_app.
    by destruct value as [x | [| a [| b [| c [| d [| e xs]]]]]].
  - destruct (decide (name ∈ Object_prototype)); [| reflexivity].
    unfold bind at 1. rewrite setUniformValue_run.
    destruct (upload_calls (Inherited name) value) as [| c upload];
      [| destruct (uniform_type_error (env w)); [reflexivity |]];
      unfold bind at 1; rewrite draw_spec; unfold ret;
      by rewrite with_calls_app.
Qed.

(** What [updateUniform] returns are the fields it leaves. *)
Lemma updateUniform_returns_fields self (name : string) value w self' w' :
  FastWebGL.updateUniform self name value w = (Return self', w') →
  self' = FastWebGL.updateUniform_fields self name value.
Proof.
  rewrite updateUniform_run. unfold FastWebGL.updateUniform_fields.
  destruct (FastWebGL.uniforms self !! name) as [location |];
    [by intros [= <- _] |].
  destruct (decide (name ∈ Object_prototype)); [| by intros [= <- _]].
  destruct (upload_calls (Inherited name) value) as [| c upload];
    [by intros [= <- _] |].
  destruct (uniform_type_error (env w)); [discriminate | by intros [= <- _]].
Qed.

Lemma resize_run self (width height : Q) w :
  FastWebGL.resize self width height w
    = (Return (FastWebGL.set_size self width height), resized w width height).
Proof. unfold FastWebGL.resize, resized. by run. Qed.

Lemma upload_calls_effects (location : LocationValue) value :
  released (upload_calls location value) = [] ∧
  created (upload_calls location value) = [] ∧
  count_draws (upload_calls location value) = 0%nat ∧
  uploads (upload_calls location value) = upload_calls location value ∧
  length (upload_calls location value)
    = (if encodable value then 1 else 0)%nat.
Proof. by destruct value as [x | [| a [| b [| c [| d [| e xs]]]]]]. Qed.

Lemma settled_cases (locations : gmap string WebGLUniformLocation)
    (name : string) :
  settled locations name = true →
  locations !! name = None →
  name ∉ Object_prototype.
Proof.
  unfold settled. intros Hs Hnone. apply bool_decide_eq_true in Hs.
  destruct Hs as [[l Hl] | Hplain]; [congruence | exact Hplain].
Qed.

(** One public call: it returns, and these are its effects. *)
Lemma run_call_spec self (c : Call num) w :
  regular (FastWebGL.uniforms self) c = true →
  ∃ (self' : FastWebGL.t num) (w' : World num) calls,
    run_call self c w = (Return self', w') ∧
    gl_log w' = gl_log w ++ calls ∧
    created calls = [] ∧ released calls = [] ∧
    count_draws calls
      = (if redraws (FastWebGL.uniforms self) c then 1 else 0)%nat ∧
    env w' = env w ∧ fresh w' = fresh w ∧ console w' = console w ∧
    image_requests w' = image_requests w ∧
    FastWebGL.program self' = FastWebGL.program self ∧
    FastWebGL.vertexShader self' = FastWebGL.vertexShader self ∧
    FastWebGL.fragmentShader self' = FastWebGL.fragmentShader self ∧
    FastWebGL.textures self' = FastWebGL.textures self ∧
    FastWebGL.uniforms self' = FastWebGL.uniforms self ∧
    FastWebGL.attribLocations self' = FastWebGL.attribLocations self ∧
    (FastWebGL.width self', FastWebGL.height self')
      = last_size (FastWebGL.width self, FastWebGL.height self) [c] ∧
    (canvas_width w', canvas_height w')
      = last_canvas (canvas_width w, canvas_height w) [c].
Proof.
  intros Hregular.
  destruct c as [name value | width height |]; simpl.
  - rewrite updateUniform_run.
    destruct (FastWebGL.uniforms self !! name) as [location |] eqn:Hreg.
    + destruct (upload_calls_effects (Stored location) value)
        as (Hr & Hc & Hn & _).
      eexists _, _, _. split; [reflexivity |]. split; [reflexivity |].
      rewrite created_app, released_app, count_draws_app, Hr, Hc, Hn.
      rewrite bool_decide_eq_true_2 by eauto.
      by repeat apply conj.
    + rewrite decide_False by (by apply (settled_cases _ _ Hregular)).
      eexists _, _, []. split; [reflexivity |].
      rewrite app_nil_r, bool_decide_eq_false_2 by (by intros [? ?]).
      by repeat apply conj.
  - rewrite resize_run. eexists _, _, _. split; [reflexivity |].
    by repeat apply conj.
  - unfold bind. rewrite draw_spec. unfold ret.
    eexists _, _, _. split; [reflexivity |]. by repeat apply conj.
Qed.

Lemma last_size_cons (size : Q * Q) (c : Call num) cs :
  last_size size (c :: cs) = last_size (last_size size [c]) cs.
Proof. reflexivity. Qed.

Lemma last_canvas_cons (size : Z * Z) (c : Call num) cs :
  last_canvas size (c :: cs) = last_canvas (last_canvas size [c]) cs.
Proof. reflexivity. Qed.

(** A sequence of public calls: it returns, and these are its effects. *)
Lemma run_calls_spec cs :
  ∀ self w,
  forallb (regular (FastWebGL.uniforms self)) cs = true →
  ∃ (self' : FastWebGL.t num) (w' : World num) calls,
    run_calls self cs w = (Return self', w') ∧
    gl_log w' = gl_log w ++ calls ∧
    created calls = [] ∧ released calls = [] ∧
    count_draws calls
      = length (filter (fun c => redraws (FastWebGL.uniforms self) c) cs) ∧
    env w' = env w ∧ fresh w' = fresh w ∧ console w' = console w ∧
    image_requests w' = image_requests w ∧
    FastWebGL.program self' = FastWebGL.program self ∧
    FastWebGL.vertexShader self' = FastWebGL.vertexShader self ∧
    FastWebGL.fragmentShader self' = FastWebGL.fragmentShader self ∧
    FastWebGL.textures self' = FastWebGL.textures self ∧
    FastWebGL.uniforms self' = FastWebGL.uniforms self ∧
    FastWebGL.attribLocations self' = FastWebGL.attribLocations self ∧
    (FastWebGL.width self', FastWebGL.height self')
      = last_size (FastWebGL.width self, FastWebGL.height self) cs ∧
    (canvas_width w', canvas_height w')
      = last_canvas (canvas_width w, canvas_height w) cs.
Proof.
  induction cs as [| c cs IH]; intros self w Hregular.
  - exists self, w, []. rewrite app_nil_r. by repeat apply conj.
  - simpl in Hregular. apply andb_prop in Hregular as [Hc Hcs].
    destruct (run_call_spec self c w Hc)
      as (self1 & w1 & calls1 & Hrun1 & Hlog1 & Hc1 & Hr1 & Hn1 & He1 & Hf1
          & Hcon1 & Hi1 & Hp1 & Hvs1 & Hfs1 & Ht1 & Hu1 & Ha1 & Hs1 & Hcv1).
    rewrite <- Hu1 in Hcs.
    destruct (IH self1 w1 Hcs)
      as (self2 & w2 & calls2 & Hrun2 & Hlog2 & Hc2 & Hr2 & Hn2 & He2 & Hf2
          & Hcon2 & Hi2 & Hp2 & Hvs2 & Hfs2 & Ht2 & Hu2 & Ha2 & Hs2 & Hcv2).
    exists self2, w2, (calls1 ++ calls2).
    split.
    { unfold run_calls in *; simpl.
      by rewrite (bind_Return _ _ _ _ _ Hrun1). }
    rewrite created_app, released_app, count_draws_app, Hc1, Hc2, Hr1, Hr2.
    rewrite Hn1, Hn2, Hu1, filter_cons.
    rewrite (last_size_cons _ c cs), (last_canvas_cons _ c cs).
    rewrite <- Hs1, <- Hcv1.
    repeat apply conj; try congruence; try done.
    + by rewrite Hlog2, Hlog1, app_assoc.
    + destruct (redraws (FastWebGL.uniforms self) c) eqn:Hd.
      * by rewrite decide_True by done.
      * by rewrite decide_False by (unfold Is_true; tauto).
Qed.

(** Sizes that the canvas keeps stay equal in the fields and on the
    canvas. *)
Lemma last_size_on_canvas cs :
  ∀ (size : Q * Q) (canvas : Z * Z),
    forallb fits cs = true →
    size = (inject_Z (fst canvas), inject_Z (snd canvas)) →
    last_size size cs
      = (inject_Z (fst (last_canvas canvas cs)),
         inject_Z (snd (last_canvas canvas cs))).
Proof.
  induction cs as [| c cs IH]; intros size canvas Hfits Hsize; [done |].
  simpl in Hfits. apply andb_prop in Hfits as [Hc Hcs].
  rewrite (last_size_cons _ c cs), (last_canvas_cons _ c cs).
  apply (IH _ _ Hcs).
  destruct c as [name value | width height |]; simpl; try done.
  simpl in Hc. apply andb_prop in Hc as [Hw Hh].
  by rewrite !canvas_dimension_kept.
Qed.

(** X5.  A sequence of public calls other than [dispose], in which no
    [updateUniform] names an unregistered member of [Object.prototype],
    never throws, never obtains or releases a handle and never writes to
    the console or starts an image load; whatever the order of the calls,
    the instance keeps its program, its shaders, its texture units, its
    registry of locations and its attribute locations. *)
Theorem calls_keep_every_resource cs self w :
  forallb (regular (FastWebGL.uniforms self)) cs = true →
  ∃ (self' : FastWebGL.t num) (w' : World num) calls,
    run_calls self cs w = (Return self', w') ∧
    gl_log w' = gl_log w ++ calls ∧
    created calls = [] ∧ released calls = [] ∧
    fresh w' = fresh w ∧ console w' = console w ∧
    image_requests w' = image_requests w ∧
    FastWebGL.program self' = FastWebGL.program self ∧
    FastWebGL.vertexShader self' = FastWebGL.vertexShader self ∧
    FastWebGL.fragmentShader self' = FastWebGL.fragmentShader self ∧
    FastWebGL.textures self' = FastWebGL.textures self ∧
    FastWebGL.uniforms self' = FastWebGL.uniforms self ∧
    FastWebGL.attribLocations self' = FastWebGL.attribLocations self.
Proof.
  intros Hregular.
  destruct (run_calls_spec cs self w Hregular)
    as (self' & w' & calls & Hrun & Hlog & Hc & Hr & _ & _ & Hf & Hcon & Hi
        & Hp & Hvs & Hfs & Ht & Hu & Ha & _).
  exists self', w', calls. by repeat apply conj.
Qed.

(** X6.  A sequence of public calls in which no [updateUniform] names an
    unregistered member of [Object.prototype] redraws once for every
    [draw()] and once for every [updateUniform] of a registered name, and
    for nothing else: [resize] and the other updates never redraw. *)
Theorem calls_redraw_count cs self w :
  forallb (regular (FastWebGL.uniforms self)) cs = true →
  ∃ (self' : FastWebGL.t num) (w' : World num) calls,
    run_calls self cs w = (Return self', w') ∧
    gl_log w' = gl_log w ++ calls ∧
    count_draws calls
      = length (filter (fun c => redraws (FastWebGL.uniforms self) c) cs).
Proof.
  intros Hregular.
  destruct (run_calls_spec cs self w Hregular)
    as (self' & w' & calls & Hrun & Hlog & _ & _ & Hn & _).
  by exists self', w', calls.
Qed.

(** X7.  Take a sequence of public calls in which every [resize] gives
    whole numbers from 0 to 2147483647 and no [updateUniform] names an
    unregistered member of [Object.prototype].  The stored size is that of
    the last [resize]; when the stored size and the size of the canvas
    agree before the sequence they agree after it, and a [draw()], which
    reads the canvas, then sets the viewport to the stored size. *)
Theorem calls_keep_size_and_canvas_equal cs self w :
  FastWebGL.width self = inject_Z (canvas_width w) →
  FastWebGL.height self = inject_Z (canvas_height w) →
  forallb (regular (FastWebGL.uniforms self)) cs = true →
  forallb fits cs = true →
  ∃ (self' : FastWebGL.t num) (w' : World num),
    run_calls self cs w = (Return self', w') ∧
    (FastWebGL.width self', FastWebGL.height self')
      = last_size (FastWebGL.width self, FastWebGL.height self) cs ∧
    FastWebGL.width self' = inject_Z (canvas_width w') ∧
    FastWebGL.height self' = inject_Z (canvas_height w') ∧
    FastWebGL.draw self' w' =
      (Return tt,
       with_calls w'
         [viewport 0 0 (FastWebGL.width self') (FastWebGL.height self');
          clearColor 0 0 0 0; clear COLOR_BUFFER_BIT;
          useProgram (FastWebGL.program self); drawArrays TRIANGLES 0 6]).
Proof.
  intros Hw Hh Hregular Hfits.
  destruct (run_calls_spec cs self w Hregular)
    as (self' & w' & calls & Hrun & _ & _ & _ & _ & _ & _ & _ & _
        & Hp & _ & _ & _ & _ & _ & Hs & Hcv).
  exists self', w'. split; [exact Hrun |]. split; [exact Hs |].
  rewrite (last_size_on_canvas cs _ (canvas_width w, canvas_height w) Hfits)
    in Hs by (by rewrite Hw, Hh).
  rewrite <- Hcv in Hs. simpl in Hs. inversion Hs as [[Hw' Hh']].
  split; [done |]. split; [done |].
  by rewrite draw_spec, Hp, Hw', Hh'.
Qed.

Lemma last_update_cons (u : string * UniformValue num)
    (updates : list (string * UniformValue num)) (name : string) :
  last_update (u :: updates) name =
    match last_update updates name with
    | Some v => Some v
    | None => if decide (fst u = name) then Some (snd u) else None
    end.
Proof.
  unfold last_update. rewrite filter_cons.
  destruct (decide (fst u = name)) as [Heq | Hne].
  - rewrite last_cons.
    by destruct (last (filter (fun u0 => fst u0 = name) updates)).
  - by destruct (last (filter (fun u0 => fst u0 = name) updates)).
Qed.

(** X8.  After a sequence of [updateUniform] calls in which no name is an
    unregistered member of [Object.prototype], the value stored for a
    registered name is the value of its last update, or the value stored
    before when the sequence has no update of that name; nothing is stored
    for, or changed by, the updates of the other names. *)
Theorem last_update_wins (updates : list (string * UniformValue num)) :
  ∀ self w,
  forallb (fun u => settled (FastWebGL.uniforms self) (fst u)) updates
    = true →
  ∃ (self' : FastWebGL.t num) (w' : World num),
    updateUniforms self updates w = (Return self', w') ∧
    ∀ name : string,
      FastWebGL.uniformValues self' !! name =
        match FastWebGL.uniforms self !! name, last_update updates name with
        | Some _, Some v => Some v
        | _, _ => FastWebGL.uniformValues self !! name
        end.
Proof.
  induction updates as [| [n v] updates IH]; intros self w Hsettled.
  - exists self, w. split; [reflexivity |]. intros name.
    by destruct (FastWebGL.uniforms self !! name).
  - simpl in Hsettled. apply andb_prop in Hsettled as [Hn Hrest].
    unfold updateUniforms; simpl. unfold bind at 1.
    rewrite updateUniform_run.
    destruct (FastWebGL.uniforms self !! n) as [location |] eqn:Hreg.
    + match goal with
      | |- context [forEach _ updates ?s ?w1] =>
          destruct (IH s w1 Hrest) as (self' & w' & Hrun & Hval)
      end.
      unfold updateUniforms in Hrun. rewrite Hrun.
      exists self', w'. split; [reflexivity |]. intros name.
      rewrite Hval, last_update_cons; simpl.
      destruct (FastWebGL.uniforms self !! name) as [l |] eqn:Hname.
      * destruct (last_update updates name); [reflexivity |].
        destruct (decide (n = name)) as [-> | Hne].
        -- apply lookup_insert_eq.
        -- by apply lookup_insert_ne.
      * apply lookup_insert_ne. congruence.
    + rewrite decide_False by (by apply (settled_cases _ _ Hn)).
      destruct (IH self w Hrest) as (self' & w' & Hrun & Hval).
      unfold updateUniforms in Hrun. rewrite Hrun.
      exists self', w'. split; [reflexivity |]. intros name.
      rewrite Hval, last_update_cons; simpl.
      destruct (FastWebGL.uniforms self !! name) as [l |] eqn:Hname;
        [| reflexivity].
      destruct (last_update updates name); [reflexivity |].
      destruct (decide (n = name)) as [-> | Hne]; [congruence | reflexivity].
Qed.

(** X16.  [updateUniform] with a name that is not registered but that
    [Object.prototype] defines passes the test of the location.  The value
    is assigned first, whatever follows: it is stored under the name,
    except for [__proto__], which stores nothing.  A scalar or an array of
    one to
    four numbers is then uploaded with the inherited member as location:
    the binding of a browser throws its [TypeError] before any command is
    sent and before the redraw; a stand-in that checks no argument records
    the one upload, and the redraw follows.  For any other array nothing
    is uploaded and the redraw follows on every host. *)
Theorem updateUniform_inherited_name self (name : string) value w :
  FastWebGL.uniforms self !! name = None →
  name ∈ Object_prototype →
  let self' :=
    FastWebGL.set_uniformValues self
      (FastWebGL.assign_new name value (FastWebGL.uniformValues self)) in
  let redraw :=
    draw_calls (FastWebGL.program self) (canvas_width w) (canvas_height w) in
  FastWebGL.updateUniform_fields self name value = self' ∧
  (encodable value = true →
   ∀ msg : string,
     uniform_type_error (env w) = Some msg →
     FastWebGL.updateUniform self name value w
       = (Throw {| message := msg |}, w)) ∧
  (encodable value = true →
   uniform_type_error (env w) = None →
   ∃ upload : list (GLCall num),
     FastWebGL.updateUniform self name value w
       = (Return self', with_calls w (upload ++ redraw)) ∧
     upload = upload_calls (Inherited name) value ∧
     uploads upload = upload ∧ length upload = 1%nat) ∧
  (encodable value = false →
   FastWebGL.updateUniform self name value w
     = (Return self', with_calls w redraw)) ∧
  (name ≠ "__proto__" →
   FastWebGL.uniformValues self' !! name = Some value) ∧
  (name = "__proto__" →
   FastWebGL.uniformValues self' = FastWebGL.uniformValues self).
Proof.
  intros Hnone Hinherited self' redraw.
  pose proof (updateUniform_run self name value w) as Hrun.
  rewrite Hnone, decide_True in Hrun by done.
  destruct (upload_calls_effects (Inherited name) value)
    as (_ & _ & _ & Hup & Hlen).
  repeat apply conj.
  - unfold FastWebGL.updateUniform_fields.
    by rewrite Hnone, decide_True.
  - intros Henc msg Hmsg. rewrite Hrun, Hmsg.
    rewrite Henc in Hlen.
    by destruct (upload_calls (Inherited name) value).
  - intros Henc Hmsg. rewrite Hrun, Hmsg. rewrite Henc in Hlen.
    exists (upload_calls (Inherited name) value).
    by destruct (upload_calls (Inherited name) value).
  - intros Henc. rewrite Hrun. rewrite Henc in Hlen.
    by destruct (upload_calls (Inherited name) value).
  - intros Hne. simpl. unfold FastWebGL.assign_new.
    rewrite decide_False by done. apply lookup_insert_eq.
  - intros ->. reflexivity.
Qed.
End Calls.

(** ** Registration and the successful construction *)

Section Construction.
Context {num : Type} `{!Inhabited num}.
Implicit Types (w : World num) (self : FastWebGL.t num).
Implicit Types (value : UniformValue num) (calls : list (GLCall num)).

Local Abbreviation texture_of program :=
  (fun (d : FastWebGL.TextureDescriptor.t) (i : nat) =>
     Texture.new (num := num)
       {| Texture.TextureParams.program := program;
          Texture.TextureParams.unit := i;
          Texture.TextureParams.name := FastWebGL.TextureDescriptor.name d;
          Texture.TextureParams.source :=
            FastWebGL.TextureDescriptor.source d;
          Texture.TextureParams.options :=
            FastWebGL.TextureDescriptor.options d |}).

Lemma last_found_cons (d : Driver num) (p : WebGLProgram)
    (u : Uniform.t num) (us : list (Uniform.t num)) (name : string) :
  last_found d p (u :: us) name =
    match last_found d p us name with
    | Some y => Some y
    | None =>
        if decide (Uniform.name u = name ∧
                   is_Some (uniform_location d p (Uniform.name u)))
        then Some u else None
    end.
Proof.
  unfold last_found. rewrite filter_cons.
  destruct (decide (Uniform.name u = name ∧
                    is_Some (uniform_location d p (Uniform.name u)))).
  - rewrite last_cons. by destruct (last (filter _ us)).
  - by destruct (last (filter _ us)).
Qed.

Lemma registration_calls_cons (d : Driver num) (p : WebGLProgram)
    (u : Uniform.t num) (us : list (Uniform.t num)) :
  registration_calls d p (u :: us) =
    match uniform_location d p (Uniform.name u) with
    | Some location => upload_calls location (Uniform.value u)
    | None => []
    end ++ registration_calls d p us.
Proof. reflexivity. Qed.

(** [setUniforms] on any instance. *)
Lemma setUniforms_run (us : list (Uniform.t num)) :
  ∀ self w,
  ∃ (m1 : gmap string WebGLUniformLocation)
    (m2 : gmap string (UniformValue num)),
    FastWebGL.setUniforms self us w =
      (Return (FastWebGL.set_uniformValues (FastWebGL.set_uniforms self m1) m2),
       with_calls w
         (registration_calls (env w) (FastWebGL.program self) us)) ∧
    ∀ name : string,
      m1 !! name =
        match last_found (env w) (FastWebGL.program self) us name with
        | Some _ => uniform_location (env w) (FastWebGL.program self) name
        | None => FastWebGL.uniforms self !! name
        end ∧
      m2 !! name =
        match last_found (env w) (FastWebGL.program self) us name with
        | Some u => Some (Uniform.value u)
        | None => FastWebGL.uniformValues self !! name
        end.
Proof.
  induction us as [| u us IH]; intros self w.
  - exists (FastWebGL.uniforms self), (FastWebGL.uniformValues self).
    rewrite setUniforms_nil, eta_registries.
    unfold registration_calls; simpl. rewrite with_calls_nil. by split.
  - rewrite setUniforms_cons, registration_calls_cons.
    destruct (uniform_location (env w) (FastWebGL.program self)
                (Uniform.name u)) as [location |] eqn:Hloc.
    + rewrite setUniformValue_spec; simpl.
      match goal with
      | |- context [FastWebGL.setUniforms ?s us ?w1] =>
          destruct (IH s w1) as (m1 & m2 & Hrun & Hlook)
      end.
      simpl in Hrun, Hlook. rewrite Hrun, with_calls_app.
      exists m1, m2. split; [reflexivity |]. intros name.
      destruct (Hlook name) as [H1 H2].
      rewrite H1, H2, last_found_cons.
      destruct (last_found (env w) (FastWebGL.program self) us name);
        [done |].
      destruct (decide (Uniform.name u = name ∧
                        is_Some (uniform_location (env w)
                                   (FastWebGL.program self) (Uniform.name u))))
        as [[Heq _] | Hne].
      * subst name. rewrite !lookup_insert_eq. by rewrite Hloc.
      * assert (Uniform.name u ≠ name) as Hn
          by (intros Heq; apply Hne; split; [done | by rewrite Hloc]).
        by rewrite !lookup_insert_ne.
    + destruct (IH self w) as (m1 & m2 & Hrun & Hlook).
      exists m1, m2. split; [exact Hrun |]. intros name.
      destruct (Hlook name) as [H1 H2].
      rewrite H1, H2, last_found_cons.
      destruct (last_found (env w) (FastWebGL.program self) us name);
        [done |].
      rewrite decide_False; [done |].
      rewrite Hloc. by intros [_ [? ?]].
Qed.

(** X9.  Registering descriptors never throws and never draws.  It uploads,
    in the order of the descriptors, the value of every descriptor whose
    location is found.  Afterwards a name with such a descriptor has the
    location the program reports and the value of the last such descriptor,
    earlier ones being overwritten; every other name, among them the names
    whose location is not found, is as before. *)
Theorem registration_keeps_the_last_descriptor
    (us : list (Uniform.t num)) self w :
  ∃ self' : FastWebGL.t num,
    FastWebGL.setUniforms self us w =
      (Return self',
       with_calls w
         (registration_calls (env w) (FastWebGL.program self) us)) ∧
    count_draws (registration_calls (env w) (FastWebGL.program self) us)
      = 0%nat ∧
    owned_handles self' = owned_handles self ∧
    ∀ name : string,
      FastWebGL.uniforms self' !! name =
        match last_found (env w) (FastWebGL.program self) us name with
        | Some _ => uniform_location (env w) (FastWebGL.program self) name
        | None => FastWebGL.uniforms self !! name
        end ∧
      FastWebGL.uniformValues self' !! name =
        match last_found (env w) (FastWebGL.program self) us name with
        | Some u => Some (Uniform.value u)
        | None => FastWebGL.uniformValues self !! name
        end.
Proof.
  destruct (setUniforms_run us self w) as (m1 & m2 & Hrun & Hlook).
  eexists. split; [exact Hrun |]. split; [| split; [reflexivity | exact Hlook]].
  clear. induction us as [| u us IH]; [reflexivity |].
  rewrite registration_calls_cons, count_draws_app, IH.
  destruct (uniform_location (env w) (FastWebGL.program self) (Uniform.name u));
    [| reflexivity].
  by rewrite (proj1 (proj2 (proj2 (upload_calls_effects _ _)))).
Qed.
Lemma textures_run (p : WebGLProgram)
    (descs : list FastWebGL.TextureDescriptor.t) :
  ∀ (i : nat) w,
    (∀ j, (j < length descs)%nat → alloc_ok (env w) (fresh w + j) = true) →
    map_indexed (texture_of p) i descs w =
      (Return (texture_units p i (fresh w) descs),
       evolve w (length descs)
         (map (fun k => createTexture (Some (TextureHandle k)))
            (seq (fresh w) (length descs)))
         []
         (map FastWebGL.TextureDescriptor.source descs)).
Proof.
  induction descs as [| d descs IH]; intros i w Hok.
  - simpl. unfold ret. by rewrite evolve_id.
  - simpl. unfold bind at 1. rewrite Texture_new_run.
    rewrite <- (Nat.add_0_r (fresh w)) at 1.
    rewrite Hok by (simpl; lia).
    unfold bind at 1. rewrite IH.
    + unfold ret. rewrite evolve_evolve. simpl.
      by rewrite Nat.add_1_r.
    + intros j Hj. simpl.
      rewrite <- Nat.add_succ_r. apply Hok. simpl; lia.
Qed.

Lemma setupAttributes_run self w :
  let a := attrib_location (env w) (FastWebGL.program self) "a_position" in
  FastWebGL.setupAttributes self w =
    if alloc_ok (env w) (fresh w) then
      (Return
         (FastWebGL.set_attribLocations self
            (<["a_position" := a]> (FastWebGL.attribLocations self))),
       evolve w 1
         [createBuffer (Some (BufferHandle (fresh w)));
          bindBuffer ARRAY_BUFFER (BufferHandle (fresh w));
          bufferData ARRAY_BUFFER [-1; -1; 1; -1; -1; 1; -1; 1; 1; -1; 1; 1]
            STATIC_DRAW;
          enableVertexAttribArray a;
          vertexAttribPointer a 2 FLOAT false 0 0] [] [])
    else
      (Throw {| message := "Unable to create buffer." |},
       evolve w 1 [createBuffer None] [] []).
Proof.
  unfold FastWebGL.setupAttributes, evolve. run.
  destruct (alloc_ok (env w) (fresh w)); simpl;
    by rewrite <- ?app_assoc, ?app_nil_r.
Qed.

(** The construction on which every step succeeds. *)
Lemma new_run (params : FastWebGL.Params.t num) w :
  let d := env w in
  let n := fresh w in
  let descs := FastWebGL.Params.textures params in
  let m := length descs in
  let p := ProgramHandle (n + 2) in
  setup_ok d n m →
  ∃ (m1 : gmap string WebGLUniformLocation)
    (m2 : gmap string (UniformValue num)) (w' : World num),
    FastWebGL.new params w =
      (Return
         {| FastWebGL.width := resolved_width d params;
            FastWebGL.height := resolved_height d params;
            FastWebGL.vertexShader := {| Shader.shader := ShaderHandle n |};
            FastWebGL.fragmentShader :=
              {| Shader.shader := ShaderHandle (n + 1) |};
            FastWebGL.program := p;
            FastWebGL.textures := texture_units p 0 (n + 3) descs;
            FastWebGL.uniforms := m1;
            FastWebGL.uniformValues := m2;
            FastWebGL.attribLocations :=
              <["a_position" := attrib_location d p "a_position"]> ∅;
            FastWebGL.startTime := performance_now d |},
       w') ∧
    (∀ name : string,
       m1 !! name =
         match last_found d p (FastWebGL.Params.uniforms params) name with
         | Some _ => uniform_location d p name
         | None => None
         end ∧
       m2 !! name =
         Uniform.value
           <$> last_found d p (FastWebGL.Params.uniforms params) name) ∧
    env w' = d ∧
    fresh w' = (n + 4 + m)%nat ∧
    gl_log w' = gl_log w ++ construction_calls d n params ∧
    console w' =
      console w ++
      (if validate_status d p then []
       else ["Error validating program: " +:+ program_info_log d p]) ∧
    canvas_width w' = canvas_dimension 300 (resolved_width d params) ∧
    canvas_height w' = canvas_dimension 150 (resolved_height d params) ∧
    image_requests w' =
      image_requests w ++ map FastWebGL.TextureDescriptor.source descs.
Proof.
  intros d n descs m p (Hctx & Halloc & Hc0 & Hc1 & Hlink).
  assert (alloc_ok d n = true) as Ha0
    by (rewrite <- (Nat.add_0_r n); apply Halloc; lia).
  assert (alloc_ok d (S n) = true) as Ha1
    by (rewrite <- (Nat.add_1_r n); apply Halloc; lia).
  assert (alloc_ok d (S (S n)) = true) as Ha2
    by (replace (S (S n)) with (n + 2)%nat by lia; apply Halloc; lia).
  assert (alloc_ok d (m + 3 + n) = true) as Ha3
    by (replace (m + 3 + n)%nat with (n + (3 + m))%nat by lia;
        apply Halloc; lia).
  unfold construction_calls. fold d n descs m p.
  replace (n + 3 + m)%nat with (m + 3 + n)%nat by lia.
  replace (n + 3)%nat with (S (S (S n))) by lia.
  replace (n + 4 + m)%nat with (S (m + 3 + n))%nat by lia.
  subst p.
  replace (n + 2)%nat with (S (S n)) in * by lia.
  replace (n + 1)%nat with (S n) in * by lia.
  unfold FastWebGL.new.
  pose proof (createContext_cases w) as Hcc. fold d in Hcc.
  rewrite Hctx in Hcc.
  rewrite (bind_Return _ _ _ _ _ Hcc), !bind_ask.
  pose proof (Shader_new_run VERTEX_SHADER
                (FastWebGL.Params.vertexSource params) w) as H1.
  simpl in H1. fold d n in H1. rewrite Ha0, Hc0 in H1.
  rewrite (bind_Return _ _ _ _ _ H1). clear H1.
  match goal with
  | |- context [bind (Shader.new ?ty ?src) _ ?w1] =>
      pose proof (Shader_new_run ty src w1) as H2
  end.
  simpl in H2. fold d n in H2. rewrite Ha1, Hc1, evolve_evolve in H2.
  rewrite (bind_Return _ _ _ _ _ H2). clear H2.
  match goal with
  | |- context [bind (FastWebGL.createProgram ?vs ?fs) _ ?w1] =>
      pose proof (createProgram_run vs fs w1) as H3
  end.
  simpl in H3. fold d n in H3. rewrite Ha2, Hlink, evolve_evolve in H3.
  rewrite (bind_Return _ _ _ _ _ H3). clear H3.
  match goal with
  | |- context [bind (map_indexed ?f 0%nat ?l) _ ?w1] =>
      pose proof (textures_run (ProgramHandle (S (S n))) l 0 w1) as H4
  end.
  simpl in H4. fold d n descs m in H4. rewrite evolve_evolve in H4.
  assert (∀ j, (j < m)%nat → alloc_ok d (S (S (S (n + j)))) = true) as Htex.
  { intros j Hj. replace (S (S (S (n + j)))) with (n + (3 + j))%nat by lia.
    apply Halloc. lia. }
  rewrite (bind_Return _ _ _ _ _ (H4 Htex)). clear H4.
  rewrite bind_ask. unfold GL.useProgram. rewrite bind_emit.
  rewrite evolve_with_calls.
  match goal with
  | |- context [bind (FastWebGL.setupAttributes ?s0) _ ?w1] =>
      pose proof (setupAttributes_run s0 w1) as H5
  end.
  simpl in H5. fold d n descs m in H5. rewrite Ha3, evolve_evolve in H5.
  rewrite (bind_Return _ _ _ _ _ H5). clear H5.
  match goal with
  | |- context [bind (FastWebGL.setUniforms ?s0 ?us) _ ?w1] =>
      destruct (setUniforms_run us s0 w1) as (m1 & m2 & H6 & Hlook)
  end.
  simpl in H6, Hlook. fold d in H6, Hlook.
  rewrite (bind_Return _ _ _ _ _ H6). clear H6.
  rewrite evolve_with_calls.
  rewrite (bind_Return _ _ _ _ _ (resize_run _ _ _ _)).
  unfold bind at 1. rewrite draw_spec. unfold ret.
  exists m1, m2. eexists. split; [reflexivity |].
  split.
  { intros name. destruct (Hlook name) as [Hl1 Hl2].
    rewrite Hl1, Hl2, !lookup_empty.
    by destruct (last_found d (ProgramHandle (S (S n)))
                   (FastWebGL.Params.uniforms params) name). }
  simpl. fold d n descs m.
  repeat apply conj; try reflexivity.
  - unfold resolved_width, resolved_height.
    rewrite <- !app_assoc; simpl.
    repeat (rewrite <- !app_assoc; simpl). reflexivity.
  - by rewrite !app_nil_r.
  - by rewrite app_nil_r.
Qed.

(** A returned construction is the one of [new_run]. *)
Lemma new_Return_run (params : FastWebGL.Params.t num) w self w' :
  FastWebGL.new params w = (Return self, w') →
  let d := env w in
  let n := fresh w in
  let descs := FastWebGL.Params.textures params in
  let m := length descs in
  let p := ProgramHandle (n + 2) in
  FastWebGL.width self = resolved_width d params ∧
  FastWebGL.height self = resolved_height d params ∧
  FastWebGL.vertexShader self = {| Shader.shader := ShaderHandle n |} ∧
  FastWebGL.fragmentShader self
    = {| Shader.shader := ShaderHandle (n + 1) |} ∧
  FastWebGL.program self = p ∧
  FastWebGL.textures self = texture_units p 0 (n + 3) descs ∧
  FastWebGL.attribLocations self
    = <["a_position" := attrib_location d p "a_position"]> ∅ ∧
  FastWebGL.startTime self = performance_now d ∧
  (∀ name : string,
     FastWebGL.uniforms self !! name =
       match last_found d p (FastWebGL.Params.uniforms params) name with
       | Some _ => uniform_location d p name
       | None => None
       end ∧
     FastWebGL.uniformValues self !! name =
       Uniform.value
         <$> last_found d p (FastWebGL.Params.uniforms params) name) ∧
  env w' = d ∧
  fresh w' = (n + 4 + m)%nat ∧
  gl_log w' = gl_log w ++ construction_calls d n params ∧
  canvas_width w' = canvas_dimension 300 (resolved_width d params) ∧
  canvas_height w' = canvas_dimension 150 (resolved_height d params) ∧
  image_requests w' =
    image_requests w ++ map FastWebGL.TextureDescriptor.source descs.
Proof.
  intros Hnew d n descs m p.
  destruct (new_Return_inv _ _ _ _ Hnew) as ((Hok & _) & _).
  destruct (new_run params w Hok)
    as (m1 & m2 & w1 & Hrun & Hlook & He & Hf & Hlog & _ & Hcw & Hch & Hi).
  rewrite Hnew in Hrun. inversion Hrun; subst self w1; simpl.
  by repeat apply conj.
Qed.
Lemma texture_units_lookup (p : WebGLProgram)
    (descs : list FastWebGL.TextureDescriptor.t) :
  ∀ (i n j : nat) (t : Texture.t),
    texture_units p i n descs !! j = Some t →
    ∃ desc,
      descs !! j = Some desc ∧
      t = {| Texture.program := p;
             Texture.texture := TextureHandle (n + j);
             Texture.unit := (i + j)%nat;
             Texture.name := FastWebGL.TextureDescriptor.name desc;
             Texture.source := FastWebGL.TextureDescriptor.source desc;
             Texture.options :=
               default {| minFilter := None; magFilter := None;
                          wrapS := None; wrapT := None |}
                       (FastWebGL.TextureDescriptor.options desc) |}.
Proof.
  induction descs as [| d descs IH]; intros i n j t Hj; [done |].
  destruct j as [| j]; simpl in Hj.
  - inversion Hj. exists d. by rewrite !Nat.add_0_r.
  - destruct (IH _ _ _ _ Hj) as (desc & Hd & ->).
    exists desc. split; [done |]. by rewrite !Nat.add_succ_r.
Qed.

Lemma texture_units_handles (p : WebGLProgram)
    (descs : list FastWebGL.TextureDescriptor.t) :
  ∀ i n,
    map (fun t => HTexture (Texture.texture t)) (texture_units p i n descs)
      = map (fun k => HTexture (TextureHandle k)) (seq n (length descs)).
Proof.
  induction descs as [| d descs IH]; intros i n; simpl; [done |].
  by rewrite IH.
Qed.

Lemma created_createTexture (ids : list nat) :
  created (num := num)
    (map (fun k => createTexture (Some (TextureHandle k))) ids)
    = map (fun k => HTexture (TextureHandle k)) ids.
Proof. induction ids as [| k ids IH]; simpl; [done | by f_equal]. Qed.

Lemma created_registration_calls (d : Driver num) (p : WebGLProgram)
    (us : list (Uniform.t num)) :
  created (registration_calls d p us) = [].
Proof.
  induction us as [| u us IH]; [reflexivity |].
  rewrite registration_calls_cons, created_app, IH.
  destruct (uniform_location d p (Uniform.name u)); [| reflexivity].
  by rewrite (proj1 (proj2 (upload_calls_effects _ _))).
Qed.

(** X10.  A successful construction sends exactly these commands, in this
    order: the vertex shader (create, source, compile), the fragment shader
    likewise, the program (create, attach twice, link, validate), one
    allocation per texture descriptor and no other texture command,
    [useProgram], the position buffer and the attribute, the uploads of the
    descriptors whose location is found, the viewport of the resolved size,
    and last the five commands of the first draw, whose viewport is the
    size the canvas made of the resolved size.  It makes [4 + m]
    allocation requests for [m] texture descriptors. *)
Theorem construction_sends_exactly (params : FastWebGL.Params.t num)
    w self w' :
  FastWebGL.new params w = (Return self, w') →
  gl_log w' = gl_log w ++ construction_calls (env w) (fresh w) params ∧
  fresh w'
    = (fresh w + 4 + length (FastWebGL.Params.textures params))%nat ∧
  count_draws (construction_calls (env w) (fresh w) params) = 1%nat ∧
  FastWebGL.getProgram self = ProgramHandle (fresh w + 2).
Proof.
  intros Hnew.
  destruct (new_Return_run _ _ _ _ Hnew)
    as (_ & _ & _ & _ & Hp & _ & _ & _ & _ & _ & Hf & Hlog & _).
  destruct (new_Return_inv _ _ _ _ Hnew)
    as (_ & _ & calls & Hlog' & _ & Hn).
  rewrite Hlog in Hlog'. apply app_inv_head in Hlog'.
  split; [exact Hlog |]. split; [exact Hf |]. split; [| exact Hp].
  by rewrite Hlog'.
Qed.

(** X11.  A successful construction resolves each dimension to the option
    when it is given and to the inner size of the window otherwise, stores
    it as it is, and assigns it to the canvas, which takes what its setter
    makes of the number: when the resolved dimension is a whole number
    from 0 to 2147483647, the stored dimension and that of the canvas
    agree when the constructor returns. *)
Theorem construction_resolves_size (params : FastWebGL.Params.t num)
    w self w' :
  FastWebGL.new params w = (Return self, w') →
  FastWebGL.width self =
    match FastWebGL.Options.width (FastWebGL.Params.options params) with
    | Some width => width
    | None => inject_Z (innerWidth (env w))
    end ∧
  FastWebGL.height self =
    match FastWebGL.Options.height (FastWebGL.Params.options params) with
    | Some height => height
    | None => inject_Z (innerHeight (env w))
    end ∧
  canvas_width w' = canvas_dimension 300 (FastWebGL.width self) ∧
  canvas_height w' = canvas_dimension 150 (FastWebGL.height self) ∧
  (kept_by_canvas (FastWebGL.width self) = true →
   inject_Z (canvas_width w') = FastWebGL.width self) ∧
  (kept_by_canvas (FastWebGL.height self) = true →
   inject_Z (canvas_height w') = FastWebGL.height self).
Proof.
  intros Hnew.
  destruct (new_Return_run _ _ _ _ Hnew)
    as (Hw & Hh & _ & _ & _ & _ & _ & _ & _ & _ & _ & _ & Hcw & Hch & _).
  rewrite Hcw, Hch, Hw, Hh. unfold resolved_width, resolved_height.
  repeat apply conj; try apply canvas_dimension_kept.
  - by destruct (FastWebGL.Options.width (FastWebGL.Params.options params)).
  - by destruct (FastWebGL.Options.height (FastWebGL.Params.options params)).
  - reflexivity.
  - reflexivity.
Qed.

(** X12.  After a successful construction, the value stored for a name is
    the value of the last descriptor of that name whose location the
    program reports, and its stored location is the one the program
    reports; a name without such a descriptor is in neither registry. *)
Theorem construction_registers_the_last_descriptor
    (params : FastWebGL.Params.t num) w self w' :
  FastWebGL.new params w = (Return self, w') →
  ∀ name : string,
    FastWebGL.uniformValues self !! name =
      Uniform.value
        <$> last_found (env w) (FastWebGL.program self)
              (FastWebGL.Params.uniforms params) name ∧
    FastWebGL.uniforms self !! name =
      match last_found (env w) (FastWebGL.program self)
              (FastWebGL.Params.uniforms params) name with
      | Some _ =>
          uniform_location (env w) (FastWebGL.program self) name
      | None => None
      end.
Proof.
  intros Hnew name.
  destruct (new_Return_run _ _ _ _ Hnew)
    as (_ & _ & _ & _ & Hp & _ & _ & _ & Hlook & _).
  rewrite Hp. destruct (Hlook name) as [H1 H2]. by split.
Qed.

(** X13.  During a successful construction the image load of every
    texture descriptor is started, in the order of the descriptors.  When
    the image of the descriptor at position [i] arrives, its handler
    activates unit [i], binds and fills the texture allocated for it, sets
    the four sampling parameters to the options of the descriptor (linear
    filters and clamping where absent), and sets the uniform named by the
    descriptor, in the program of the instance, to [i]; it cannot throw,
    whatever happened to the instance meanwhile.  The error handler throws
    with the source of the descriptor and sends nothing. *)
Theorem onload_binds_the_unit_of_its_descriptor
    (params : FastWebGL.Params.t num) w self w' (i : nat) (t : Texture.t) :
  FastWebGL.new params w = (Return self, w') →
  FastWebGL.textures self !! i = Some t →
  image_requests w' =
    image_requests w
    ++ map FastWebGL.TextureDescriptor.source
         (FastWebGL.Params.textures params) ∧
  ∃ desc,
    FastWebGL.Params.textures params !! i = Some desc ∧
    let options :=
      default {| minFilter := None; magFilter := None;
                 wrapS := None; wrapT := None |}
              (FastWebGL.TextureDescriptor.options desc) in
    ∀ w2 : World num,
      Texture.onload t w2 =
        (Return tt,
         with_calls w2
           [activeTexture i;
            bindTexture TEXTURE_2D (TextureHandle (fresh w + 3 + i));
            texImage2D TEXTURE_2D 0 RGBA RGBA UNSIGNED_BYTE
              (FastWebGL.TextureDescriptor.source desc);
            texParameteri TEXTURE_2D TEXTURE_MIN_FILTER
              (FilterValue (default LINEAR (minFilter options)));
            texParameteri TEXTURE_2D TEXTURE_MAG_FILTER
              (FilterValue (default LINEAR (magFilter options)));
            texParameteri TEXTURE_2D TEXTURE_WRAP_S
              (WrapValue (default CLAMP_TO_EDGE (wrapS options)));
            texParameteri TEXTURE_2D TEXTURE_WRAP_T
              (WrapValue (default CLAMP_TO_EDGE (wrapT options)));
            uniform1i
              (uniform_location (env w2) (FastWebGL.program self)
                 (FastWebGL.TextureDescriptor.name desc))
              i]) ∧
      Texture.onerror t w2 =
        (Throw {| message :=
                    "Failed to load image: "
                    +:+ FastWebGL.TextureDescriptor.source desc |},
         w2).
Proof.
  intros Hnew Hi.
  destruct (new_Return_run _ _ _ _ Hnew)
    as (_ & _ & _ & _ & Hp & Ht & _ & _ & _ & _ & _ & _ & _ & _ & Himg).
  split; [exact Himg |].
  rewrite Ht in Hi. apply texture_units_lookup in Hi as (desc & Hd & ->).
  exists desc. split; [exact Hd |]. intros options w2.
  rewrite onload_run, Hp. by split.
Qed.



(** X14.  Construction followed by [dispose] releases every handle the
    construction obtained except the position buffer: the construction
    obtains the two shaders, the program, one texture per descriptor and
    the buffer; [dispose] releases the program, the shaders and the
    textures, and never the buffer. *)
Theorem dispose_releases_all_but_the_buffer
    (params : FastWebGL.Params.t num) w self w' :
  FastWebGL.new params w = (Return self, w') →
  let n := fresh w in
  let m := length (FastWebGL.Params.textures params) in
  let textures := map (fun k => HTexture (TextureHandle k)) (seq (n + 3) m) in
  let buffer := HBuffer (BufferHandle (n + 3 + m)) in
  ∃ ccalls dcalls,
    gl_log w' = gl_log w ++ ccalls ∧
    (∀ w2 : World num,
       FastWebGL.dispose self w2 = (Return tt, with_calls w2 dcalls)) ∧
    created ccalls
      = HShader (ShaderHandle n) :: HShader (ShaderHandle (n + 1))
        :: HProgram (ProgramHandle (n + 2)) :: textures ++ [buffer] ∧
    released dcalls
      = HProgram (ProgramHandle (n + 2)) :: HShader (ShaderHandle n)
        :: HShader (ShaderHandle (n + 1)) :: textures ∧
    released ccalls = [] ∧
    (∀ h, In h (created ccalls) → In h (released dcalls) ∨ h = buffer) ∧
    ¬ In buffer (released dcalls).
Proof.
  intros Hnew n m textures buffer. subst n.
  set (n := fresh w) in *.
  destruct (new_Return_run _ _ _ _ Hnew)
    as (_ & _ & Hvs & Hfs & Hp & Ht & _ & _ & _ & _ & _ & Hlog & _).
  fold n in Hvs, Hfs, Hp, Ht, Hlog.
  destruct (new_Return_inv _ _ _ _ Hnew)
    as (_ & _ & calls & Hlog' & Hrel & _).
  rewrite Hlog in Hlog'. apply app_inv_head in Hlog'.
  eexists _, _. split; [exact Hlog |].
  split; [intros w2; apply dispose_spec |].
  assert (released
            (deleteProgram (FastWebGL.program self)
             :: deleteShader (Shader.shader (FastWebGL.vertexShader self))
             :: deleteShader (Shader.shader (FastWebGL.fragmentShader self))
             :: map (fun t => deleteTexture (num := num) (Texture.texture t))
                  (FastWebGL.textures self))
          = HProgram (ProgramHandle (n + 2)) :: HShader (ShaderHandle n)
            :: HShader (ShaderHandle (n + 1)) :: textures) as Hd.
  { simpl. rewrite released_deleteTexture, Hvs, Hfs, Hp, Ht.
    by rewrite texture_units_handles. }
  assert (created (construction_calls (env w) n params)
          = HShader (ShaderHandle n) :: HShader (ShaderHandle (n + 1))
            :: HProgram (ProgramHandle (n + 2)) :: textures ++ [buffer])
    as Hc.
  { unfold construction_calls. rewrite !created_app.
    rewrite created_createTexture, created_registration_calls.
    reflexivity. }
  split; [exact Hc |]. split; [exact Hd |].
  split; [by rewrite Hlog' |].
  split.
  - intros h Hin. rewrite Hc in Hin. rewrite Hd.
    simpl in Hin. destruct Hin as [<- | [<- | [<- | Hin]]];
      [left; simpl; tauto.. |].
    apply in_app_or in Hin as [Hin | [<- | []]]; [| by right].
    left. simpl. tauto.
  - rewrite Hd. simpl. intros [Hin | [Hin | [Hin | Hin]]]; try discriminate.
    apply in_map_iff in Hin as (k & Hk & _). discriminate.
Qed.
Lemma quiet_createTexture (rs : list (option WebGLTexture)) :
  count_draws (num := num) (map createTexture rs) = 0%nat ∧
  uploads (num := num) (map createTexture rs) = [].
Proof. induction rs as [| r rs [IH1 IH2]]; [done |]. by split. Qed.

Lemma quiet_cons (c : GLCall num) calls :
  is_drawArrays c = false → is_uniform_upload c = false →
  count_draws calls = 0%nat ∧ uploads calls = [] →
  count_draws (c :: calls) = 0%nat ∧ uploads (c :: calls) = [].
Proof.
  intros Hd Hu [Hn Hup]. unfold count_draws, uploads in *.
  rewrite !filter_cons, Hd, Hu.
  rewrite !decide_False by (unfold Is_true; tauto). by split.
Qed.

Lemma quiet_app calls1 calls2 :
  count_draws calls1 = 0%nat ∧ uploads calls1 = [] →
  count_draws calls2 = 0%nat ∧ uploads calls2 = [] →
  count_draws (calls1 ++ calls2) = 0%nat ∧ uploads (calls1 ++ calls2) = [].
Proof.
  intros [Hn1 Hu1] [Hn2 Hu2]. unfold uploads in *.
  by rewrite count_draws_app, filter_app, Hn1, Hn2, Hu1, Hu2.
Qed.

(** The world after the texture loop, however it ends. *)
Lemma textures_world (p : WebGLProgram)
    (descs : list FastWebGL.TextureDescriptor.t) :
  ∀ (i : nat) w (r : Outcome (list Texture.t)) w',
    map_indexed (texture_of p) i descs w = (r, w') →
    ∃ (k : nat) (rs : list (option WebGLTexture)) (images : list string),
      w' = evolve w k (map createTexture rs) [] images.
Proof.
  induction descs as [| d descs IH]; intros i w r w' Hrun.
  - inversion Hrun. exists 0%nat, [], []. symmetry. apply evolve_id.
  - simpl in Hrun. unfold bind at 1 in Hrun. rewrite Texture_new_run in Hrun.
    destruct (alloc_ok (env w) (fresh w)).
    + unfold bind at 1 in Hrun.
      match type of Hrun with
      | context [map_indexed _ (S i) descs ?w1] =>
          destruct (map_indexed (texture_of p) (S i) descs w1)
            as [[texs | e1] w2] eqn:Hrest
      end;
        inversion Hrun; subst w';
        destruct (IH _ _ _ _ Hrest) as (k & rs & images & ->);
        rewrite evolve_evolve;
        by eexists _, (Some (TextureHandle (fresh w)) :: rs), _.
    + inversion Hrun. by exists 1%nat, [None], [].
Qed.

(** X15.  A construction that throws leaves the canvas at the size it had
    and has sent no draw and no upload of a uniform: everything visible
    happens after the last step that can fail. *)
Theorem failed_construction_shows_nothing (params : FastWebGL.Params.t num)
    w (e : Error) w' :
  FastWebGL.new params w = (Throw e, w') →
  canvas_width w' = canvas_width w ∧
  canvas_height w' = canvas_height w ∧
  ∃ calls,
    gl_log w' = gl_log w ++ calls ∧
    count_draws calls = 0%nat ∧ uploads calls = [].
Proof.
  intros Hnew.
  assert (∃ (k : nat) calls (a i : list string),
            w' = evolve w k calls a i ∧
            count_draws calls = 0%nat ∧ uploads calls = [])
    as (k & calls & a & i & -> & Hn & Hu);
    [| split; [done |]; split; [done |]; by exists calls].
  unfold FastWebGL.new in Hnew.
  pose proof (createContext_cases w) as Hcc.
  destruct (context_available (env w)).
  2:{ rewrite (bind_Throw _ _ _ _ _ Hcc) in Hnew. inversion Hnew.
      exists 0%nat, [], [], []. by rewrite evolve_id. }
  rewrite (bind_Return _ _ _ _ _ Hcc), !bind_ask in Hnew.
  pose proof (Shader_new_run VERTEX_SHADER
                (FastWebGL.Params.vertexSource params) w) as H1.
  simpl in H1.
  destruct (alloc_ok (env w) (fresh w));
    [destruct (compile_status (env w) (ShaderHandle (fresh w))) |].
  2,3: rewrite (bind_Throw _ _ _ _ _ H1) in Hnew; inversion Hnew;
       by eexists _, _, _, _.
  rewrite (bind_Return _ _ _ _ _ H1) in Hnew. clear H1.
  match type of Hnew with
  | context [bind (Shader.new ?ty ?src) _ ?w1] =>
      pose proof (Shader_new_run ty src w1) as H2
  end.
  simpl in H2. rewrite !evolve_evolve in H2.
  destruct (alloc_ok (env w) (S (fresh w)));
    [destruct (compile_status (env w) (ShaderHandle (S (fresh w)))) |].
  2,3: rewrite (bind_Throw _ _ _ _ _ H2) in Hnew; inversion Hnew;
       by eexists _, _, _, _.
  rewrite (bind_Return _ _ _ _ _ H2) in Hnew. clear H2.
  match type of Hnew with
  | context [bind (FastWebGL.createProgram ?vs ?fs) _ ?w1] =>
      pose proof (createProgram_run vs fs w1) as H3
  end.
  simpl in H3. rewrite !evolve_evolve in H3.
  destruct (alloc_ok (env w) (S (S (fresh w))));
    [destruct (link_status (env w) (ProgramHandle (S (S (fresh w))))) |].
  2,3: rewrite (bind_Throw _ _ _ _ _ H3) in Hnew; inversion Hnew;
       by eexists _, _, _, _.
  rewrite (bind_Return _ _ _ _ _ H3) in Hnew. clear H3.
  match type of Hnew with
  | context [bind (map_indexed ?f 0%nat ?l) _ ?w1] =>
      destruct (map_indexed f 0%nat l w1) as [[texs | e4] w4] eqn:H4
  end.
  all: pose proof H4 as Hw4;
       apply textures_world in Hw4 as (k & rs & images & ->);
       rewrite evolve_evolve in *;
       destruct (quiet_createTexture rs) as [Hq1 Hq2].
  2:{ rewrite (bind_Throw _ _ _ _ _ H4) in Hnew. inversion Hnew; subst e4.
      eexists _, _, _, _. split; [reflexivity |].
      repeat (apply quiet_cons; [reflexivity | reflexivity |]). by split. }
  rewrite (bind_Return _ _ _ _ _ H4), bind_ask in Hnew.
  unfold GL.useProgram in Hnew. rewrite bind_emit in Hnew.
  match type of Hnew with
  | context [bind (FastWebGL.setupAttributes ?s0) _ ?w1] =>
      pose proof (setupAttributes_run s0 w1) as H5
  end.
  simpl in H5.
  match type of H5 with
  | context [alloc_ok ?d0 ?k0] => destruct (alloc_ok d0 k0)
  end.
  - rewrite (bind_Return _ _ _ _ _ H5) in Hnew. clear H5.
    match type of Hnew with
    | context [bind (FastWebGL.setUniforms ?s0 ?us) _ ?w1] =>
        destruct (setUniforms_run us s0 w1) as (m1 & m2 & H6 & _)
    end.
    rewrite (bind_Return _ _ _ _ _ H6) in Hnew.
    rewrite (bind_Return _ _ _ _ _ (resize_run _ _ _ _)) in Hnew.
    unfold bind at 1 in Hnew. rewrite draw_spec in Hnew. discriminate.
  - rewrite (bind_Throw _ _ _ _ _ H5) in Hnew. inversion Hnew.
    rewrite evolve_with_calls, evolve_evolve.
    eexists _, _, _, _. split; [reflexivity |].
    repeat (apply quiet_cons; [reflexivity | reflexivity |]).
    repeat (apply quiet_app); by split.
Qed.
End Construction.

(** * The further properties on the concrete hosts *)

(** X5 on the constructed example: updates of a registered name, of an
    unknown name and a resize, between two draws. *)
Lemma calls_keep_every_resource_example :
  let cs :=
    [call_draw; call_updateUniform "u_time" (VNum 1.5%Q);
     call_updateUniform "u_colour" (VNum 1%Q); call_resize 640 480;
     call_draw] in
  let self := Example.constructed in
  let w := snd Example.construction in
  ∃ (self' : FastWebGL.t Q) (w' : World Q) (calls : list (GLCall Q)),
    run_calls self cs w = (Return self', w') ∧
    gl_log w' = gl_log w ++ calls ∧
    created calls = [] ∧ released calls = [] ∧
    fresh w' = fresh w ∧ console w' = console w ∧
    image_requests w' = image_requests w ∧
    FastWebGL.program self' = FastWebGL.program self ∧
    FastWebGL.vertexShader self' = FastWebGL.vertexShader self ∧
    FastWebGL.fragmentShader self' = FastWebGL.fragmentShader self ∧
    FastWebGL.textures self' = FastWebGL.textures self ∧
    FastWebGL.uniforms self' = FastWebGL.uniforms self ∧
    FastWebGL.attribLocations self' = FastWebGL.attribLocations self.
Proof.
  apply (calls_keep_every_resource
           [call_draw; call_updateUniform "u_time" (VNum 1.5%Q);
            call_updateUniform "u_colour" (VNum 1%Q); call_resize 640 480;
            call_draw]
           Example.constructed (snd Example.construction)).
  vm_compute. reflexivity.
Defined.

(** X6 on the same calls: two draws and one update of a registered name
    make three redraws. *)
Lemma calls_redraw_count_example :
  let cs :=
    [call_draw; call_updateUniform "u_time" (VNum 1.5%Q);
     call_updateUniform "u_colour" (VNum 1%Q); call_resize 640 480;
     call_draw] in
  let self := Example.constructed in
  let w := snd Example.construction in
  ∃ (self' : FastWebGL.t Q) (w' : World Q) (calls : list (GLCall Q)),
    run_calls self cs w = (Return self', w') ∧
    gl_log w' = gl_log w ++ calls ∧
    count_draws calls = 3%nat.
Proof.
  apply (calls_redraw_count
           [call_draw; call_updateUniform "u_time" (VNum 1.5%Q);
            call_updateUniform "u_colour" (VNum 1%Q); call_resize 640 480;
            call_draw]
           Example.constructed (snd Example.construction)).
  vm_compute. reflexivity.
Defined.

(** X7 on the constructed example: a resize, an update and a draw. *)
Lemma calls_keep_size_and_canvas_equal_example :
  let cs :=
    [call_resize 1024 768; call_updateUniform "u_time" (VNum 1.5%Q);
     call_draw] in
  let self := Example.constructed in
  let w := snd Example.construction in
  ∃ (self' : FastWebGL.t Q) (w' : World Q),
    run_calls self cs w = (Return self', w') ∧
    (FastWebGL.width self', FastWebGL.height self') = (1024%Q, 768%Q) ∧
    FastWebGL.width self' = inject_Z (canvas_width w') ∧
    FastWebGL.height self' = inject_Z (canvas_height w') ∧
    FastWebGL.draw self' w' =
      (Return tt,
       with_calls w'
         [viewport 0 0 (FastWebGL.width self') (FastWebGL.height self');
          clearColor 0 0 0 0; clear COLOR_BUFFER_BIT;
          useProgram (ProgramHandle 2); drawArrays TRIANGLES 0 6]).
Proof.
  apply (calls_keep_size_and_canvas_equal
           [call_resize 1024 768; call_updateUniform "u_time" (VNum 1.5%Q);
            call_draw]
           Example.constructed (snd Example.construction)).
  - vm_compute. reflexivity.
  - vm_compute. reflexivity.
  - vm_compute. reflexivity.
  - vm_compute. reflexivity.
Defined.

(** X8 on the example instance: two updates of [u_time] and one of an
    unknown name. *)
Lemma last_update_wins_example :
  let updates :=
    [("u_time", VNum 1%Q); ("u_colour", VNum 2%Q); ("u_time", VNum 3%Q)] in
  ∃ (self' : FastWebGL.t Q) (w' : World Q),
    updateUniforms Example.instance updates Example.world
      = (Return self', w') ∧
    ∀ name : string,
      FastWebGL.uniformValues self' !! name =
        match FastWebGL.uniforms Example.instance !! name,
              last_update updates name with
        | Some _, Some v => Some v
        | _, _ => FastWebGL.uniformValues Example.instance !! name
        end.
Proof.
  apply (last_update_wins
           [("u_time", VNum 1%Q); ("u_colour", VNum 2%Q);
            ("u_time", VNum 3%Q)]
           Example.instance Example.world).
  vm_compute. reflexivity.
Defined.

(** X16 on the constructed example in the browser, for [valueOf]. *)
Lemma updateUniform_inherited_name_example :
  let self := Example.constructed in
  let w := snd Example.construction in
  let value := VArr [1%Q; 2%Q] in
  let self' :=
    FastWebGL.set_uniformValues self
      (FastWebGL.assign_new "valueOf" value (FastWebGL.uniformValues self)) in
  let redraw :=
    draw_calls (FastWebGL.program self) (canvas_width w) (canvas_height w) in
  FastWebGL.updateUniform_fields self "valueOf" value = self' ∧
  (encodable value = true →
   ∀ msg : string,
     uniform_type_error (env w) = Some msg →
     FastWebGL.updateUniform self "valueOf" value w
       = (Throw {| message := msg |}, w)) ∧
  (encodable value = true →
   uniform_type_error (env w) = None →
   ∃ upload : list (GLCall Q),
     FastWebGL.updateUniform self "valueOf" value w
       = (Return self', with_calls w (upload ++ redraw)) ∧
     upload = upload_calls (Inherited "valueOf") value ∧
     uploads upload = upload ∧ length upload = 1%nat) ∧
  (encodable value = false →
   FastWebGL.updateUniform self "valueOf" value w
     = (Return self', with_calls w redraw)) ∧
  ("valueOf" ≠ "__proto__" →
   FastWebGL.uniformValues self' !! "valueOf" = Some value) ∧
  ("valueOf" = "__proto__" →
   FastWebGL.uniformValues self' = FastWebGL.uniformValues self).
Proof.
  apply (updateUniform_inherited_name Example.constructed "valueOf"
           (VArr [1%Q; 2%Q]) (snd Example.construction)).
  - vm_compute. reflexivity.
  - apply (bool_decide_unpack ("valueOf" ∈ Object_prototype)).
    vm_compute. exact I.
Defined.

(** X10 on the example. *)
Lemma construction_sends_exactly_example :
  gl_log (snd Example.construction)
    = gl_log Example.world
      ++ construction_calls Example.driver 0 Example.params ∧
  fresh (snd Example.construction) = 6%nat ∧
  count_draws (construction_calls Example.driver 0 Example.params) = 1%nat ∧
  FastWebGL.getProgram Example.constructed = ProgramHandle 2.
Proof.
  apply (construction_sends_exactly Example.params Example.world
           Example.constructed (snd Example.construction)).
  vm_compute. reflexivity.
Defined.

(** X11 on the example, whose options give 800 by 600. *)
Lemma construction_resolves_size_example :
  FastWebGL.width Example.constructed = 800%Q ∧
  FastWebGL.height Example.constructed = 600%Q ∧
  canvas_width (snd Example.construction)
    = canvas_dimension 300 (FastWebGL.width Example.constructed) ∧
  canvas_height (snd Example.construction)
    = canvas_dimension 150 (FastWebGL.height Example.constructed) ∧
  (kept_by_canvas (FastWebGL.width Example.constructed) = true →
   inject_Z (canvas_width (snd Example.construction))
     = FastWebGL.width Example.constructed) ∧
  (kept_by_canvas (FastWebGL.height Example.constructed) = true →
   inject_Z (canvas_height (snd Example.construction))
     = FastWebGL.height Example.constructed).
Proof.
  apply (construction_resolves_size Example.params Example.world
           Example.constructed (snd Example.construction)).
  vm_compute. reflexivity.
Defined.

(** X12 on the example, at the registered name u_time. *)
Lemma construction_registers_the_last_descriptor_example :
  FastWebGL.uniformValues Example.constructed !! "u_time" =
    Uniform.value
      <$> last_found (env Example.world)
            (FastWebGL.program Example.constructed)
            (FastWebGL.Params.uniforms Example.params) "u_time" ∧
  FastWebGL.uniforms Example.constructed !! "u_time" =
    match last_found (env Example.world)
            (FastWebGL.program Example.constructed)
            (FastWebGL.Params.uniforms Example.params) "u_time" with
    | Some _ =>
        uniform_location (env Example.world)
          (FastWebGL.program Example.constructed) "u_time"
    | None => None
    end.
Proof.
  apply (construction_registers_the_last_descriptor Example.params
           Example.world Example.constructed (snd Example.construction)).
  vm_compute. reflexivity.
Defined.

(** X13 on the second texture of the example. *)
Lemma onload_binds_the_unit_of_its_descriptor_example :
  let t :=
    {| Texture.program := ProgramHandle 2;
       Texture.texture := TextureHandle 4;
       Texture.unit := 1;
       Texture.name := "u_tex1";
       Texture.source := "b.png";
       Texture.options :=
         {| minFilter := None; magFilter := None;
            wrapS := None; wrapT := None |} |} in
  image_requests (snd Example.construction) = ["a.png"; "b.png"] ∧
  ∃ desc,
    FastWebGL.Params.textures Example.params !! 1%nat = Some desc ∧
    let options :=
      default {| minFilter := None; magFilter := None;
                 wrapS := None; wrapT := None |}
              (FastWebGL.TextureDescriptor.options desc) in
    ∀ w2 : World Q,
      Texture.onload t w2 =
        (Return tt,
         with_calls w2
           [activeTexture 1;
            bindTexture TEXTURE_2D (TextureHandle 4);
            texImage2D TEXTURE_2D 0 RGBA RGBA UNSIGNED_BYTE
              (FastWebGL.TextureDescriptor.source desc);
            texParameteri TEXTURE_2D TEXTURE_MIN_FILTER
              (FilterValue (default LINEAR (minFilter options)));
            texParameteri TEXTURE_2D TEXTURE_MAG_FILTER
              (FilterValue (default LINEAR (magFilter options)));
            texParameteri TEXTURE_2D TEXTURE_WRAP_S
              (WrapValue (default CLAMP_TO_EDGE (wrapS options)));
            texParameteri TEXTURE_2D TEXTURE_WRAP_T
              (WrapValue (default CLAMP_TO_EDGE (wrapT options)));
            uniform1i
              (uniform_location (env w2)
                 (FastWebGL.program Example.constructed)
                 (FastWebGL.TextureDescriptor.name desc))
              1]) ∧
      Texture.onerror t w2 =
        (Throw {| message :=
                    "Failed to load image: "
                    +:+ FastWebGL.TextureDescriptor.source desc |},
         w2).
Proof.
  apply (onload_binds_the_unit_of_its_descriptor Example.params
           Example.world Example.constructed (snd Example.construction)
           1%nat).
  - vm_compute. reflexivity.
  - vm_compute. reflexivity.
Defined.



(** X14 on the example: the buffer numbered 5 is the one handle left. *)
Lemma dispose_releases_all_but_the_buffer_example :
  let textures := [HTexture (TextureHandle 3); HTexture (TextureHandle 4)] in
  let buffer := HBuffer (BufferHandle 5) in
  ∃ ccalls dcalls,
    gl_log (snd Example.construction) = gl_log Example.world ++ ccalls ∧
    (∀ w2 : World Q,
       FastWebGL.dispose Example.constructed w2
         = (Return tt, with_calls w2 dcalls)) ∧
    created ccalls
      = HShader (ShaderHandle 0) :: HShader (ShaderHandle 1)
        :: HProgram (ProgramHandle 2) :: textures ++ [buffer] ∧
    released dcalls
      = HProgram (ProgramHandle 2) :: HShader (ShaderHandle 0)
        :: HShader (ShaderHandle 1) :: textures ∧
    released ccalls = [] ∧
    (∀ h, In h (created ccalls) → In h (released dcalls) ∨ h = buffer) ∧
    ¬ In buffer (released dcalls).
Proof.
  apply (dispose_releases_all_but_the_buffer Example.params Example.world
           Example.constructed (snd Example.construction)).
  vm_compute. reflexivity.
Defined.

(** X15 on the host that rejects the fragment shader. *)
Lemma failed_construction_shows_nothing_example :
  let w := Example.world_of Example.fragment_rejected in
  let w' := snd (FastWebGL.new Example.params w) in
  canvas_width w' = 300 ∧ canvas_height w' = 150 ∧
  ∃ calls,
    gl_log w' = gl_log w ++ calls ∧
    count_draws calls = 0%nat ∧ uploads calls = [].
Proof.
  apply (failed_construction_shows_nothing Example.params
           (Example.world_of Example.fragment_rejected)
           {| message := "Error compiling shader:ERROR: 0:1: syntax error" |}
           (snd (FastWebGL.new Example.params
                   (Example.world_of Example.fragment_rejected)))).
  vm_compute. reflexivity.
Defined.
